(** * footprint_analyzer: the bar-formation and aggregation engine

    A shallow embedding of [footprint_analyzer/domain.py],
    [footprint_analyzer/config.py] and [footprint_analyzer/engine.py],
    and the properties of the engine proved over it.

    Modelling conventions.
    - Python [int] is [Z].
    - Python [float] is a double, written as the rational number it is
      ([Q]).  Where Python rounds, the model rounds: [Py.fl] is the
      nearest double (53 significant bits, ties to even), and
      [Py.truediv], [Py.fmul] and [Py.float] are [a / b], [a * b] and
      [float(n)].  A float the caller hands to the code (a price, the
      tick size, the value area percentage) is given as a rational and
      stands for the nearest double.  The exponent range of doubles is
      not modelled: nothing overflows or underflows, every float is
      finite.  Comparisons of floats, and of an int with a float, are
      exact in Python; they are [Qeq_bool] and [Qle_bool].
    - The dominance ratio of a level is kept as the exact quotient of its
      two integers (nothing is decided on it); [float('inf')] there is
      the constructor [PosInf] of [pyfloat].
    - [datetime] is the number of microseconds since the epoch ([Z]);
      a pandas duration is a number of microseconds.
    - A [dict] is an association list in insertion order, as Python
      iterates it.
    - A raised exception, and a loop that never leaves, are the [Err]
      case of [res]. *)

From Stdlib Require Import Ascii String DecimalString.
From Stdlib Require Import ZArith QArith Qround Qpower Lqa Lia Bool List.
From Stdlib Require Import Permutation Sorted.
Import ListNotations.

Local Open Scope Z_scope.

(** ** Results of fallible code *)

Inductive exn : Type :=
| ZeroDivisionError
| ValueError
| TypeError
| KeyError
| IndexError
| Diverges.

Inductive res (A : Type) : Type :=
| Ok (a : A)
| Err (e : exn).

Arguments Ok {A} a.
Arguments Err {A} e.

Definition bind {A B : Type} (m : res A) (k : A -> res B) : res B :=
  match m with
  | Ok a => k a
  | Err e => Err e
  end.

Notation "x <- m ;; k" := (bind m (fun x => k))
  (at level 61, m at next level, right associativity).

(** ** Python built-ins used by the code *)

Module Py.

(** [round(x)] on a float: to the nearest integer, halves to even. *)
Definition round (x : Q) : Z :=
  let f := Qfloor x in
  match Qcompare (x - inject_Z f) (1 # 2) with
  | Lt => f
  | Gt => f + 1
  | Eq => if Z.even f then f else f + 1
  end.

(** The exponent [e] of the last place of a positive double:
    [2 ^ (e + 52) <= x < 2 ^ (e + 53)]. *)
Definition ulp_exponent (x : Q) : Z :=
  let k := Z.log2 (Qnum x) - Z.log2 (Zpos (Qden x)) in
  if Qle_bool (2 ^ k) x then k - 52 else k - 53.

(** The double nearest to [x > 0]: the significand is [x] over a unit in
    the last place, rounded to an integer, halves to even. *)
Definition fl_pos (x : Q) : Q :=
  let e := ulp_exponent x in
  (inject_Z (round (x / 2 ^ e)) * 2 ^ e)%Q.

(** The double nearest to [x]. *)
Definition fl (x : Q) : Q :=
  match Qnum x with
  | Z0 => 0%Q
  | Zpos _ => Qred (fl_pos x)
  | Zneg _ => Qred (- fl_pos (- x))
  end.

(** [float(n)], the conversion [n * x] and [n / x] apply to an int. *)
Definition float (n : Z) : Q := fl (inject_Z n).

(** [a * b] on floats. *)
Definition fmul (a b : Q) : Q := fl (a * b).

(** [a / b] on floats. *)
Definition truediv (a b : Q) : res Q :=
  if Qeq_bool b 0 then Err ZeroDivisionError else Ok (fl (a / b)).

(** [max(a, b)] and [min(a, b)] on floats: the first argument wins a
    tie. *)
Definition fmax (a b : Q) : Q := if Qle_bool b a then a else b.
Definition fmin (a b : Q) : Q := if Qle_bool a b then a else b.

(** [sum(f(x) for x in l)]. *)
Definition sum {A : Type} (f : A -> Z) (l : list A) : Z :=
  fold_left (fun acc x => acc + f x) l 0.

(** [max(l, key=f, default=None)]: the first element whose key is
    maximal. *)
Fixpoint max_from {A : Type} (key : A -> Z) (best : A) (l : list A) : A :=
  match l with
  | [] => best
  | x :: l' => max_from key (if key best <? key x then x else best) l'
  end.

Definition max_by {A : Type} (key : A -> Z) (l : list A) : option A :=
  match l with
  | [] => None
  | x :: l' => Some (max_from key x l')
  end.

(** [sorted(l)] on floats (stable insertion into an ascending list). *)
Fixpoint insert (x : Q) (l : list Q) : list Q :=
  match l with
  | [] => [x]
  | y :: l' => if Qle_bool y x then y :: insert x l' else x :: y :: l'
  end.

Definition sorted (l : list Q) : list Q :=
  fold_left (fun acc x => insert x acc) l [].

(** [l.index(x)]. *)
Fixpoint index_from (x : Q) (l : list Q) (i : Z) : res Z :=
  match l with
  | [] => Err ValueError
  | y :: l' => if Qeq_bool y x then Ok i else index_from x l' (i + 1)
  end.

Definition index (l : list Q) (x : Q) : res Z := index_from x l 0.

Definition len {A : Type} (l : list A) : Z := Z.of_nat (length l).

(** [l[i]], with Python's negative indices. *)
Definition getitem {A : Type} (l : list A) (i : Z) : res A :=
  let j := if i <? 0 then i + len l else i in
  if (j <? 0) || (len l <=? j) then Err IndexError
  else match nth_error l (Z.to_nat j) with
       | Some a => Ok a
       | None => Err IndexError
       end.

End Py.

(** ** A [dict] keyed by floats, in insertion order *)

Module Dict.

Definition t (V : Type) : Type := list (Q * V).

Fixpoint get {V : Type} (d : t V) (k : Q) : option V :=
  match d with
  | [] => None
  | (k', v) :: d' => if Qeq_bool k' k then Some v else get d' k
  end.

Definition mem {V : Type} (d : t V) (k : Q) : bool :=
  match get d k with Some _ => true | None => false end.

(** [d[k] = v]: an existing key keeps its place, a new one goes last. *)
Fixpoint set {V : Type} (d : t V) (k : Q) (v : V) : t V :=
  match d with
  | [] => [(k, v)]
  | (k', v') :: d' =>
      if Qeq_bool k' k then (k', v) :: d' else (k', v') :: set d' k v
  end.

Definition keys {V : Type} (d : t V) : list Q := map fst d.
Definition values {V : Type} (d : t V) : list V := map snd d.

(** [d[k]] *)
Definition getitem {V : Type} (d : t V) (k : Q) : res V :=
  match get d k with Some v => Ok v | None => Err KeyError end.

End Dict.

(** ** The fragment of pandas the engine calls

    [pd.Timedelta(s)] and [pd.Timestamp(t).floor(s)] are modelled on the
    fixed frequencies the configuration documents ("1min", "5H"): a
    decimal count followed by a unit.  Anything else is a [ValueError]
    of the model. *)

Module Pandas.

Definition digit_of (c : ascii) : option Z :=
  let n := Z.of_nat (nat_of_ascii c) in
  if (48 <=? n) && (n <=? 57) then Some (n - 48) else None.

(** The leading decimal count of [s], when it has one, and the rest. *)
Fixpoint split_count (s : string) (acc : option Z) : option Z * string :=
  match s with
  | EmptyString => (acc, s)
  | String c s' =>
      match digit_of c with
      | Some d =>
          split_count s' (Some (10 * match acc with Some a => a | None => 0 end + d))
      | None => (acc, s)
      end
  end.

(** Microseconds in one unit. *)
Definition unit_us (u : string) : option Z :=
  if String.eqb u "us" then Some 1
  else if String.eqb u "ms" then Some 1000
  else if String.eqb u "s" then Some 1000000
  else if String.eqb u "min" then Some 60000000
  else if String.eqb u "h" then Some 3600000000
  else if String.eqb u "H" then Some 3600000000
  else if String.eqb u "D" then Some 86400000000
  else None.

(** [pd.Timedelta(s)]: the count is required. *)
Definition Timedelta (s : string) : res Z :=
  match split_count s None with
  | (Some n, u) =>
      match unit_us u with
      | Some us => Ok (n * us)
      | None => Err ValueError
      end
  | (None, _) => Err ValueError
  end.

(** The frequency of [floor]: the count defaults to one. *)
Definition to_offset (freq : string) : res Z :=
  let '(n, u) := split_count freq None in
  match unit_us u with
  | Some us => Ok (match n with Some k => k | None => 1 end * us)
  | None => Err ValueError
  end.

(** [pd.Timestamp(t).floor(freq)]: down to a multiple of the frequency
    since the epoch. *)
Definition floor (t : Z) (freq : string) : res Z :=
  d <- to_offset freq ;;
  if d =? 0 then Err ValueError else Ok (d * (t / d)).

End Pandas.

(** ** domain.py *)

Inductive AggregationType : Type := TIME | TICK | VOLUME | RANGE | REVERSAL.

(** A float that may be [float('inf')]. *)
Inductive pyfloat : Type :=
| Finite (q : Q)
| PosInf.

(** [Literal["set_to_one", "inf"]] *)
Inductive zero_handling : Type := set_to_one | inf.

Record PriceLevelData : Type := mkPriceLevelData {
  price : Q;
  bid_volume : Z;
  ask_volume : Z;
  bid_trades : Z;
  ask_trades : Z;
  total_volume : Z;
  total_trades : Z;
  delta : Z;
  is_ask_dominant : bool;
  dominance_ratio : pyfloat
}.

(** [PriceLevelData.update_derived_metrics] *)
Definition update_derived_metrics (self : PriceLevelData)
    (zh : zero_handling) : PriceLevelData :=
  let total_volume' := bid_volume self + ask_volume self in
  let total_trades' := bid_trades self + ask_trades self in
  let delta' := ask_volume self - bid_volume self in
  let is_ask_dominant' := ask_volume self >=? bid_volume self in
  let numerator := if is_ask_dominant' then ask_volume self else bid_volume self in
  let denominator := if is_ask_dominant' then bid_volume self else ask_volume self in
  let denominator' :=
    if denominator =? 0
    then match zh with set_to_one => 1 | inf => denominator end
    else denominator in
  let dominance_ratio' :=
    if (denominator =? 0) && (denominator' =? 0)
    then (if numerator >? 0 then PosInf else Finite 0)
    else Finite (inject_Z numerator / inject_Z denominator') in
  mkPriceLevelData (price self) (bid_volume self) (ask_volume self)
    (bid_trades self) (ask_trades self)
    total_volume' total_trades' delta' is_ask_dominant' dominance_ratio'.

(** The constructor followed by [__post_init__]:
    [PriceLevelData(price, bid_volume, ask_volume, bid_trades, ask_trades)].
    The derived fields do not exist before [__post_init__] assigns them;
    the values they are given here are overwritten. *)
Definition PriceLevelData_init (p : Q) (bv av bt atr : Z) : PriceLevelData :=
  update_derived_metrics
    (mkPriceLevelData p bv av bt atr 0 0 0 false (Finite 0)) set_to_one.

Record FootprintBar : Type := mkFootprintBar {
  start_time : Z;
  end_time : Z;
  open_price : Q;
  high_price : Q;
  low_price : Q;
  close_price : Q;
  price_levels : Dict.t PriceLevelData;
  total_bar_volume : Z;
  total_bar_ask_volume : Z;
  total_bar_bid_volume : Z;
  total_bar_trades : Z;
  bar_delta : Z;
  poc_price : option Q;
  value_area_high : option Q;
  value_area_low : option Q;
  is_up_bar : bool;
  tick_count : Z;
  current_aggregated_volume : Z;
  bar_direction : Z;
  extreme_price_during_formation : option Q
}.

(** [FootprintBar(start_time, end_time, open_price, high_price, low_price,
    close_price)] with the dataclass defaults. *)
Definition FootprintBar_init (st et : Z) (o h l c : Q) : FootprintBar :=
  mkFootprintBar st et o h l c [] 0 0 0 0 0 None None None false 0 0 0 None.

(** The summary fields [update_bar_statistics] assigns. *)
Definition with_statistics (self : FootprintBar)
    (tv tav tbv tt bd : Z) (poc vah val : option Q) (up : bool) : FootprintBar :=
  mkFootprintBar (start_time self) (end_time self) (open_price self)
    (high_price self) (low_price self) (close_price self) (price_levels self)
    tv tav tbv tt bd poc vah val up
    (tick_count self) (current_aggregated_volume self) (bar_direction self)
    (extreme_price_during_formation self).

(** [vol_above] and [vol_below] of lines 156-157: the volume of the
    level next to the window on either side, 0 when there is none. *)
Definition vol_above (levels : Dict.t PriceLevelData) (sorted_prices : list Q)
    (high_idx : Z) : res Z :=
  if high_idx + 1 <? Py.len sorted_prices
  then (k <- Py.getitem sorted_prices (high_idx + 1) ;;
        l <- Dict.getitem levels k ;;
        Ok (total_volume l))
  else Ok 0.

Definition vol_below (levels : Dict.t PriceLevelData) (sorted_prices : list Q)
    (low_idx : Z) : res Z :=
  if low_idx - 1 >=? 0
  then (k <- Py.getitem sorted_prices (low_idx - 1) ;;
        l <- Dict.getitem levels k ;;
        Ok (total_volume l))
  else Ok 0.

(** The [while] loop of the Value Area search, lines 155-167.  One unit
    of [fuel] is one evaluation of the loop condition; [Err Diverges]
    when the fuel is spent. *)
Fixpoint va_loop (fuel : nat) (levels : Dict.t PriceLevelData)
    (sorted_prices : list Q) (target_va_volume : Q)
    (va_volume low_idx high_idx : Z) : res (Z * Z) :=
  match fuel with
  | O => Err Diverges
  | S fuel' =>
      if Qle_bool target_va_volume (inject_Z va_volume)
      then Ok (low_idx, high_idx)
      else
        above <- vol_above levels sorted_prices high_idx ;;
        below <- vol_below levels sorted_prices low_idx ;;
        if (above =? 0) && (below =? 0)
        then Ok (low_idx, high_idx)
        else if above >=? below
        then va_loop fuel' levels sorted_prices target_va_volume
               (va_volume + above) low_idx (high_idx + 1)
        else va_loop fuel' levels sorted_prices target_va_volume
               (va_volume + below) (low_idx - 1) high_idx
  end.

(** [self.total_bar_volume * value_area_percentage] of line 148: the int
    is converted to a float and the product is rounded. *)
Definition target_va_volume (total_bar_volume : Z) (value_area_percentage : Q)
  : Q :=
  Py.fmul (Py.float total_bar_volume) (Py.fl value_area_percentage).

(** [FootprintBar.update_bar_statistics].  The loop is given one more
    unit of fuel than there are price levels; [va_loop_fuel_enough]
    below shows that a loop which has not left by then never leaves. *)
Definition update_bar_statistics (self : FootprintBar)
    (value_area_percentage : Q) : res FootprintBar :=
  let is_up_bar' := Qle_bool (open_price self) (close_price self) in
  match price_levels self with
  | [] =>
      Ok (with_statistics self (total_bar_volume self)
            (total_bar_ask_volume self) (total_bar_bid_volume self)
            (total_bar_trades self) (bar_delta self) (poc_price self)
            (value_area_high self) (value_area_low self) is_up_bar')
  | _ :: _ =>
      let levels := Dict.values (price_levels self) in
      let total_bar_volume' := Py.sum total_volume levels in
      let total_bar_ask_volume' := Py.sum ask_volume levels in
      let total_bar_bid_volume' := Py.sum bid_volume levels in
      let total_bar_trades' := Py.sum total_trades levels in
      let bar_delta' := total_bar_ask_volume' - total_bar_bid_volume' in
      let poc_price' :=
        match Py.max_by total_volume levels with
        | Some poc_level => Some (price poc_level)
        | None => poc_price self
        end in
      va <-
        match poc_price' with
        | Some poc =>
            if total_bar_volume' >? 0 then
              let target_va_volume :=
                target_va_volume total_bar_volume' value_area_percentage in
              let sorted_prices := Py.sorted (Dict.keys (price_levels self)) in
              poc_index <- Py.index sorted_prices poc ;;
              poc_level <- Dict.getitem (price_levels self) poc ;;
              idx <- va_loop (S (List.length sorted_prices)) (price_levels self)
                       sorted_prices target_va_volume
                       (total_volume poc_level) poc_index poc_index ;;
              high <- Py.getitem sorted_prices (snd idx) ;;
              low <- Py.getitem sorted_prices (fst idx) ;;
              Ok (Some high, Some low)
            else Ok (value_area_high self, value_area_low self)
        | None => Ok (value_area_high self, value_area_low self)
        end ;;
      Ok (with_statistics self total_bar_volume' total_bar_ask_volume'
            total_bar_bid_volume' total_bar_trades' bar_delta' poc_price'
            (fst va) (snd va) is_up_bar')
  end.

(** ** config.py *)

(** [Union[str, int]] *)
Inductive agg_value : Type :=
| AggStr (s : string)
| AggInt (n : Z).

Record FootprintEngineConfig : Type := mkFootprintEngineConfig {
  tick_size : Q;
  aggregation_type : AggregationType;
  aggregation_value : agg_value;
  value_area_percentage : Q;
  enable_bid_ask_ratios_with_zeros_as_ones : bool;
  max_bars_in_memory : Z
}.

(** [FootprintEngineConfig.get_zero_handling_for_ratios] *)
Definition get_zero_handling_for_ratios (self : FootprintEngineConfig)
  : zero_handling :=
  if enable_bid_ask_ratios_with_zeros_as_ones self then set_to_one else inf.

(** [str(agg_val)] *)
Definition str (v : agg_value) : string :=
  match v with
  | AggStr s => s
  | AggInt n => DecimalString.NilZero.string_of_int (Z.to_int n)
  end.

(** ** engine.py *)

(** One row of the DataFrame handed to [process_tick_batch]. *)
Module Tick.
Record t : Type := mk {
  datetime : Z;
  price : Q;
  volume : Z;
  is_bid_trade : bool
}.
End Tick.

Record FootprintEngine : Type := mkFootprintEngine {
  config : FootprintEngineConfig;
  bars : list FootprintBar;
  current_bar : option FootprintBar;
  _total_ticks_processed : Z
}.

(** [FootprintEngine.__init__] *)
Definition FootprintEngine_init (cfg : FootprintEngineConfig) : FootprintEngine :=
  mkFootprintEngine cfg [] None 0.

(** [round(price / self.config.tick_size) * self.config.tick_size]: the
    float quotient is rounded to an int, which is converted back to a
    float for the float product.  The price and the tick size are finite
    doubles and the quotient does not overflow here, so [round] is never
    given an infinity or a NaN, on which Python raises. *)
Definition rounded (cfg : FootprintEngineConfig) (p : Q) : res Q :=
  let tick_size := Py.fl (tick_size cfg) in
  q <- Py.truediv (Py.fl p) tick_size ;;
  Ok (Py.fmul (Py.float (Py.round q)) tick_size).

(** [FootprintEngine._should_create_new_bar], called with a current bar. *)
Definition _should_create_new_bar (cfg : FootprintEngineConfig)
    (cur : FootprintBar) (timestamp : Z) (p : Q) : res bool :=
  let agg_val := aggregation_value cfg in
  match aggregation_type cfg with
  | TIME =>
      d <- Pandas.Timedelta (str agg_val) ;;
      let interval_end := start_time cur + d in
      Ok (timestamp >=? interval_end)
  | TICK =>
      match agg_val with
      | AggInt n => Ok (tick_count cur >=? n)
      | AggStr _ => Err TypeError
      end
  | VOLUME =>
      match agg_val with
      | AggInt n => Ok (current_aggregated_volume cur >=? n)
      | AggStr _ => Err TypeError
      end
  | RANGE | REVERSAL => Ok false
  end.

(** The start time [_create_new_bar] gives the bar, lines 112-115. *)
Definition new_start_time (cfg : FootprintEngineConfig) (timestamp : Z) : res Z :=
  match aggregation_type cfg with
  | TIME => Pandas.floor timestamp (str (aggregation_value cfg))
  | _ => Ok timestamp
  end.

(** [FootprintEngine._create_new_bar] *)
Definition _create_new_bar (self : FootprintEngine) (timestamp : Z) (p : Q)
  : res FootprintEngine :=
  let cfg := config self in
  rounded_price <- rounded cfg p ;;
  start <- new_start_time cfg timestamp ;;
  Ok (mkFootprintEngine cfg (bars self)
        (Some (FootprintBar_init start timestamp
                 rounded_price rounded_price rounded_price rounded_price))
        (_total_ticks_processed self)).

(** [self.bars.append(bar)] followed by the eviction of lines 135-136. *)
Definition append_evict (cfg : FootprintEngineConfig)
    (history : list FootprintBar) (bar : FootprintBar) : list FootprintBar :=
  let history' := history ++ [bar] in
  if Py.len history' >? max_bars_in_memory cfg then tl history' else history'.

(** [FootprintEngine._finalize_current_bar] *)
Definition _finalize_current_bar (self : FootprintEngine) : res FootprintEngine :=
  let cfg := config self in
  match current_bar self with
  | None => Ok self
  | Some cur =>
      cur' <- update_bar_statistics cur (value_area_percentage cfg) ;;
      Ok (mkFootprintEngine cfg (append_evict cfg (bars self) cur') None
            (_total_ticks_processed self))
  end.

(** Lines 54-73 of [process_tick]: the tick folded into the current
    bar. *)
Definition fold_tick (cfg : FootprintEngineConfig) (cur : FootprintBar)
    (timestamp : Z) (rounded_price : Q) (vol : Z) (is_bid : bool) : FootprintBar :=
  let levels :=
    if Dict.mem (price_levels cur) rounded_price then price_levels cur
    else Dict.set (price_levels cur) rounded_price
           (PriceLevelData_init rounded_price 0 0 0 0) in
  let levels' :=
    match Dict.get levels rounded_price with
    | Some level_data =>
        let level_data' :=
          if is_bid
          then mkPriceLevelData (price level_data)
                 (bid_volume level_data + vol) (ask_volume level_data)
                 (bid_trades level_data + 1) (ask_trades level_data)
                 (total_volume level_data) (total_trades level_data)
                 (delta level_data) (is_ask_dominant level_data)
                 (dominance_ratio level_data)
          else mkPriceLevelData (price level_data)
                 (bid_volume level_data) (ask_volume level_data + vol)
                 (bid_trades level_data) (ask_trades level_data + 1)
                 (total_volume level_data) (total_trades level_data)
                 (delta level_data) (is_ask_dominant level_data)
                 (dominance_ratio level_data) in
        Dict.set levels rounded_price
          (update_derived_metrics level_data' (get_zero_handling_for_ratios cfg))
    | None => levels
    end in
  mkFootprintBar (start_time cur) timestamp (open_price cur)
    (Py.fmax (high_price cur) rounded_price)
    (Py.fmin (low_price cur) rounded_price)
    rounded_price levels'
    (total_bar_volume cur) (total_bar_ask_volume cur)
    (total_bar_bid_volume cur) (total_bar_trades cur) (bar_delta cur)
    (poc_price cur) (value_area_high cur) (value_area_low cur) (is_up_bar cur)
    (tick_count cur + 1) (current_aggregated_volume cur + vol)
    (bar_direction cur) (extreme_price_during_formation cur).

(** [FootprintEngine.process_tick].  An exception leaves the model with
    [Err]; the partly updated engine Python would leave behind is not
    modelled. *)
Definition process_tick (self : FootprintEngine) (timestamp : Z) (p : Q)
    (vol : Z) (is_bid : bool) : res FootprintEngine :=
  let cfg := config self in
  let self := mkFootprintEngine cfg (bars self) (current_bar self)
                (_total_ticks_processed self + 1) in
  create <-
    match current_bar self with
    | None => Ok true
    | Some cur => _should_create_new_bar cfg cur timestamp p
    end ;;
  self <-
    (if create : bool then
       self <-
         match current_bar self with
         | Some _ => _finalize_current_bar self
         | None => Ok self
         end ;;
       _create_new_bar self timestamp p
     else Ok self) ;;
  match current_bar self with
  | None => Ok self
  | Some cur =>
      rounded_price <- rounded cfg p ;;
      Ok (mkFootprintEngine cfg (bars self)
            (Some (fold_tick cfg cur timestamp rounded_price vol is_bid))
            (_total_ticks_processed self))
  end.

(** The loop of [process_tick_batch] over the rows. *)
Fixpoint process_ticks (self : FootprintEngine) (ticks : list Tick.t)
  : res FootprintEngine :=
  match ticks with
  | [] => Ok self
  | tick :: ticks' =>
      self' <- process_tick self (Tick.datetime tick) (Tick.price tick)
                 (Tick.volume tick) (Tick.is_bid_trade tick) ;;
      process_ticks self' ticks'
  end.

(** [FootprintEngine.process_tick_batch] *)
Definition process_tick_batch (self : FootprintEngine) (ticks_df : list Tick.t)
  : res FootprintEngine :=
  self <- process_ticks self ticks_df ;;
  match current_bar self with
  | Some cur =>
      cur' <- update_bar_statistics cur (value_area_percentage (config self)) ;;
      Ok (mkFootprintEngine (config self) (bars self) (Some cur')
            (_total_ticks_processed self))
  | None => Ok self
  end.

(** [FootprintEngine.get_all_completed_bars] *)
Definition get_all_completed_bars (self : FootprintEngine) : list FootprintBar :=
  bars self.

(** ** Callers of the engine *)

(** What a caller can do to an engine. *)
Inductive op : Type :=
| OpTick (tick : Tick.t)
| OpBatch (ticks : list Tick.t)
| OpFinalize.

Definition exec (self : FootprintEngine) (o : op) : res FootprintEngine :=
  match o with
  | OpTick tick =>
      process_tick self (Tick.datetime tick) (Tick.price tick)
        (Tick.volume tick) (Tick.is_bid_trade tick)
  | OpBatch ticks => process_tick_batch self ticks
  | OpFinalize => _finalize_current_bar self
  end.

Fixpoint run (self : FootprintEngine) (ops : list op) : res FootprintEngine :=
  match ops with
  | [] => Ok self
  | o :: ops' => self' <- exec self o ;; run self' ops'
  end.

(** ** Predicates of the specification *)

(** The derived fields of a level agree with its raw counters. *)
Definition consistent (l : PriceLevelData) : Prop :=
  total_volume l = bid_volume l + ask_volume l /\
  total_trades l = bid_trades l + ask_trades l /\
  delta l = ask_volume l - bid_volume l.

(** Every level an observer of the engine can reach: those of the
    finalized bars and those of the bar in progress. *)
Definition observable_bars (self : FootprintEngine) : list FootprintBar :=
  bars self ++ match current_bar self with Some cur => [cur] | None => [] end.

Definition observable_levels (self : FootprintEngine) : list PriceLevelData :=
  flat_map (fun b => Dict.values (price_levels b)) (observable_bars self).

Definition levels_consistent (b : FootprintBar) : Prop :=
  Forall consistent (Dict.values (price_levels b)).

(** The invariant: every bar of the history and the bar in progress has
    consistent levels. *)
Definition engine_consistent (e : FootprintEngine) : Prop :=
  Forall levels_consistent (bars e) /\
  match current_bar e with
  | Some cur => levels_consistent cur
  | None => True
  end.

(** ** The data of tests/test_engine.py *)

Definition example_config : FootprintEngineConfig :=
  mkFootprintEngineConfig (1 # 4) TIME (AggStr "1min") (7 # 10) true 10000.

(** [datetime(2025, 8, 9, 10, 0, 0)] *)
Definition example_start : Z := 1754733600000000.

Definition seconds (n : Z) : Z := n * 1000000.

Definition tick_data_1min : list Tick.t :=
  [ Tick.mk example_start 100 10 false;
    Tick.mk (example_start + seconds 10) (10025 # 100) 5 true;
    Tick.mk (example_start + seconds 59) 100 8 false;
    Tick.mk (example_start + seconds 61) 101 20 false ].

(** The engine after a stream of ticks (the untouched engine when the
    stream raises). *)
Definition engine_after (cfg : FootprintEngineConfig) (ticks : list Tick.t)
  : FootprintEngine :=
  match process_ticks (FootprintEngine_init cfg) ticks with
  | Ok e => e
  | Err _ => FootprintEngine_init cfg
  end.


(** TIME aggregation with a duration of [d] microseconds. *)
Definition time_mode (cfg : FootprintEngineConfig) (d : Z) : Prop :=
  aggregation_type cfg = TIME /\
  Pandas.Timedelta (str (aggregation_value cfg)) = Ok d /\
  0 < d.

(** The four ticks of the end-to-end example, at the given instants. *)
Definition four_ticks (t1 t2 t3 t4 : Z) : list Tick.t :=
  [ Tick.mk t1 100 10 false;
    Tick.mk t2 (10025 # 100) 5 true;
    Tick.mk t3 100 8 false;
    Tick.mk t4 101 20 false ].

(** Two ticks at different prices with the same volume: 101.00 first,
    then 100.00. *)
Definition tied_ticks : list Tick.t :=
  [ Tick.mk example_start 101 5 false;
    Tick.mk (example_start + seconds 1) 100 5 true ].

Definition tied_bar : FootprintBar :=
  match current_bar (engine_after example_config tied_ticks) with
  | Some b => b
  | None => FootprintBar_init 0 0 0 0 0 0
  end.

(** ** The bars handed to the history

    The bars each call passes to [self.bars.append], in order.  They are
    not stored by the engine: the history keeps the last ones only. *)

Definition last_n {A : Type} (n : nat) (l : list A) : list A :=
  skipn (List.length l - n) l.

Definition finalize_appends (self : FootprintEngine) : list FootprintBar :=
  match current_bar self with
  | Some cur =>
      match update_bar_statistics cur (value_area_percentage (config self)) with
      | Ok cur' => [cur']
      | Err _ => []
      end
  | None => []
  end.

Definition tick_appends (self : FootprintEngine) (tick : Tick.t)
  : list FootprintBar :=
  match current_bar self with
  | Some cur =>
      match _should_create_new_bar (config self) cur
              (Tick.datetime tick) (Tick.price tick) with
      | Ok true => finalize_appends self
      | _ => []
      end
  | None => []
  end.

Fixpoint ticks_appends (self : FootprintEngine) (ticks : list Tick.t)
  : list FootprintBar :=
  match ticks with
  | [] => []
  | tick :: ticks' =>
      tick_appends self tick ++
      match process_tick self (Tick.datetime tick) (Tick.price tick)
              (Tick.volume tick) (Tick.is_bid_trade tick) with
      | Ok self' => ticks_appends self' ticks'
      | Err _ => []
      end
  end.

Definition op_appends (self : FootprintEngine) (o : op) : list FootprintBar :=
  match o with
  | OpTick tick => tick_appends self tick
  | OpBatch ticks => ticks_appends self ticks
  | OpFinalize => finalize_appends self
  end.

Fixpoint run_appends (self : FootprintEngine) (ops : list op)
  : list FootprintBar :=
  match ops with
  | [] => []
  | o :: ops' =>
      op_appends self o ++
      match exec self o with
      | Ok self' => run_appends self' ops'
      | Err _ => []
      end
  end.

(** The history of [e] is what is left of the log of appended bars. *)
Definition history_of (cfg : FootprintEngineConfig) (log : list FootprintBar)
    (e : FootprintEngine) : Prop :=
  config e = cfg /\
  bars e = last_n (Z.to_nat (max_bars_in_memory cfg)) log.

(** ** Bars and the ticks they were built from *)

(** [bar_of cfg ticks b]: the engine built [b] from exactly the ticks
    [ticks], in this order: the bar [_create_new_bar] makes for the first
    tick, each tick folded in by [process_tick], and any number of
    [update_bar_statistics] calls in between. *)
Inductive bar_of (cfg : FootprintEngineConfig) : list Tick.t -> FootprintBar -> Prop :=
| bar_of_first (t : Tick.t) (st : Z) (r : Q) :
    new_start_time cfg (Tick.datetime t) = Ok st ->
    rounded cfg (Tick.price t) = Ok r ->
    bar_of cfg [t]
      (fold_tick cfg (FootprintBar_init st (Tick.datetime t) r r r r)
         (Tick.datetime t) r (Tick.volume t) (Tick.is_bid_trade t))
| bar_of_next (ticks : list Tick.t) (b : FootprintBar) (t : Tick.t) (r : Q) :
    bar_of cfg ticks b ->
    rounded cfg (Tick.price t) = Ok r ->
    bar_of cfg (ticks ++ [t])
      (fold_tick cfg b (Tick.datetime t) r (Tick.volume t) (Tick.is_bid_trade t))
| bar_of_stats (ticks : list Tick.t) (b b' : FootprintBar) (p : Q) :
    bar_of cfg ticks b ->
    update_bar_statistics b p = Ok b' ->
    bar_of cfg ticks b'.

(** The stream [seen] cut into the tick lists of the bars appended to the
    history ([log]) and the tick list of the bar in progress. *)
Definition segmented
    (full good : list Tick.t -> FootprintBar -> Prop)
    (seen : list Tick.t) (log : list FootprintBar) (e : FootprintEngine) : Prop :=
  exists (segs : list (list Tick.t)) (cur : list Tick.t),
    seen = concat segs ++ cur /\
    Forall2 full segs log /\
    match current_bar e with
    | Some b => good cur b
    | None => cur = []
    end.

(** TICK aggregation: a bar in progress, and a bar closed by a boundary
    crossing. *)
Definition tick_good (cfg : FootprintEngineConfig) (N : Z)
    (seg : list Tick.t) (b : FootprintBar) : Prop :=
  bar_of cfg seg b /\
  tick_count b = Py.len seg /\
  1 <= tick_count b <= N.

Definition tick_full (cfg : FootprintEngineConfig) (N : Z)
    (seg : list Tick.t) (b : FootprintBar) : Prop :=
  bar_of cfg seg b /\
  Py.len seg = N /\
  tick_count b = N.

(** TIME aggregation: the bar starts at the floor of its first tick and
    none of its ticks reaches the end of its interval. *)
Definition time_good (cfg : FootprintEngineConfig) (d : Z)
    (seg : list Tick.t) (b : FootprintBar) : Prop :=
  bar_of cfg seg b /\
  exists (t0 : Tick.t) (rest : list Tick.t),
    seg = t0 :: rest /\
    start_time b = d * (Tick.datetime t0 / d) /\
    Forall (fun t => Tick.datetime t < start_time b + d) seg.

(** The configuration and the ticks of [test_tick_aggregation]. *)
Definition tick3_config : FootprintEngineConfig :=
  mkFootprintEngineConfig (1 # 4) TICK (AggInt 3) (7 # 10) true 10000.

Definition three_ticks : list Tick.t :=
  [ Tick.mk example_start 100 1 true;
    Tick.mk example_start 100 1 true;
    Tick.mk example_start 100 1 true ].

Definition fourth_tick : Tick.t := Tick.mk example_start 101 1 true.

(** One tick per bar and a history of two bars. *)
Definition small_history_config : FootprintEngineConfig :=
  mkFootprintEngineConfig (1 # 4) TICK (AggInt 1) (7 # 10) true 2.

(** ** The Value Area *)

(** A bar built from ticks whose volume is positive. *)
Definition built_from_positive_ticks (cfg : FootprintEngineConfig)
    (b : FootprintBar) : Prop :=
  exists ticks : list Tick.t,
    bar_of cfg ticks b /\ Forall (fun t => 0 < Tick.volume t) ticks.

Definition in_range (lo hi x : Q) : bool := Qle_bool lo x && Qle_bool x hi.

(** The sum of total_volume over the levels of [b] whose price lies in
    [[lo, hi]]. *)
Definition volume_between (b : FootprintBar) (lo hi : Q) : Z :=
  Py.sum total_volume
    (filter (fun l => in_range lo hi (price l)) (Dict.values (price_levels b))).

(** Pairwise different floats. *)
Fixpoint distinct (l : list Q) : Prop :=
  match l with
  | [] => True
  | a :: l' => Forall (fun b => ~ (a == b)%Q) l' /\ distinct l'
  end.

(** The levels of a bar built from ticks of positive volume: keys
    pairwise different, each level filed under its own price, with
    consistent and positive total volume. *)
Definition level_ok (kv : Q * PriceLevelData) : Prop :=
  price (snd kv) = fst kv /\
  total_volume (snd kv) = bid_volume (snd kv) + ask_volume (snd kv) /\
  0 < total_volume (snd kv).

Definition levels_ok (d : Dict.t PriceLevelData) : Prop :=
  distinct (Dict.keys d) /\ Forall level_ok d.

(** The volume filed under a price. *)
Definition vol (d : Dict.t PriceLevelData) (k : Q) : Z :=
  match Dict.get d k with
  | Some l => total_volume l
  | None => 0
  end.

Definition zsum (l : list Z) : Z := fold_right Z.add 0 l.

(** What lines 54-65 of [process_tick] do to the dict, as one pass: the
    level at [r], created if need be, is replaced by [f] of itself. *)
Fixpoint touch (d : Dict.t PriceLevelData) (r : Q)
    (f : PriceLevelData -> PriceLevelData) : Dict.t PriceLevelData :=
  match d with
  | [] => [(r, f (PriceLevelData_init r 0 0 0 0))]
  | (k, v) :: d' =>
      if Qeq_bool k r then (k, f v) :: d' else (k, v) :: touch d' r f
  end.

(** The change [process_tick] makes to the raw counters of a level,
    followed by [update_derived_metrics]. *)
Definition add_trade (cfg : FootprintEngineConfig) (v : Z) (side : bool)
    (l : PriceLevelData) : PriceLevelData :=
  update_derived_metrics
    (if side
     then mkPriceLevelData (price l) (bid_volume l + v) (ask_volume l)
            (bid_trades l + 1) (ask_trades l)
            (total_volume l) (total_trades l) (delta l)
            (is_ask_dominant l) (dominance_ratio l)
     else mkPriceLevelData (price l) (bid_volume l) (ask_volume l + v)
            (bid_trades l) (ask_trades l + 1)
            (total_volume l) (total_trades l) (delta l)
            (is_ask_dominant l) (dominance_ratio l))
    (get_zero_handling_for_ratios cfg).

(** The bar in progress, when there is one, was built from ticks of
    positive volume. *)
Definition current_positive (cfg : FootprintEngineConfig) (e : FootprintEngine)
  : Prop :=
  config e = cfg /\
  forall b, current_bar e = Some b -> built_from_positive_ticks cfg b.

(** Three ticks in one minute, the second with a negative volume. *)
Definition negative_volume_ticks : list Tick.t :=
  [ Tick.mk example_start 100 5 false;
    Tick.mk (example_start + seconds 1) (9975 # 100) (-1) false;
    Tick.mk (example_start + seconds 2) (995 # 10) 5 false ].


(** ** Further predicates on bars and ticks *)

(** The volume of a list of ticks, and the ticks of either side. *)
Definition volumes (ticks : list Tick.t) : Z := zsum (map Tick.volume ticks).

Definition bid_ticks (ticks : list Tick.t) : list Tick.t :=
  filter Tick.is_bid_trade ticks.

Definition ask_ticks (ticks : list Tick.t) : list Tick.t :=
  filter (fun t => negb (Tick.is_bid_trade t)) ticks.

(** The shape of the dict of levels, whatever the volumes: keys pairwise
    different, each level filed under its own price and consistent. *)
Definition levels_wf (d : Dict.t PriceLevelData) : Prop :=
  distinct (Dict.keys d) /\
  Forall (fun kv => price (snd kv) = fst kv /\ consistent (snd kv)) d.

(** The bar in progress after the first three ticks of the test data. *)
Definition example_bar : FootprintBar :=
  match current_bar (engine_after example_config (firstn 3 tick_data_1min)) with
  | Some b => b
  | None => FootprintBar_init 0 0 0 0 0 0
  end.

(** VOLUME aggregation: the bar was still short of the threshold before
    its last tick; a closed bar has reached it. *)
Definition volume_good (cfg : FootprintEngineConfig) (V : Z)
    (seg : list Tick.t) (b : FootprintBar) : Prop :=
  bar_of cfg seg b /\
  exists init last, seg = init ++ [last] /\ volumes init < V.

Definition volume_full (cfg : FootprintEngineConfig) (V : Z)
    (seg : list Tick.t) (b : FootprintBar) : Prop :=
  volume_good cfg V seg b /\ V <= current_aggregated_volume b.

(** A bar of exactly one tick. *)
Definition single_tick (cfg : FootprintEngineConfig)
    (seg : list Tick.t) (b : FootprintBar) : Prop :=
  bar_of cfg seg b /\ exists t, seg = [t].

(** No bar at all. *)
Definition no_bar (seg : list Tick.t) (b : FootprintBar) : Prop := False.

(** The tick count of the bar in progress, 0 without one. *)
Definition current_tick_count (e : FootprintEngine) : Z :=
  match current_bar e with
  | Some b => tick_count b
  | None => 0
  end.

(** Configurations of the other modes, on the test data. *)
Definition volume_config : FootprintEngineConfig :=
  mkFootprintEngineConfig (1 # 4) VOLUME (AggInt 15) (7 # 10) true 10000.

Definition range_config : FootprintEngineConfig :=
  mkFootprintEngineConfig (1 # 4) RANGE (AggInt 4) (7 # 10) true 10000.

Definition tick0_config : FootprintEngineConfig :=
  mkFootprintEngineConfig (1 # 4) TICK (AggInt 0) (7 # 10) true 10000.

(** Configurations at the edges: a tick size of zero, a string where
    TICK needs a number, no room in the history. *)
Definition zero_tick_config : FootprintEngineConfig :=
  mkFootprintEngineConfig 0 TICK (AggInt 3) (7 # 10) true 10000.

Definition string_threshold_config : FootprintEngineConfig :=
  mkFootprintEngineConfig (1 # 4) TICK (AggStr "3") (7 # 10) true 10000.

Definition no_history_config : FootprintEngineConfig :=
  mkFootprintEngineConfig (1 # 4) TICK (AggInt 1) (7 # 10) true 0.

(** A tick size that is not a double. *)
Definition tenth_tick_config : FootprintEngineConfig :=
  mkFootprintEngineConfig (1 # 10) TIME (AggStr "1min") (7 # 10) true 10000.

(** Two ticks whose volumes add up to 2^53 + 1, which is not a double,
    and two whose Point of Control holds 68% of the volume. *)
Definition large_volume_ticks : list Tick.t :=
  [ Tick.mk example_start 100 (2 ^ 53) false;
    Tick.mk (example_start + seconds 10) (10025 # 100) 1 true ].

Definition rounded_target_ticks : list Tick.t :=
  [ Tick.mk example_start 100 51 false;
    Tick.mk (example_start + seconds 10) (10025 # 100) 24 true ].

(** The ticks an operation hands to the engine. *)
Definition op_ticks (o : op) : list Tick.t :=
  match o with
  | OpTick tick => [tick]
  | OpBatch ticks => ticks
  | OpFinalize => []
  end.

(** A bar as [_finalize_current_bar] appends it: built from a run of
    consecutive ticks of [seen], with its statistics computed last. *)
Definition finished_from (cfg : FootprintEngineConfig) (seen : list Tick.t)
    (b : FootprintBar) : Prop :=
  exists (pre seg post : list Tick.t) (b0 : FootprintBar),
    seen = pre ++ seg ++ post /\
    bar_of cfg seg b0 /\
    update_bar_statistics b0 (value_area_percentage cfg) = Ok b.

(** The bars of an engine that has been given the ticks [seen]. *)
Definition bars_built (cfg : FootprintEngineConfig) (seen : list Tick.t)
    (e : FootprintEngine) : Prop :=
  config e = cfg /\
  Forall (finished_from cfg seen) (bars e) /\
  forall b, current_bar e = Some b ->
    exists pre seg, seen = pre ++ seg /\ bar_of cfg seg b.

(** Two bars that differ in their summary statistics only, and two
    engines that differ in the summary statistics of the bar in progress
    only. *)
Definition same_raw (b1 b2 : FootprintBar) : Prop :=
  exists tv tav tbv tt bd poc vah val up,
    b2 = with_statistics b1 tv tav tbv tt bd poc vah val up.

Definition same_engine (e1 e2 : FootprintEngine) : Prop :=
  config e1 = config e2 /\
  bars e1 = bars e2 /\
  _total_ticks_processed e1 = _total_ticks_processed e2 /\
  match current_bar e1, current_bar e2 with
  | Some b1, Some b2 => same_raw b1 b2
  | None, None => True
  | _, _ => False
  end.

(** Two results that are the same exception, or two values related by
    [R]. *)
Definition res_rel {A : Type} (R : A -> A -> Prop) (r1 r2 : res A) : Prop :=
  match r1, r2 with
  | Ok a1, Ok a2 => R a1 a2
  | Err x1, Err x2 => x1 = x2
  | _, _ => False
  end.

(** ** examples/run_aggregation_example.py *)

(** The script's use of an engine, lines 76-83 and 95-101: the stream in
    one batch, the last bar finalized when there is one, the completed
    bars read back. *)
Definition run_example (cfg : FootprintEngineConfig) (ticks : list Tick.t)
  : res (list FootprintBar) :=
  let engine := FootprintEngine_init cfg in
  engine <- process_tick_batch engine ticks ;;
  engine <-
    match current_bar engine with
    | Some _ => _finalize_current_bar engine
    | None => Ok engine
    end ;;
  Ok (get_all_completed_bars engine).

(** A finalized bar and the ticks it was built from. *)
Definition finished_bar (cfg : FootprintEngineConfig) (seg : list Tick.t)
    (b : FootprintBar) : Prop :=
  bar_of cfg seg b /\
  update_bar_statistics b (value_area_percentage cfg) = Ok b.

(** Start times on the grid of [d], each at least [d] after the one
    before. *)
Definition spaced (d : Z) (starts : list Z) : Prop :=
  Forall (fun s => exists k, s = d * k) starts /\
  StronglySorted (fun a b => a + d <= b) starts.

(** The bars appended so far and the bar in progress. *)
Definition with_current (log : list FootprintBar) (e : FootprintEngine)
  : list FootprintBar :=
  log ++ match current_bar e with Some cur => [cur] | None => [] end.

(** Timestamps that never go back. *)
Definition non_decreasing (ticks : list Tick.t) : Prop :=
  StronglySorted (fun t1 t2 => Tick.datetime t1 <= Tick.datetime t2) ticks.

(** The ticks whose price rounds to [k]. *)
Definition ticks_at (cfg : FootprintEngineConfig) (k : Q) (ticks : list Tick.t)
  : list Tick.t :=
  filter (fun t => match rounded cfg (Tick.price t) with
                   | Ok r => Qeq_bool r k
                   | Err _ => false
                   end) ticks.

(** The level filed under [k], when there is one, holds the ticks of
    [ticks] that rounded to [k]. *)
Definition level_holds (cfg : FootprintEngineConfig) (ticks : list Tick.t)
    (k : Q) (level : option PriceLevelData) : Prop :=
  match level with
  | Some l =>
      (price l == k)%Q /\
      consistent l /\
      bid_volume l = volumes (bid_ticks (ticks_at cfg k ticks)) /\
      ask_volume l = volumes (ask_ticks (ticks_at cfg k ticks)) /\
      bid_trades l = Py.len (bid_ticks (ticks_at cfg k ticks)) /\
      ask_trades l = Py.len (ask_ticks (ticks_at cfg k ticks))
  | None => ticks_at cfg k ticks = []
  end.



(** The volume at the price next to the Value Area window, 0 when
    there is no such price (lines 156-157). *)
Definition volume_at (b : FootprintBar) (k : option Q) : Z :=
  match k with
  | Some k => vol (price_levels b) k
  | None => 0
  end.

(** * Properties *)

(** ** Results and the loops over them *)

Lemma bind_Ok {A B : Type} (m : res A) (k : A -> res B) (b : B) :
  bind m k = Ok b -> exists a, m = Ok a /\ k a = Ok b.
Proof.
  destruct m as [a | e]; simpl; intros H.
  - exists a; split; [reflexivity | exact H].
  - discriminate H.
Qed.

Ltac inv_bind H :=
  let a := fresh "a" in
  let Ha := fresh "Ha" in
  apply bind_Ok in H; destruct H as [a [Ha H]].

(** ** Rounding to an integer and to a double *)

Lemma round_cases (x : Q) :
  (Py.round x = Qfloor x /\ (x - inject_Z (Qfloor x) < 1 # 2)%Q) \/
  (Py.round x = Qfloor x + 1 /\ (1 # 2 < x - inject_Z (Qfloor x))%Q) \/
  (Py.round x = (if Z.even (Qfloor x) then Qfloor x else Qfloor x + 1) /\
   (x - inject_Z (Qfloor x) == 1 # 2)%Q).
Proof.
  unfold Py.round. cbv zeta.
  destruct (Qcompare (x - inject_Z (Qfloor x)) (1 # 2)) eqn:E.
  - right. right. split; [reflexivity | apply Qeq_alt; exact E].
  - left. split; [reflexivity | apply Qlt_alt; exact E].
  - right. left. split; [reflexivity | apply Qgt_alt; exact E].
Qed.

Lemma floor_bounds_Q (x : Q) :
  (inject_Z (Qfloor x) <= x)%Q /\ (x < inject_Z (Qfloor x) + 1)%Q.
Proof.
  split; [apply Qfloor_le |].
  pose proof (Qlt_floor x) as H. rewrite inject_Z_plus in H. exact H.
Qed.

Lemma round_comp (x y : Q) : (x == y)%Q -> Py.round x = Py.round y.
Proof.
  intros H. unfold Py.round. cbv zeta.
  rewrite (Qfloor_comp x y H).
  assert (Hc : Qcompare (x - inject_Z (Qfloor y)) (1 # 2)
               = Qcompare (y - inject_Z (Qfloor y)) (1 # 2)).
  { apply Qcompare_comp; [rewrite H; reflexivity | reflexivity]. }
  rewrite Hc. reflexivity.
Qed.

Lemma round_Z (n : Z) : Py.round (inject_Z n) = n.
Proof.
  destruct (round_cases (inject_Z n)) as [[-> H] | [[-> H] | [-> H]]];
    rewrite Qfloor_Z in *; [reflexivity | lra | lra].
Qed.

Lemma round_mono (x y : Q) : (x <= y)%Q -> Py.round x <= Py.round y.
Proof.
  intros Hxy.
  pose proof (Qfloor_resp_le x y Hxy) as Hf.
  destruct (floor_bounds_Q x) as [Hx1 Hx2].
  destruct (floor_bounds_Q y) as [Hy1 Hy2].
  assert (Hrx : Qfloor x <= Py.round x <= Qfloor x + 1).
  { destruct (round_cases x) as [[-> _] | [[-> _] | [-> _]]];
      [lia | lia | destruct (Z.even (Qfloor x)); lia]. }
  assert (Hry : Qfloor y <= Py.round y <= Qfloor y + 1).
  { destruct (round_cases y) as [[-> _] | [[-> _] | [-> _]]];
      [lia | lia | destruct (Z.even (Qfloor y)); lia]. }
  destruct (Z.eq_dec (Qfloor x) (Qfloor y)) as [Heq | Hne]; [| lia].
  destruct (round_cases x) as [[Ex Hx] | [[Ex Hx] | [Ex Hx]]];
    destruct (round_cases y) as [[Ey Hy] | [[Ey Hy] | [Ey Hy]]];
    rewrite Ex, Ey, <- Heq; rewrite <- Heq in Hy;
    try lia; try lra;
    destruct (Z.even (Qfloor x)); try lia; lra.
Qed.

Lemma two_pos (e : Z) : (0 < 2 ^ e)%Q.
Proof. apply Qpower_0_lt. reflexivity. Qed.

Lemma two_plus (a b : Z) : (2 ^ (a + b) == 2 ^ a * 2 ^ b)%Q.
Proof. apply Qpower_plus. discriminate. Qed.

Lemma two_succ (a : Z) : (2 ^ (a + 1) == 2 * 2 ^ a)%Q.
Proof. rewrite two_plus. change (2 ^ 1)%Q with 2%Q. apply Qmult_comm. Qed.

Lemma two_le (a b : Z) : a <= b -> (2 ^ a <= 2 ^ b)%Q.
Proof. intros H. apply Qpower_le_compat_l; [exact H | discriminate]. Qed.

Lemma two_lt_inv (a b : Z) : (2 ^ a < 2 ^ b)%Q -> a < b.
Proof. intros H. apply (Qpower_lt_compat_l_inv 2); [exact H | reflexivity]. Qed.

Lemma two_inject (n : Z) : 0 <= n -> (inject_Z (2 ^ n) == 2 ^ n)%Q.
Proof. intros H. apply (Zpower_Qpower 2 n H). Qed.

Lemma div_lt_div (x y z w : Q) :
  (0 < y)%Q -> (0 < w)%Q -> (x * w < z * y)%Q -> (x / y < z / w)%Q.
Proof.
  intros Hy Hw H. apply Qlt_shift_div_r; [exact Hy |].
  assert (E : (z / w * y == z * y / w)%Q) by (field; lra).
  rewrite E. apply Qlt_shift_div_l; assumption.
Qed.

(** [x = n / d] lies strictly between [2 ^ (k - 1)] and [2 ^ (k + 1)] for
    [k] the difference of the binary logarithms. *)
Lemma log2_bounds (n : positive) (d : positive) :
  let k := Z.log2 (Zpos n) - Z.log2 (Zpos d) in
  (2 ^ (k - 1) < Zpos n # d)%Q /\ (Zpos n # d < 2 ^ (k + 1))%Q.
Proof.
  cbv zeta.
  destruct (Z.log2_spec (Zpos n)) as [Hn1 Hn2]; [reflexivity |].
  destruct (Z.log2_spec (Zpos d)) as [Hd1 Hd2]; [reflexivity |].
  pose proof (Z.log2_nonneg (Zpos n)) as Ha.
  pose proof (Z.log2_nonneg (Zpos d)) as Hb.
  set (a := Z.log2 (Zpos n)) in *. set (b := Z.log2 (Zpos d)) in *.
  assert (Hx : (Zpos n # d == inject_Z (Zpos n) / inject_Z (Zpos d))%Q)
    by apply Qmake_Qdiv.
  assert (Hdpos : (0 < inject_Z (Zpos d))%Q) by reflexivity.
  pose proof (two_pos b) as Hpb. pose proof (two_pos a) as Hpa.
  rewrite Zle_Qle, two_inject in Hn1, Hd1 by assumption.
  rewrite Zlt_Qlt in Hn2, Hd2.
  replace (Z.succ a) with (a + 1) in Hn2 by lia.
  replace (Z.succ b) with (b + 1) in Hd2 by lia.
  rewrite two_inject, two_succ in Hn2, Hd2 by lia.
  split.
  - replace (a - b - 1) with (a - (b + 1)) by lia.
    rewrite Qpower_minus, two_succ, Hx by discriminate.
    apply div_lt_div; [lra | exact Hdpos | nra].
  - replace (a - b + 1) with (a + 1 - b) by lia.
    rewrite Qpower_minus, two_succ, Hx by discriminate.
    apply div_lt_div; [exact Hdpos | exact Hpb | nra].
Qed.

Lemma ulp_exponent_spec (x : Q) :
  (0 < x)%Q ->
  (2 ^ (Py.ulp_exponent x + 52) <= x)%Q /\ (x < 2 ^ (Py.ulp_exponent x + 53))%Q.
Proof.
  intros Hx. destruct x as [n d].
  assert (Hn : 0 < n) by (unfold Qlt in Hx; simpl in Hx; lia).
  destruct n as [| n | n]; try lia.
  destruct (log2_bounds n d) as [Hlo Hhi].
  unfold Py.ulp_exponent. cbn [Qnum Qden].
  set (k := Z.log2 (Zpos n) - Z.log2 (Zpos d)) in *.
  destruct (Qle_bool (2 ^ k) (Zpos n # d)) eqn:E.
  - apply Qle_bool_iff in E.
    replace (k - 52 + 52) with k by lia.
    replace (k - 52 + 53) with (k + 1) by lia. split; assumption.
  - replace (k - 53 + 52) with (k - 1) by lia.
    replace (k - 53 + 53) with k by lia.
    split; [apply Qlt_le_weak; exact Hlo |].
    apply Qnot_le_lt. intros H. apply Qle_bool_iff in H. congruence.
Qed.

Lemma ulp_exponent_unique (x : Q) (e : Z) :
  (0 < x)%Q ->
  (2 ^ (e + 52) <= x)%Q -> (x < 2 ^ (e + 53))%Q ->
  Py.ulp_exponent x = e.
Proof.
  intros Hx Hlo Hhi. destruct (ulp_exponent_spec x Hx) as [Hlo' Hhi'].
  assert (H1 : (2 ^ (e + 52) < 2 ^ (Py.ulp_exponent x + 53))%Q)
    by (eapply Qle_lt_trans; eassumption).
  assert (H2 : (2 ^ (Py.ulp_exponent x + 52) < 2 ^ (e + 53))%Q)
    by (eapply Qle_lt_trans; eassumption).
  apply two_lt_inv in H1, H2. lia.
Qed.

Lemma ulp_exponent_comp (x y : Q) :
  (0 < x)%Q -> (x == y)%Q -> Py.ulp_exponent x = Py.ulp_exponent y.
Proof.
  intros Hx Hxy. assert (Hy : (0 < y)%Q) by (rewrite <- Hxy; exact Hx).
  destruct (ulp_exponent_spec y Hy) as [Hlo Hhi].
  apply ulp_exponent_unique; [exact Hx | rewrite Hxy; exact Hlo |
                               rewrite Hxy; exact Hhi].
Qed.

(** The significand of a positive double. *)
Lemma significand_bounds (x : Q) :
  (0 < x)%Q ->
  2 ^ 52 <= Py.round (x / 2 ^ Py.ulp_exponent x) <= 2 ^ 53.
Proof.
  intros Hx. destruct (ulp_exponent_spec x Hx) as [Hlo Hhi].
  set (e := Py.ulp_exponent x) in *.
  pose proof (two_pos e) as He.
  rewrite two_plus in Hlo, Hhi.
  assert (H1 : (inject_Z (2 ^ 52) <= x / 2 ^ e)%Q).
  { apply Qle_shift_div_l; [exact He |].
    rewrite two_inject by lia. rewrite Qmult_comm. exact Hlo. }
  assert (H2 : (x / 2 ^ e <= inject_Z (2 ^ 53))%Q).
  { apply Qle_shift_div_r; [exact He |].
    rewrite two_inject by lia. rewrite Qmult_comm. apply Qlt_le_weak. exact Hhi. }
  apply round_mono in H1, H2. rewrite round_Z in H1, H2. split; assumption.
Qed.

Lemma fl_pos_bounds (x : Q) :
  (0 < x)%Q ->
  (2 ^ (Py.ulp_exponent x + 52) <= Py.fl_pos x)%Q /\
  (Py.fl_pos x <= 2 ^ (Py.ulp_exponent x + 53))%Q.
Proof.
  intros Hx. destruct (significand_bounds x Hx) as [H1 H2].
  unfold Py.fl_pos. cbv zeta. set (e := Py.ulp_exponent x) in *.
  pose proof (two_pos e) as He.
  rewrite Zle_Qle in H1, H2. rewrite two_inject in H1, H2 by lia.
  rewrite !two_plus, !(Qmult_comm (2 ^ e)).
  split; apply Qmult_le_compat_r; try assumption; apply Qlt_le_weak; exact He.
Qed.

Lemma fl_pos_positive (x : Q) : (0 < x)%Q -> (0 < Py.fl_pos x)%Q.
Proof.
  intros Hx. destruct (fl_pos_bounds x Hx) as [H _].
  eapply Qlt_le_trans; [apply two_pos | exact H].
Qed.

Lemma fl_pos_mono (x y : Q) :
  (0 < x)%Q -> (x <= y)%Q -> (Py.fl_pos x <= Py.fl_pos y)%Q.
Proof.
  intros Hx Hxy. assert (Hy : (0 < y)%Q) by (eapply Qlt_le_trans; eassumption).
  destruct (ulp_exponent_spec x Hx) as [Hxlo Hxhi].
  destruct (ulp_exponent_spec y Hy) as [Hylo Hyhi].
  assert (Hle : Py.ulp_exponent x <= Py.ulp_exponent y).
  { assert (H : (2 ^ (Py.ulp_exponent x + 52) < 2 ^ (Py.ulp_exponent y + 53))%Q).
    { eapply Qle_lt_trans; [exact Hxlo |].
      eapply Qle_lt_trans; [exact Hxy | exact Hyhi]. }
    apply two_lt_inv in H. lia. }
  destruct (Z.eq_dec (Py.ulp_exponent x) (Py.ulp_exponent y)) as [Heq | Hne].
  - unfold Py.fl_pos. cbv zeta. rewrite Heq.
    pose proof (two_pos (Py.ulp_exponent y)) as He.
    apply Qmult_le_compat_r; [| apply Qlt_le_weak; exact He].
    rewrite <- Zle_Qle. apply round_mono.
    unfold Qdiv. apply Qmult_le_compat_r; [exact Hxy |].
    apply Qlt_le_weak, Qinv_lt_0_compat. exact He.
  - destruct (fl_pos_bounds x Hx) as [_ H1].
    destruct (fl_pos_bounds y Hy) as [H2 _].
    eapply Qle_trans; [exact H1 |]. eapply Qle_trans; [| exact H2].
    apply two_le. lia.
Qed.

Lemma fl_pos_comp (x y : Q) :
  (0 < x)%Q -> (x == y)%Q -> (Py.fl_pos x == Py.fl_pos y)%Q.
Proof.
  intros Hx Hxy. unfold Py.fl_pos. cbv zeta.
  rewrite (ulp_exponent_comp x y Hx Hxy).
  rewrite (round_comp (x / 2 ^ Py.ulp_exponent y) (y / 2 ^ Py.ulp_exponent y));
    [reflexivity | rewrite Hxy; reflexivity].
Qed.

Lemma Qnum_sign (x : Q) :
  match Qnum x with
  | Z0 => (x == 0)%Q
  | Zpos _ => (0 < x)%Q
  | Zneg _ => (x < 0)%Q
  end.
Proof.
  destruct x as [[| n | n] d]; cbn [Qnum]; unfold Qeq, Qlt; simpl; lia.
Qed.

Lemma fl_cases (x : Q) :
  ((x == 0)%Q /\ Py.fl x = 0%Q) \/
  ((0 < x)%Q /\ (Py.fl x == Py.fl_pos x)%Q) \/
  ((x < 0)%Q /\ (Py.fl x == - Py.fl_pos (- x))%Q).
Proof.
  pose proof (Qnum_sign x) as H. unfold Py.fl.
  destruct (Qnum x).
  - left. split; [exact H | reflexivity].
  - right. left. split; [exact H | apply Qred_correct].
  - right. right. split; [exact H | apply Qred_correct].
Qed.

Lemma fl_sign (x : Q) :
  ((x == 0)%Q -> (Py.fl x == 0)%Q) /\
  ((0 < x)%Q -> (0 < Py.fl x)%Q) /\
  ((x < 0)%Q -> (Py.fl x < 0)%Q).
Proof.
  destruct (fl_cases x) as [[Hx ->] | [[Hx ->] | [Hx ->]]].
  - split; [| split]; intros; [reflexivity | lra | lra].
  - pose proof (fl_pos_positive x Hx). split; [| split]; intros; lra.
  - assert (Hn : (0 < - x)%Q) by lra.
    pose proof (fl_pos_positive (- x) Hn). split; [| split]; intros; lra.
Qed.

Lemma fl_zero_iff (x : Q) : (Py.fl x == 0)%Q <-> (x == 0)%Q.
Proof.
  destruct (fl_sign x) as (H0 & Hp & Hn). split; [| exact H0].
  intros H. destruct (Q_dec x 0) as [[Hlt | Hgt] | Heq]; [| | exact Heq].
  - specialize (Hn Hlt). lra.
  - specialize (Hp Hgt). lra.
Qed.

Lemma fl_mono (x y : Q) : (x <= y)%Q -> (Py.fl x <= Py.fl y)%Q.
Proof.
  intros Hxy.
  destruct (fl_sign x) as (Hx0 & Hxp & Hxn).
  destruct (fl_sign y) as (Hy0 & Hyp & Hyn).
  destruct (Q_dec x 0) as [[Hx | Hx] | Hx];
    destruct (Q_dec y 0) as [[Hy | Hy] | Hy].
  - destruct (fl_cases x) as [[Hx' Ex] | [[Hx' Ex] | [Hx' Ex]]]; try lra.
    destruct (fl_cases y) as [[Hy' Ey] | [[Hy' Ey] | [Hy' Ey]]]; try lra.
    rewrite Ex, Ey. apply Qopp_le_compat. apply fl_pos_mono; lra.
  - specialize (Hxn Hx). specialize (Hyp Hy). lra.
  - specialize (Hxn Hx). specialize (Hy0 Hy). lra.
  - lra.
  - destruct (fl_cases x) as [[Hx' Ex] | [[Hx' Ex] | [Hx' Ex]]]; try lra.
    destruct (fl_cases y) as [[Hy' Ey] | [[Hy' Ey] | [Hy' Ey]]]; try lra.
    rewrite Ex, Ey. apply fl_pos_mono; assumption.
  - lra.
  - lra.
  - specialize (Hx0 Hx). specialize (Hyp Hy). lra.
  - specialize (Hx0 Hx). specialize (Hy0 Hy). lra.
Qed.

Lemma fl_comp (x y : Q) : (x == y)%Q -> (Py.fl x == Py.fl y)%Q.
Proof.
  intros Hxy. apply Qle_antisym; apply fl_mono; rewrite Hxy; apply Qle_refl.
Qed.

Lemma fl_reduced (x : Q) : Qred (Py.fl x) = Py.fl x.
Proof.
  unfold Py.fl. destruct (Qnum x); [reflexivity | |];
    apply Qred_complete, Qred_correct.
Qed.

Lemma fl_eq (x y : Q) : (x == y)%Q -> Py.fl x = Py.fl y.
Proof.
  intros H. rewrite <- (fl_reduced x), <- (fl_reduced y).
  apply Qred_complete, fl_comp, H.
Qed.

(** Integers up to [2 ^ 53] are doubles. *)
Lemma fl_pos_Z (z : Z) :
  0 < z <= 2 ^ 53 -> (Py.fl_pos (inject_Z z) == inject_Z z)%Q.
Proof.
  intros [Hz Hle].
  assert (Hx : (0 < inject_Z z)%Q) by (rewrite Zlt_Qlt in Hz; exact Hz).
  destruct (ulp_exponent_spec _ Hx) as [Hlo Hhi].
  unfold Py.fl_pos. cbv zeta. set (e := Py.ulp_exponent (inject_Z z)) in *.
  pose proof (two_pos e) as He.
  assert (Hint : exists m : Z, (inject_Z z / 2 ^ e == inject_Z m)%Q).
  { destruct (Z.le_gt_cases e 0) as [Hneg | Hpos].
    - exists (z * 2 ^ (- e)). rewrite inject_Z_mult, two_inject by lia.
      rewrite Qpower_opp. reflexivity.
    - assert (He1 : e = 1).
      { assert (H : (2 ^ (e + 52) < 2 ^ 54)%Q).
        { eapply Qle_lt_trans; [exact Hlo |].
          rewrite Zle_Qle in Hle. rewrite two_inject in Hle by lia.
          eapply Qle_lt_trans; [exact Hle |]. reflexivity. }
        apply two_lt_inv in H. lia. }
      rewrite He1 in *.
      assert (Hz53 : z = 2 ^ 53).
      { apply Z.le_antisymm; [exact Hle |].
        rewrite Zle_Qle. rewrite two_inject by lia. exact Hlo. }
      exists (2 ^ 52). rewrite Hz53. reflexivity. }
  destruct Hint as [m Hm].
  rewrite (round_comp _ _ Hm), round_Z, <- Hm. field. lra.
Qed.

Lemma fl_Z (z : Z) :
  - 2 ^ 53 <= z <= 2 ^ 53 -> (Py.fl (inject_Z z) == inject_Z z)%Q.
Proof.
  intros Hz. destruct (fl_cases (inject_Z z)) as [[Hx ->] | [[Hx ->] | [Hx ->]]].
  - symmetry. exact Hx.
  - apply fl_pos_Z. change 0%Q with (inject_Z 0) in Hx.
    rewrite <- Zlt_Qlt in Hx. lia.
  - change 0%Q with (inject_Z 0) in Hx. rewrite <- Zlt_Qlt in Hx.
    rewrite <- inject_Z_opp, fl_pos_Z by lia.
    rewrite inject_Z_opp. ring.
Qed.

Lemma fl_pos_exact (m e : Z) :
  0 < m <= 2 ^ 53 ->
  (Py.fl_pos (inject_Z m * 2 ^ e) == inject_Z m * 2 ^ e)%Q.
Proof.
  intros [Hm Hle].
  pose proof (two_pos e) as He.
  assert (Hm' : (0 < inject_Z m)%Q) by (rewrite Zlt_Qlt in Hm; exact Hm).
  assert (Hx : (0 < inject_Z m * 2 ^ e)%Q)
    by (apply Qmult_lt_0_compat; assumption).
  destruct (ulp_exponent_spec _ Hx) as [Hlo Hhi].
  unfold Py.fl_pos. cbv zeta.
  set (e' := Py.ulp_exponent (inject_Z m * 2 ^ e)) in *.
  pose proof (two_pos e') as He'.
  assert (Hle' : (inject_Z m <= 2 ^ 53)%Q).
  { rewrite Zle_Qle in Hle. rewrite two_inject in Hle by lia. exact Hle. }
  assert (Hint : exists k : Z, (inject_Z m * 2 ^ e / 2 ^ e' == inject_Z k)%Q).
  { destruct (Z.le_gt_cases e' e) as [Hee | Hee].
    - exists (m * 2 ^ (e - e')).
      rewrite inject_Z_mult, two_inject by lia.
      rewrite Qpower_minus by discriminate. field. lra.
    - assert (He1 : e' = e + 1).
      { assert (H : (2 ^ (e' + 52) < 2 ^ (e + 54))%Q).
        { eapply Qle_lt_trans; [exact Hlo |].
          replace (e + 54) with (54 + e) by lia. rewrite two_plus.
          assert (H54 : (inject_Z m * 2 ^ e <= 2 ^ 53 * 2 ^ e)%Q)
            by (apply Qmult_le_compat_r; [exact Hle' | lra]).
          eapply Qle_lt_trans; [exact H54 |].
          apply Qmult_lt_compat_r; [exact He | reflexivity]. }
        apply two_lt_inv in H. lia. }
      assert (Hm53 : m = 2 ^ 53).
      { apply Z.le_antisymm; [exact Hle |].
        rewrite Zle_Qle. rewrite two_inject by lia.
        rewrite He1 in Hlo.
        replace (e + 1 + 52) with (53 + e) in Hlo by lia.
        rewrite two_plus in Hlo.
        apply Qmult_le_r in Hlo; [exact Hlo | exact He]. }
      exists (2 ^ 52). rewrite He1, Hm53, two_succ.
      change (inject_Z (2 ^ 53)) with (2 * inject_Z (2 ^ 52))%Q.
      field. lra. }
  destruct Hint as [k Hk].
  rewrite (round_comp _ _ Hk), round_Z, <- Hk. field. lra.
Qed.

Lemma fl_exact (m e : Z) :
  - 2 ^ 53 <= m <= 2 ^ 53 ->
  (Py.fl (inject_Z m * 2 ^ e) == inject_Z m * 2 ^ e)%Q.
Proof.
  intros Hm. pose proof (two_pos e) as He.
  destruct (fl_cases (inject_Z m * 2 ^ e)) as [[Hx ->] | [[Hx ->] | [Hx ->]]].
  - symmetry. exact Hx.
  - apply fl_pos_exact.
    assert (H : (0 < inject_Z m)%Q).
    { set (P := (2 ^ e)%Q) in *. nra. }
    change 0%Q with (inject_Z 0) in H. rewrite <- Zlt_Qlt in H. lia.
  - assert (H : (inject_Z m < 0)%Q).
    { set (P := (2 ^ e)%Q) in *. nra. }
    change 0%Q with (inject_Z 0) in H. rewrite <- Zlt_Qlt in H.
    assert (E : (- (inject_Z m * 2 ^ e) == inject_Z (- m) * 2 ^ e)%Q)
      by (rewrite inject_Z_opp; ring).
    assert (Hpos : (0 < - (inject_Z m * 2 ^ e))%Q) by lra.
    rewrite (fl_pos_comp _ _ Hpos E), fl_pos_exact by lia.
    rewrite inject_Z_opp. ring.
Qed.

(** A double is a significand of at most 53 bits times a power of two. *)
Lemma fl_form (x : Q) :
  exists m e : Z,
    - 2 ^ 53 <= m <= 2 ^ 53 /\ (Py.fl x == inject_Z m * 2 ^ e)%Q.
Proof.
  destruct (fl_cases x) as [[Hx Ex] | [[Hx Ex] | [Hx Ex]]].
  - exists 0, 0. split; [lia | rewrite Ex; reflexivity].
  - destruct (significand_bounds x Hx) as [H1 H2].
    exists (Py.round (x / 2 ^ Py.ulp_exponent x)), (Py.ulp_exponent x).
    split; [lia | rewrite Ex; reflexivity].
  - assert (Hn : (0 < - x)%Q) by lra.
    destruct (significand_bounds (- x) Hn) as [H1 H2].
    exists (- Py.round (- x / 2 ^ Py.ulp_exponent (- x))), (Py.ulp_exponent (- x)).
    split; [lia |]. rewrite Ex. unfold Py.fl_pos. cbv zeta.
    rewrite inject_Z_opp. ring.
Qed.

Lemma fl_idem (x : Q) : Py.fl (Py.fl x) = Py.fl x.
Proof.
  assert (H : (Py.fl (Py.fl x) == Py.fl x)%Q).
  { destruct (fl_form x) as (m & e & Hm & Hx).
    rewrite (fl_comp _ _ Hx), fl_exact by exact Hm. symmetry. exact Hx. }
  apply Qred_complete in H. rewrite !fl_reduced in H. exact H.
Qed.

(** ** PriceLevelData *)

Lemma update_derived_metrics_consistent (l : PriceLevelData) (zh : zero_handling) :
  consistent (update_derived_metrics l zh).
Proof.
  unfold consistent, update_derived_metrics; simpl.
  repeat split; reflexivity.
Qed.



(** ** FootprintBar.update_bar_statistics *)

(** C8: on a bar without price levels [update_bar_statistics] returns
    after assigning [is_up_bar] (close >= open) only; the totals, the
    delta, the POC and the Value Area bounds, like every other field,
    keep the value they had. *)
Theorem update_bar_statistics_empty (b : FootprintBar) (p : Q) :
  price_levels b = [] ->
  exists b',
    update_bar_statistics b p = Ok b' /\
    is_up_bar b' = Qle_bool (open_price b) (close_price b) /\
    total_bar_volume b' = total_bar_volume b /\
    total_bar_ask_volume b' = total_bar_ask_volume b /\
    total_bar_bid_volume b' = total_bar_bid_volume b /\
    total_bar_trades b' = total_bar_trades b /\
    bar_delta b' = bar_delta b /\
    poc_price b' = poc_price b /\
    value_area_high b' = value_area_high b /\
    value_area_low b' = value_area_low b /\
    start_time b' = start_time b /\
    end_time b' = end_time b /\
    open_price b' = open_price b /\
    high_price b' = high_price b /\
    low_price b' = low_price b /\
    close_price b' = close_price b /\
    price_levels b' = price_levels b /\
    tick_count b' = tick_count b /\
    current_aggregated_volume b' = current_aggregated_volume b /\
    bar_direction b' = bar_direction b /\
    extreme_price_during_formation b' = extreme_price_during_formation b.
Proof.
  intros Hempty. destruct b; simpl in Hempty; subst.
  eexists; split; [reflexivity |].
  simpl. repeat split; reflexivity.
Qed.

Lemma update_bar_statistics_empty_witness :
  exists b',
    update_bar_statistics (FootprintBar_init 0 0 100 100 100 100) (7 # 10) = Ok b' /\
    is_up_bar b' = true /\
    total_bar_volume b' = 0 /\
    poc_price b' = None /\
    value_area_high b' = None /\
    value_area_low b' = None.
Proof.
  destruct (update_bar_statistics_empty
              (FootprintBar_init 0 0 100 100 100 100) (7 # 10) eq_refl)
    as [b' [Hrun [Hup [Hv [_ [_ [_ [_ [Hpoc [Hh [Hl _]]]]]]]]]]].
  exists b'. repeat split; assumption.
Defined.

(** [update_bar_statistics] assigns summary fields only. *)
Lemma update_bar_statistics_frame (b b' : FootprintBar) (p : Q) :
  update_bar_statistics b p = Ok b' ->
  exists tv tav tbv tt bd poc vah val up,
    b' = with_statistics b tv tav tbv tt bd poc vah val up.
Proof.
  unfold update_bar_statistics.
  destruct (price_levels b) as [| kv d].
  - intros H; injection H as <-. repeat eexists.
  - intros H. inv_bind H. injection H as <-. repeat eexists.
Qed.

Lemma update_bar_statistics_levels (b b' : FootprintBar) (p : Q) :
  update_bar_statistics b p = Ok b' -> price_levels b' = price_levels b.
Proof.
  intros H. apply update_bar_statistics_frame in H.
  destruct H as (tv & tav & tbv & tt & bd & poc & vah & val & up & ->).
  reflexivity.
Qed.

(** ** The dict of price levels *)

Lemma Dict_set_values {V : Type} (P : V -> Prop) (d : Dict.t V) (k : Q) (v : V) :
  Forall P (Dict.values d) -> P v -> Forall P (Dict.values (Dict.set d k v)).
Proof.
  unfold Dict.values. induction d as [| [k' v'] d IH]; simpl; intros Hd Hv.
  - constructor; [exact Hv | constructor].
  - inversion Hd as [| x l Hx Hl]; subst.
    destruct (Qeq_bool k' k); simpl; constructor; auto.
Qed.

Lemma Dict_get_set {V : Type} (d : Dict.t V) (k : Q) (v : V) :
  Dict.get (Dict.set d k v) k = Some v.
Proof.
  induction d as [| [k' v'] d IH]; simpl.
  - assert (H : Qeq_bool k k = true) by (apply Qeq_bool_iff; reflexivity).
    rewrite H. reflexivity.
  - destruct (Qeq_bool k' k) eqn:E; simpl; rewrite E; [reflexivity | exact IH].
Qed.

Lemma Dict_keys_set {V : Type} (d : Dict.t V) (k : Q) (v : V) :
  Dict.keys (Dict.set d k v)
  = if Dict.mem d k then Dict.keys d else Dict.keys d ++ [k].
Proof.
  unfold Dict.keys, Dict.mem.
  induction d as [| [k' v'] d IH]; simpl.
  - reflexivity.
  - destruct (Qeq_bool k' k) eqn:E; simpl.
    + reflexivity.
    + rewrite IH. destruct (Dict.get d k); reflexivity.
Qed.

(** ** The normal form of [process_tick] *)

Lemma process_tick_eq (e : FootprintEngine) (ts : Z) (p : Q) (v : Z) (side : bool) :
  process_tick e ts p v side =
  let cfg := config e in
  let n := _total_ticks_processed e + 1 in
  match current_bar e with
  | None =>
      r <- rounded cfg p ;;
      st <- new_start_time cfg ts ;;
      Ok (mkFootprintEngine cfg (bars e)
            (Some (fold_tick cfg (FootprintBar_init st ts r r r r) ts r v side)) n)
  | Some cur =>
      create <- _should_create_new_bar cfg cur ts p ;;
      if create : bool then
        cur' <- update_bar_statistics cur (value_area_percentage cfg) ;;
        r <- rounded cfg p ;;
        st <- new_start_time cfg ts ;;
        Ok (mkFootprintEngine cfg (append_evict cfg (bars e) cur')
              (Some (fold_tick cfg (FootprintBar_init st ts r r r r) ts r v side)) n)
      else
        r <- rounded cfg p ;;
        Ok (mkFootprintEngine cfg (bars e)
              (Some (fold_tick cfg cur ts r v side)) n)
  end.
Proof.
  unfold process_tick, _finalize_current_bar, _create_new_bar; simpl.
  destruct (current_bar e) as [cur |]; simpl.
  - destruct (_should_create_new_bar (config e) cur ts p) as [[|] | err]; simpl;
      try reflexivity.
    destruct (update_bar_statistics cur (value_area_percentage (config e)));
      simpl; try reflexivity.
    destruct (rounded (config e) p); simpl; try reflexivity.
    destruct (new_start_time (config e) ts); simpl; try reflexivity.
  - destruct (rounded (config e) p); simpl; try reflexivity.
    destruct (new_start_time (config e) ts); simpl; try reflexivity.
Qed.

(** ** Consistency of the derived fields *)

Lemma fold_tick_consistent (cfg : FootprintEngineConfig) (cur : FootprintBar)
    (ts : Z) (r : Q) (v : Z) (side : bool) :
  levels_consistent cur -> levels_consistent (fold_tick cfg cur ts r v side).
Proof.
  unfold levels_consistent, fold_tick; simpl. intros Hcur.
  set (levels := if Dict.mem (price_levels cur) r then price_levels cur
                 else Dict.set (price_levels cur) r (PriceLevelData_init r 0 0 0 0)).
  assert (Hlevels : Forall consistent (Dict.values levels)).
  { subst levels. destruct (Dict.mem (price_levels cur) r); [exact Hcur |].
    apply Dict_set_values; [exact Hcur |].
    apply update_derived_metrics_consistent. }
  destruct (Dict.get levels r) as [l |]; [| exact Hlevels].
  apply Dict_set_values; [exact Hlevels |].
  apply update_derived_metrics_consistent.
Qed.

Lemma update_bar_statistics_consistent (b b' : FootprintBar) (p : Q) :
  update_bar_statistics b p = Ok b' -> levels_consistent b -> levels_consistent b'.
Proof.
  intros H Hb. unfold levels_consistent.
  rewrite (update_bar_statistics_levels _ _ _ H). exact Hb.
Qed.

Lemma Forall_tl {A : Type} (P : A -> Prop) (l : list A) :
  Forall P l -> Forall P (tl l).
Proof.
  intros H. destruct l; [exact H | inversion H; assumption].
Qed.

Lemma append_evict_Forall (P : FootprintBar -> Prop) (cfg : FootprintEngineConfig)
    (h : list FootprintBar) (b : FootprintBar) :
  Forall P h -> P b -> Forall P (append_evict cfg h b).
Proof.
  intros Hh Hb. unfold append_evict.
  assert (H : Forall P (h ++ [b])).
  { apply Forall_app; split; [exact Hh | constructor; [exact Hb | constructor]]. }
  destruct (Py.len (h ++ [b]) >? max_bars_in_memory cfg);
    [apply Forall_tl |]; exact H.
Qed.

Lemma levels_consistent_init (st ts : Z) (o h l c : Q) :
  levels_consistent (FootprintBar_init st ts o h l c).
Proof. constructor. Qed.

Lemma process_tick_consistent (e e' : FootprintEngine) (ts : Z) (p : Q) (v : Z)
    (side : bool) :
  process_tick e ts p v side = Ok e' -> engine_consistent e -> engine_consistent e'.
Proof.
  rewrite process_tick_eq; simpl. intros H [Hbars Hcur].
  destruct (current_bar e) as [cur |].
  - inv_bind H. destruct a as [|].
    + inv_bind H. inv_bind H. inv_bind H. injection H as <-.
      split; simpl.
      * apply append_evict_Forall; [exact Hbars |].
        eapply update_bar_statistics_consistent; eauto.
      * apply fold_tick_consistent, levels_consistent_init.
    + inv_bind H. injection H as <-. split; simpl; [exact Hbars |].
      apply fold_tick_consistent, Hcur.
  - inv_bind H. inv_bind H. injection H as <-. split; simpl; [exact Hbars |].
    apply fold_tick_consistent, levels_consistent_init.
Qed.

Lemma process_ticks_consistent (ticks : list Tick.t) (e e' : FootprintEngine) :
  process_ticks e ticks = Ok e' -> engine_consistent e -> engine_consistent e'.
Proof.
  revert e. induction ticks as [| t ticks IH]; simpl; intros e H He.
  - injection H as <-. exact He.
  - inv_bind H. apply (IH a); [exact H |].
    eapply process_tick_consistent; eauto.
Qed.

Lemma finalize_consistent (e e' : FootprintEngine) :
  _finalize_current_bar e = Ok e' -> engine_consistent e -> engine_consistent e'.
Proof.
  unfold _finalize_current_bar. intros H [Hbars Hcur].
  destruct (current_bar e) as [cur |] eqn:E.
  - inv_bind H. injection H as <-. split; simpl; [| exact I].
    apply append_evict_Forall; [exact Hbars |].
    eapply update_bar_statistics_consistent; eauto.
  - injection H as <-. split; [exact Hbars | rewrite E; exact I].
Qed.

Lemma exec_consistent (o : op) (e e' : FootprintEngine) :
  exec e o = Ok e' -> engine_consistent e -> engine_consistent e'.
Proof.
  destruct o as [t | ticks |]; simpl; intros H He.
  - eapply process_tick_consistent; eauto.
  - unfold process_tick_batch in H. inv_bind H.
    pose proof (process_ticks_consistent _ _ _ Ha He) as [Hbars Hcur].
    destruct (current_bar a) as [cur |] eqn:E.
    + inv_bind H. injection H as <-. split; simpl; [exact Hbars |].
      eapply update_bar_statistics_consistent; eauto.
    + injection H as <-. split; [exact Hbars | rewrite E; exact I].
  - eapply finalize_consistent; eauto.
Qed.

Lemma run_consistent (ops : list op) (e e' : FootprintEngine) :
  run e ops = Ok e' -> engine_consistent e -> engine_consistent e'.
Proof.
  revert e. induction ops as [| o ops IH]; simpl; intros e H He.
  - injection H as <-. exact He.
  - inv_bind H. apply (IH a); [exact H |]. eapply exec_consistent; eauto.
Qed.

(** C4: the derived fields of a [PriceLevelData] agree with its raw
    counters whenever it can be observed: right after construction, and
    in every bar (finalized or in progress) of an engine after any
    sequence of [process_tick], [process_tick_batch] and finalization
    calls: total_volume = bid_volume + ask_volume, total_trades =
    bid_trades + ask_trades and delta = ask_volume - bid_volume. *)
Theorem derived_fields_consistent :
  (forall (p : Q) (bv av bt atr : Z),
     consistent (PriceLevelData_init p bv av bt atr)) /\
  (forall (cfg : FootprintEngineConfig) (ops : list op) (e : FootprintEngine),
     run (FootprintEngine_init cfg) ops = Ok e ->
     Forall consistent (observable_levels e)).
Proof.
  split.
  - intros. apply update_derived_metrics_consistent.
  - intros cfg ops e H.
    assert (He : engine_consistent e).
    { eapply run_consistent; [exact H |]. split; [constructor | exact I]. }
    destruct He as [Hbars Hcur].
    unfold observable_levels, observable_bars.
    apply Forall_flat_map, Forall_app. split; [exact Hbars |].
    destruct (current_bar e); constructor; [exact Hcur | constructor].
Qed.

Lemma derived_fields_consistent_witness :
  exists e,
    run (FootprintEngine_init example_config)
      [OpBatch tick_data_1min; OpFinalize] = Ok e /\
    Forall consistent (observable_levels e).
Proof.
  eexists. split.
  - vm_compute. reflexivity.
  - apply (proj2 derived_fields_consistent example_config
             [OpBatch tick_data_1min; OpFinalize]).
    vm_compute. reflexivity.
Defined.

(** ** Ticks whose volume is not positive *)





(** ** TIME aggregation *)

Lemma Timedelta_to_offset (s : string) (d : Z) :
  Pandas.Timedelta s = Ok d -> Pandas.to_offset s = Ok d.
Proof.
  unfold Pandas.Timedelta, Pandas.to_offset.
  destruct (Pandas.split_count s None) as [[n |] u]; [| discriminate].
  destruct (Pandas.unit_us u); [| discriminate].
  intros H; exact H.
Qed.

Lemma should_create_TIME (cfg : FootprintEngineConfig) (d : Z)
    (cur : FootprintBar) (ts : Z) (p : Q) :
  time_mode cfg d ->
  _should_create_new_bar cfg cur ts p = Ok (ts >=? start_time cur + d).
Proof.
  intros (Hty & Hd & _). unfold _should_create_new_bar.
  rewrite Hty, Hd. reflexivity.
Qed.

Lemma new_start_time_TIME (cfg : FootprintEngineConfig) (d ts : Z) :
  time_mode cfg d -> new_start_time cfg ts = Ok (d * (ts / d)).
Proof.
  intros (Hty & Hd & Hpos). unfold new_start_time, Pandas.floor.
  rewrite Hty, (Timedelta_to_offset _ _ Hd); simpl.
  destruct (d =? 0) eqn:E; [apply Z.eqb_eq in E; lia | reflexivity].
Qed.

Lemma floor_bounds (d ts : Z) :
  0 < d -> d * (ts / d) <= ts < d * (ts / d) + d.
Proof.
  intros Hd. pose proof (Z.mul_div_le ts d Hd).
  pose proof (Z.mul_succ_div_gt ts d Hd). lia.
Qed.

Lemma example_time_mode : time_mode example_config 60000000.
Proof. repeat split. Qed.

Lemma process_tick_TIME_keep (cfg : FootprintEngineConfig) (d : Z)
    (bs : list FootprintBar) (cur : FootprintBar) (n ts : Z) (p : Q) (v : Z)
    (side : bool) (r : Q) :
  time_mode cfg d ->
  ts < start_time cur + d ->
  rounded cfg p = Ok r ->
  process_tick (mkFootprintEngine cfg bs (Some cur) n) ts p v side
  = Ok (mkFootprintEngine cfg bs (Some (fold_tick cfg cur ts r v side)) (n + 1)).
Proof.
  intros Hm Hts Hr. rewrite process_tick_eq; simpl.
  rewrite (should_create_TIME _ d _ _ _ Hm); simpl.
  destruct (ts >=? start_time cur + d) eqn:E; [apply Z.geb_le in E; lia |].
  rewrite Hr. reflexivity.
Qed.

Lemma process_tick_TIME_cross (cfg : FootprintEngineConfig) (d : Z)
    (bs : list FootprintBar) (cur cur' : FootprintBar) (n ts : Z) (p : Q) (v : Z)
    (side : bool) (r : Q) :
  time_mode cfg d ->
  start_time cur + d <= ts ->
  update_bar_statistics cur (value_area_percentage cfg) = Ok cur' ->
  rounded cfg p = Ok r ->
  process_tick (mkFootprintEngine cfg bs (Some cur) n) ts p v side
  = Ok (mkFootprintEngine cfg (append_evict cfg bs cur')
          (Some (fold_tick cfg
                   (FootprintBar_init (d * (ts / d)) ts r r r r) ts r v side))
          (n + 1)).
Proof.
  intros Hm Hts Hst Hr. rewrite process_tick_eq; simpl.
  rewrite (should_create_TIME _ d _ _ _ Hm); simpl.
  destruct (ts >=? start_time cur + d) eqn:E.
  2:{ destruct (Z.geb_spec ts (start_time cur + d)); [discriminate | lia]. }
  rewrite Hst; simpl. rewrite Hr; simpl.
  rewrite (new_start_time_TIME _ d _ Hm). reflexivity.
Qed.

Lemma process_tick_TIME_first (cfg : FootprintEngineConfig) (d : Z)
    (bs : list FootprintBar) (n ts : Z) (p : Q) (v : Z) (side : bool) (r : Q) :
  time_mode cfg d ->
  rounded cfg p = Ok r ->
  process_tick (mkFootprintEngine cfg bs None n) ts p v side
  = Ok (mkFootprintEngine cfg bs
          (Some (fold_tick cfg
                   (FootprintBar_init (d * (ts / d)) ts r r r r) ts r v side))
          (n + 1)).
Proof.
  intros Hm Hr. rewrite process_tick_eq; simpl.
  rewrite Hr; simpl.
  rewrite (new_start_time_TIME _ d _ Hm). reflexivity.
Qed.


(** ** The end-to-end example *)

(** C9, with the instants the engine needs: the four ticks at 100.00
    (ask, 10), 100.25 (bid, 5), 100.00 (ask, 8) and 101.00 (ask, 20), with
    tick_size 0.25 and TIME aggregation of "1min", where the second and
    third ticks come before the end of the first tick's minute and the
    fourth at least 60 seconds after the first, leave exactly one
    completed bar, with total_bar_volume 23, bar_delta 13 and two price
    levels, and a bar in progress whose open_price is 101.00. *)
Theorem four_ticks_one_bar (t1 t2 t3 t4 : Z) :
  t2 < 60000000 * (t1 / 60000000) + seconds 60 ->
  t3 < 60000000 * (t1 / 60000000) + seconds 60 ->
  t1 + seconds 60 <= t4 ->
  exists e b cur,
    process_tick_batch (FootprintEngine_init example_config)
      (four_ticks t1 t2 t3 t4) = Ok e /\
    get_all_completed_bars e = [b] /\
    total_bar_volume b = 23 /\
    bar_delta b = 13 /\
    List.length (price_levels b) = 2%nat /\
    current_bar e = Some cur /\
    (open_price cur == 101)%Q.
Proof.
  intros H2 H3 H4. unfold seconds in *.
  pose proof (floor_bounds 60000000 t1 eq_refl) as Hfl.
  unfold process_tick_batch, four_ticks, process_ticks, FootprintEngine_init.
  cbv [Tick.datetime Tick.price Tick.volume Tick.is_bid_trade].
  rewrite (process_tick_TIME_first _ 60000000 _ _ t1 100 10 false 100%Q
             example_time_mode eq_refl).
  generalize dependent (60000000 * (t1 / 60000000)). intros m H2 H3 Hfl.
  cbv [bind].
  rewrite (process_tick_TIME_keep _ 60000000 _ _ _ t2 (10025 # 100) 5 true
             (401 # 4) example_time_mode).
  2:{ cbn [start_time fold_tick FootprintBar_init]. lia. }
  2:{ reflexivity. }
  rewrite (process_tick_TIME_keep _ 60000000 _ _ _ t3 100 8 false 100%Q
             example_time_mode).
  2:{ cbn [start_time fold_tick FootprintBar_init]. lia. }
  2:{ reflexivity. }
  erewrite (process_tick_TIME_cross _ 60000000 _ _ _ _ t4 101 20 false 101%Q
              example_time_mode).
  2:{ cbn [start_time fold_tick FootprintBar_init]. lia. }
  2:{ vm_compute. reflexivity. }
  2:{ reflexivity. }
  generalize (60000000 * (t4 / 60000000)). intros m4.
  do 3 eexists. split; [vm_compute; reflexivity |].
  repeat split.
Qed.

Lemma four_ticks_one_bar_witness :
  exists e b cur,
    process_tick_batch (FootprintEngine_init example_config) tick_data_1min = Ok e /\
    get_all_completed_bars e = [b] /\
    total_bar_volume b = 23 /\
    bar_delta b = 13 /\
    List.length (price_levels b) = 2%nat /\
    current_bar e = Some cur /\
    (open_price cur == 101)%Q.
Proof.
  apply (four_ticks_one_bar example_start (example_start + seconds 10)
           (example_start + seconds 59) (example_start + seconds 61));
    vm_compute; congruence.
Defined.

(** C9 as the specification puts it fails: with the first tick at
    10:00:30, the third at 10:01:10 and the fourth at 10:01:31, the
    fourth tick is 61 seconds after the first, yet the third tick has
    already closed the bar: the completed bar holds two ticks (volume 15,
    delta 5) and the bar in progress opened at 100.00. *)
Lemma fourth_tick_later_is_not_enough :
  let t1 := example_start + seconds 30 in
  let t2 := example_start + seconds 40 in
  let t3 := example_start + seconds 70 in
  let t4 := example_start + seconds 91 in
  t1 <= t2 <= t3 /\ t3 <= t4 /\ t1 + seconds 60 <= t4 /\
  exists e b cur,
    process_tick_batch (FootprintEngine_init example_config)
      (four_ticks t1 t2 t3 t4) = Ok e /\
    get_all_completed_bars e = [b] /\
    total_bar_volume b = 15 /\
    total_bar_volume b <> 23 /\
    bar_delta b = 5 /\
    current_bar e = Some cur /\
    (open_price cur == 100)%Q /\
    ~ (open_price cur == 101)%Q.
Proof.
  cbv zeta. repeat split; try (vm_compute; congruence).
  do 3 eexists. split; [vm_compute; reflexivity |].
  repeat split; try (vm_compute; congruence).
Qed.

(** ** The Point of Control *)

Lemma max_from_first_maximal {A : Type} (key : A -> Z) (l : list A) (best : A) :
  exists before after,
    best :: l = before ++ Py.max_from key best l :: after /\
    Forall (fun x => key x < key (Py.max_from key best l)) before /\
    Forall (fun x => key x <= key (Py.max_from key best l)) after.
Proof.
  revert best. induction l as [| x l IH]; intros best; simpl.
  - exists [], []. repeat split; constructor.
  - destruct (key best <? key x) eqn:E.
    + apply Z.ltb_lt in E.
      destruct (IH x) as (before & after & Heq & Hlt & Hle).
      set (m := Py.max_from key x l) in *.
      exists (best :: before), after. split; [simpl; rewrite Heq; reflexivity |].
      split; [| exact Hle].
      constructor; [| exact Hlt].
      destruct before as [| y before]; simpl in Heq.
      * injection Heq as Hx _. rewrite <- Hx. exact E.
      * injection Heq as Hx _. subst y.
        pose proof (Forall_inv Hlt) as Hy. cbv beta in Hy. lia.
    + apply Z.ltb_ge in E.
      destruct (IH best) as (before & after & Heq & Hlt & Hle).
      set (m := Py.max_from key best l) in *.
      destruct before as [| y before]; simpl in Heq.
      * injection Heq as Hb Hl.
        exists [], (x :: after). rewrite <- Hb, Hl.
        split; [reflexivity |]. split; [constructor |].
        constructor; [exact E | rewrite Hb; exact Hle].
      * injection Heq as Hb Hl. subst y.
        exists (best :: x :: before), after. rewrite Hl.
        split; [reflexivity |]. split; [| exact Hle].
        pose proof (Forall_inv Hlt) as Hy. pose proof (Forall_inv_tail Hlt) as Ht.
        cbv beta in Hy.
        constructor; [assumption |]. constructor; [lia | assumption].
Qed.

Lemma fold_tick_keys (cfg : FootprintEngineConfig) (cur : FootprintBar)
    (ts : Z) (r : Q) (v : Z) (side : bool) :
  Dict.keys (price_levels (fold_tick cfg cur ts r v side))
  = if Dict.mem (price_levels cur) r
    then Dict.keys (price_levels cur)
    else Dict.keys (price_levels cur) ++ [r].
Proof.
  unfold fold_tick; simpl.
  destruct (Dict.mem (price_levels cur) r) eqn:Emem.
  - unfold Dict.mem in Emem.
    destruct (Dict.get (price_levels cur) r) as [l |] eqn:E; [| discriminate].
    rewrite Dict_keys_set. unfold Dict.mem. rewrite E. reflexivity.
  - rewrite Dict_get_set, !Dict_keys_set.
    unfold Dict.mem at 1. rewrite Dict_get_set. rewrite Emem. reflexivity.
Qed.


(** ** The bounded history *)

Lemma tl_skipn {A : Type} (k : nat) (l : list A) :
  tl (skipn k l) = skipn (S k) l.
Proof.
  revert l. induction k as [| k IH]; intros l.
  - destruct l; reflexivity.
  - destruct l as [| a l]; [reflexivity |]. simpl skipn at 1. rewrite IH.
    reflexivity.
Qed.

Lemma append_evict_last_n (cfg : FootprintEngineConfig)
    (log : list FootprintBar) (b : FootprintBar) :
  append_evict cfg (last_n (Z.to_nat (max_bars_in_memory cfg)) log) b
  = last_n (Z.to_nat (max_bars_in_memory cfg)) (log ++ [b]).
Proof.
  unfold append_evict, last_n, Py.len.
  set (m := Z.to_nat (max_bars_in_memory cfg)).
  rewrite !length_app, length_skipn; simpl List.length.
  destruct (Nat.lt_ge_cases (List.length log) m) as [Hlt | Hge].
  - replace (List.length log - m)%nat with 0%nat by lia.
    replace (List.length log + 1 - m)%nat with 0%nat by lia.
    simpl skipn.
    destruct (Z.gtb_spec (Z.of_nat (List.length log - 0 + 1))
                (max_bars_in_memory cfg)); [lia | reflexivity].
  - destruct (Z.gtb_spec
                (Z.of_nat (List.length log - (List.length log - m) + 1))
                (max_bars_in_memory cfg)) as [_ | Hle]; [| lia].
    replace (List.length log + 1 - m)%nat
      with (S (List.length log - m)) by lia.
    rewrite skipn_app.
    destruct (Nat.eq_dec m 0) as [Hm | Hm].
    + rewrite Hm, Nat.sub_0_r.
      replace (S (List.length log) - List.length log)%nat with 1%nat by lia.
      rewrite skipn_all, (skipn_all2 log) by lia. reflexivity.
    + replace (S (List.length log - m) - List.length log)%nat with 0%nat by lia.
      simpl skipn at 3. rewrite <- tl_skipn.
      destruct (skipn (List.length log - m) log) as [| a l] eqn:E.
      * apply (f_equal (@List.length _)) in E.
        rewrite length_skipn in E. simpl in E. lia.
      * reflexivity.
Qed.

Lemma finalize_history (cfg : FootprintEngineConfig) (log : list FootprintBar)
    (e e' : FootprintEngine) :
  history_of cfg log e ->
  _finalize_current_bar e = Ok e' ->
  history_of cfg (log ++ finalize_appends e) e'.
Proof.
  intros [Hcfg Hbars] H. unfold _finalize_current_bar in H.
  unfold finalize_appends, history_of.
  destruct (current_bar e) as [cur |].
  - inv_bind H. injection H as <-. simpl. rewrite Ha, Hcfg, Hbars.
    split; [reflexivity | apply append_evict_last_n].
  - injection H as <-. rewrite app_nil_r. split; assumption.
Qed.

Lemma process_tick_history (cfg : FootprintEngineConfig)
    (log : list FootprintBar) (e e' : FootprintEngine) (t : Tick.t) :
  history_of cfg log e ->
  process_tick e (Tick.datetime t) (Tick.price t) (Tick.volume t)
    (Tick.is_bid_trade t) = Ok e' ->
  history_of cfg (log ++ tick_appends e t) e'.
Proof.
  intros [Hcfg Hbars] H. rewrite process_tick_eq in H; simpl in H.
  unfold tick_appends, finalize_appends, history_of.
  destruct (current_bar e) as [cur |].
  - inv_bind H. rewrite Ha. destruct a as [|].
    + inv_bind H. rewrite Ha0. inv_bind H. inv_bind H. injection H as <-. simpl.
      rewrite Hcfg, Hbars. split; [reflexivity | apply append_evict_last_n].
    + inv_bind H. injection H as <-. simpl. rewrite app_nil_r.
      split; assumption.
  - inv_bind H. inv_bind H. injection H as <-. simpl. rewrite app_nil_r.
    split; assumption.
Qed.

Lemma process_ticks_history (cfg : FootprintEngineConfig) (ticks : list Tick.t)
    (log : list FootprintBar) (e e' : FootprintEngine) :
  history_of cfg log e ->
  process_ticks e ticks = Ok e' ->
  history_of cfg (log ++ ticks_appends e ticks) e'.
Proof.
  revert log e. induction ticks as [| t ticks IH]; simpl; intros log e He H.
  - injection H as <-. rewrite app_nil_r. exact He.
  - inv_bind H. rewrite Ha, app_assoc.
    apply (IH _ a); [| exact H].
    eapply process_tick_history; eauto.
Qed.

Lemma exec_history (cfg : FootprintEngineConfig) (o : op)
    (log : list FootprintBar) (e e' : FootprintEngine) :
  history_of cfg log e ->
  exec e o = Ok e' ->
  history_of cfg (log ++ op_appends e o) e'.
Proof.
  destruct o as [t | ticks |]; simpl; intros He H.
  - eapply process_tick_history; eauto.
  - unfold process_tick_batch in H. inv_bind H.
    pose proof (process_ticks_history _ _ _ _ _ He Ha) as [Hcfg Hbars].
    destruct (current_bar a) as [cur |].
    + inv_bind H. injection H as <-. split; assumption.
    + injection H as <-. split; assumption.
  - eapply finalize_history; eauto.
Qed.

Lemma run_history (cfg : FootprintEngineConfig) (ops : list op)
    (log : list FootprintBar) (e e' : FootprintEngine) :
  history_of cfg log e ->
  run e ops = Ok e' ->
  history_of cfg (log ++ run_appends e ops) e'.
Proof.
  revert log e. induction ops as [| o ops IH]; simpl; intros log e He H.
  - injection H as <-. rewrite app_nil_r. exact He.
  - inv_bind H. rewrite Ha, app_assoc.
    apply (IH _ a); [| exact H].
    eapply exec_history; eauto.
Qed.

Lemma last_n_length {A : Type} (n : nat) (l : list A) :
  (List.length (last_n n l) <= n)%nat.
Proof. unfold last_n. rewrite length_skipn. lia. Qed.

(** C5: with max_bars_in_memory M >= 1, after any sequence of
    [process_tick], [process_tick_batch] and finalization calls on a new
    engine the history holds at most M bars, and it holds exactly the
    last M of the bars that were appended to it, in the order they were
    appended; an append to a history of M bars evicts its first (oldest)
    bar and nothing else. *)
Theorem history_is_bounded_fifo (cfg : FootprintEngineConfig) (ops : list op)
    (e : FootprintEngine) :
  1 <= max_bars_in_memory cfg ->
  run (FootprintEngine_init cfg) ops = Ok e ->
  Py.len (bars e) <= max_bars_in_memory cfg /\
  bars e = last_n (Z.to_nat (max_bars_in_memory cfg))
             (run_appends (FootprintEngine_init cfg) ops) /\
  (forall (h : list FootprintBar) (b : FootprintBar),
     Py.len h <= max_bars_in_memory cfg ->
     append_evict cfg h b
     = if Py.len h <? max_bars_in_memory cfg then h ++ [b] else tl h ++ [b]).
Proof.
  intros HM H.
  assert (Hinit : history_of cfg [] (FootprintEngine_init cfg))
    by (split; reflexivity).
  pose proof (run_history _ _ _ _ _ Hinit H) as [_ Hbars]. simpl in Hbars.
  split; [| split; [exact Hbars |]].
  - rewrite Hbars. unfold Py.len.
    pose proof (last_n_length (Z.to_nat (max_bars_in_memory cfg))
                  (run_appends (FootprintEngine_init cfg) ops)). lia.
  - intros h b Hh. unfold append_evict, Py.len in *. rewrite length_app; simpl.
    destruct (Z.ltb_spec (Z.of_nat (List.length h)) (max_bars_in_memory cfg)).
    + destruct (Z.gtb_spec (Z.of_nat (List.length h + 1))
                  (max_bars_in_memory cfg)); [lia | reflexivity].
    + destruct (Z.gtb_spec (Z.of_nat (List.length h + 1))
                  (max_bars_in_memory cfg)); [| lia].
      destruct h; [simpl in *; lia | reflexivity].
Qed.

(** ** Streams of ticks cut into bars *)

Section Segmentation.

Variable cfg : FootprintEngineConfig.
Variables full good : list Tick.t -> FootprintBar -> Prop.

Hypothesis good_first : forall (t : Tick.t) (st : Z) (r : Q),
  new_start_time cfg (Tick.datetime t) = Ok st ->
  rounded cfg (Tick.price t) = Ok r ->
  good [t]
    (fold_tick cfg (FootprintBar_init st (Tick.datetime t) r r r r)
       (Tick.datetime t) r (Tick.volume t) (Tick.is_bid_trade t)).

Hypothesis good_next : forall (seg : list Tick.t) (b : FootprintBar)
    (t : Tick.t) (r : Q),
  good seg b ->
  _should_create_new_bar cfg b (Tick.datetime t) (Tick.price t) = Ok false ->
  rounded cfg (Tick.price t) = Ok r ->
  good (seg ++ [t])
    (fold_tick cfg b (Tick.datetime t) r (Tick.volume t) (Tick.is_bid_trade t)).

Hypothesis good_full : forall (seg : list Tick.t) (b b' : FootprintBar)
    (t : Tick.t),
  good seg b ->
  _should_create_new_bar cfg b (Tick.datetime t) (Tick.price t) = Ok true ->
  update_bar_statistics b (value_area_percentage cfg) = Ok b' ->
  full seg b'.

Lemma process_tick_segmented (seen : list Tick.t) (log : list FootprintBar)
    (e e' : FootprintEngine) (t : Tick.t) :
  config e = cfg ->
  segmented full good seen log e ->
  process_tick e (Tick.datetime t) (Tick.price t) (Tick.volume t)
    (Tick.is_bid_trade t) = Ok e' ->
  config e' = cfg /\
  segmented full good (seen ++ [t]) (log ++ tick_appends e t) e'.
Proof.
  intros Hcfg (segs & cur & Hseen & Hlog & Hcur) H.
  rewrite process_tick_eq in H; simpl in H. rewrite Hcfg in H.
  unfold tick_appends, finalize_appends. rewrite Hcfg.
  destruct (current_bar e) as [b |].
  - inv_bind H. rewrite Ha. destruct a as [|].
    + inv_bind H. rewrite Ha0. inv_bind H. inv_bind H. injection H as <-.
      split; [reflexivity |].
      exists (segs ++ [cur]), [t]. simpl.
      split; [rewrite concat_app, Hseen; simpl; rewrite app_nil_r; reflexivity |].
      split; [| apply good_first; assumption].
      apply Forall2_app; [exact Hlog |].
      constructor; [| constructor]. eapply good_full; eauto.
    + inv_bind H. injection H as <-. split; [reflexivity |].
      exists segs, (cur ++ [t]). simpl. rewrite app_nil_r.
      split; [rewrite Hseen, app_assoc; reflexivity |].
      split; [exact Hlog |]. apply good_next; assumption.
  - inv_bind H. inv_bind H. injection H as <-. split; [reflexivity |].
    exists segs, [t]. simpl. rewrite app_nil_r. subst cur.
    split; [rewrite Hseen, app_nil_r; reflexivity |].
    split; [exact Hlog |]. apply good_first; assumption.
Qed.

Lemma process_ticks_segmented (ticks seen : list Tick.t)
    (log : list FootprintBar) (e e' : FootprintEngine) :
  config e = cfg ->
  segmented full good seen log e ->
  process_ticks e ticks = Ok e' ->
  config e' = cfg /\
  segmented full good (seen ++ ticks) (log ++ ticks_appends e ticks) e'.
Proof.
  revert seen log e. induction ticks as [| t ticks IH]; simpl;
    intros seen log e Hcfg Hseg H.
  - injection H as <-. rewrite !app_nil_r. split; assumption.
  - inv_bind H. rewrite Ha.
    destruct (process_tick_segmented _ _ _ _ _ Hcfg Hseg Ha) as [Hcfg' Hseg'].
    destruct (IH _ _ _ Hcfg' Hseg' H) as [Hcfg'' Hseg''].
    split; [exact Hcfg'' |].
    rewrite <- !app_assoc in Hseg''. exact Hseg''.
Qed.

Lemma new_engine_segmented :
  segmented full good [] [] (FootprintEngine_init cfg).
Proof.
  exists [], []. repeat split. constructor.
Qed.

End Segmentation.

(** Once a tick has been processed there is a bar in progress. *)
Lemma process_tick_current (e e' : FootprintEngine) (ts : Z) (p : Q) (v : Z)
    (side : bool) :
  process_tick e ts p v side = Ok e' -> exists b, current_bar e' = Some b.
Proof.
  rewrite process_tick_eq; simpl. intros H.
  destruct (current_bar e) as [cur |].
  - inv_bind H. destruct a as [|].
    + inv_bind H. inv_bind H. inv_bind H. injection H as <-.
      eexists; reflexivity.
    + inv_bind H. injection H as <-. eexists; reflexivity.
  - inv_bind H. inv_bind H. injection H as <-. eexists; reflexivity.
Qed.

Lemma process_ticks_current (ticks : list Tick.t) (e e' : FootprintEngine) :
  process_ticks e ticks = Ok e' ->
  (ticks = [] /\ e' = e) \/ exists b, current_bar e' = Some b.
Proof.
  revert e. induction ticks as [| t ticks IH]; simpl; intros e H.
  - injection H as <-. left; split; reflexivity.
  - inv_bind H. right.
    destruct (IH _ H) as [[-> ->] | Hb]; [| exact Hb].
    eapply process_tick_current; eauto.
Qed.

(** ** TICK aggregation *)

Lemma update_bar_statistics_tick_count (b b' : FootprintBar) (p : Q) :
  update_bar_statistics b p = Ok b' ->
  tick_count b' = tick_count b /\ start_time b' = start_time b.
Proof.
  intros H. apply update_bar_statistics_frame in H.
  destruct H as (tv & tav & tbv & tt & bd & poc & vah & val & up & ->).
  split; reflexivity.
Qed.

Lemma should_create_TICK (cfg : FootprintEngineConfig) (N : Z)
    (b : FootprintBar) (ts : Z) (p : Q) :
  aggregation_type cfg = TICK ->
  aggregation_value cfg = AggInt N ->
  _should_create_new_bar cfg b ts p = Ok (tick_count b >=? N).
Proof.
  intros Hty Hval. unfold _should_create_new_bar. rewrite Hty, Hval.
  reflexivity.
Qed.

Lemma len_snoc {A : Type} (l : list A) (a : A) : Py.len (l ++ [a]) = Py.len l + 1.
Proof. unfold Py.len. rewrite length_app. simpl. lia. Qed.

Section TickMode.

Variable cfg : FootprintEngineConfig.
Variable N : Z.
Hypothesis mode : aggregation_type cfg = TICK.
Hypothesis threshold : aggregation_value cfg = AggInt N.
Hypothesis positive : 1 <= N.

Lemma tick_good_first (t : Tick.t) (st : Z) (r : Q) :
  new_start_time cfg (Tick.datetime t) = Ok st ->
  rounded cfg (Tick.price t) = Ok r ->
  tick_good cfg N [t]
    (fold_tick cfg (FootprintBar_init st (Tick.datetime t) r r r r)
       (Tick.datetime t) r (Tick.volume t) (Tick.is_bid_trade t)).
Proof.
  intros Hst Hr. split; [apply bar_of_first; assumption |].
  simpl. split; [reflexivity | lia].
Qed.

Lemma tick_good_next (seg : list Tick.t) (b : FootprintBar) (t : Tick.t) (r : Q) :
  tick_good cfg N seg b ->
  _should_create_new_bar cfg b (Tick.datetime t) (Tick.price t) = Ok false ->
  rounded cfg (Tick.price t) = Ok r ->
  tick_good cfg N (seg ++ [t])
    (fold_tick cfg b (Tick.datetime t) r (Tick.volume t) (Tick.is_bid_trade t)).
Proof.
  intros (Hof & Hcount & Hrange) Hkeep Hr.
  rewrite (should_create_TICK _ N) in Hkeep by assumption.
  injection Hkeep as Hkeep.
  destruct (Z.geb_spec (tick_count b) N); [discriminate |].
  split; [apply bar_of_next; assumption |].
  simpl. rewrite len_snoc. lia.
Qed.

Lemma tick_good_full (seg : list Tick.t) (b b' : FootprintBar) (t : Tick.t) :
  tick_good cfg N seg b ->
  _should_create_new_bar cfg b (Tick.datetime t) (Tick.price t) = Ok true ->
  update_bar_statistics b (value_area_percentage cfg) = Ok b' ->
  tick_full cfg N seg b'.
Proof.
  intros (Hof & Hcount & Hrange) Hcross Hstats.
  rewrite (should_create_TICK _ N) in Hcross by assumption.
  injection Hcross as Hcross.
  destruct (Z.geb_spec (tick_count b) N); [| discriminate].
  destruct (update_bar_statistics_tick_count _ _ _ Hstats) as [Htc _].
  split; [eapply bar_of_stats; eauto |]. lia.
Qed.

Lemma process_ticks_TICK (ticks : list Tick.t) (e : FootprintEngine) :
  process_ticks (FootprintEngine_init cfg) ticks = Ok e ->
  config e = cfg /\
  segmented (tick_full cfg N) (tick_good cfg N) ticks
    (ticks_appends (FootprintEngine_init cfg) ticks) e.
Proof.
  intros H.
  apply (process_ticks_segmented cfg (tick_full cfg N) (tick_good cfg N)
           tick_good_first tick_good_next tick_good_full
           ticks [] [] (FootprintEngine_init cfg) e);
    [reflexivity | apply new_engine_segmented | exact H].
Qed.

End TickMode.

Lemma Forall_last_n {A : Type} (P : A -> Prop) (n : nat) (l : list A) :
  Forall P l -> Forall P (last_n n l).
Proof.
  intros H. unfold last_n. rewrite <- (firstn_skipn (List.length l - n) l) in H.
  apply Forall_app in H. apply H.
Qed.

Lemma Forall2_Forall_r {A B : Type} (R : A -> B -> Prop) (P : B -> Prop)
    (la : list A) (lb : list B) :
  (forall a b, R a b -> P b) -> Forall2 R la lb -> Forall P lb.
Proof.
  intros HRP H. induction H; constructor; eauto.
Qed.



Lemma history_is_bounded_fifo_witness :
  exists e,
    run (FootprintEngine_init small_history_config)
      [OpBatch tick_data_1min; OpFinalize] = Ok e /\
    Py.len (bars e) <= 2 /\
    bars e = last_n 2 (run_appends (FootprintEngine_init small_history_config)
                         [OpBatch tick_data_1min; OpFinalize]) /\
    List.length (run_appends (FootprintEngine_init small_history_config)
                   [OpBatch tick_data_1min; OpFinalize]) = 4%nat.
Proof.
  pose (e := match run (FootprintEngine_init small_history_config)
                     [OpBatch tick_data_1min; OpFinalize] with
             | Ok x => x
             | Err _ => FootprintEngine_init small_history_config
             end).
  assert (Hrun : run (FootprintEngine_init small_history_config)
                   [OpBatch tick_data_1min; OpFinalize] = Ok e)
    by (vm_compute; reflexivity).
  assert (HM : 1 <= max_bars_in_memory small_history_config)
    by (vm_compute; discriminate).
  destruct (history_is_bounded_fifo small_history_config
              [OpBatch tick_data_1min; OpFinalize] e HM Hrun)
    as (Hlen & Hbars & _).
  exists e.
  split; [exact Hrun |]. split; [exact Hlen |]. split; [exact Hbars |].
  vm_compute. reflexivity.
Defined.

(** ** TIME aggregation: the bars of a stream *)

Section TimeMode.

Variable cfg : FootprintEngineConfig.
Variable d : Z.
Hypothesis mode : time_mode cfg d.

Lemma time_good_first (t : Tick.t) (st : Z) (r : Q) :
  new_start_time cfg (Tick.datetime t) = Ok st ->
  rounded cfg (Tick.price t) = Ok r ->
  time_good cfg d [t]
    (fold_tick cfg (FootprintBar_init st (Tick.datetime t) r r r r)
       (Tick.datetime t) r (Tick.volume t) (Tick.is_bid_trade t)).
Proof.
  intros Hst Hr. split; [apply bar_of_first; assumption |].
  rewrite (new_start_time_TIME _ d _ mode) in Hst. injection Hst as <-.
  exists t, []. simpl. split; [reflexivity |]. split; [reflexivity |].
  destruct mode as (_ & _ & Hd).
  pose proof (floor_bounds d (Tick.datetime t) Hd).
  constructor; [lia | constructor].
Qed.

Lemma time_good_next (seg : list Tick.t) (b : FootprintBar) (t : Tick.t) (r : Q) :
  time_good cfg d seg b ->
  _should_create_new_bar cfg b (Tick.datetime t) (Tick.price t) = Ok false ->
  rounded cfg (Tick.price t) = Ok r ->
  time_good cfg d (seg ++ [t])
    (fold_tick cfg b (Tick.datetime t) r (Tick.volume t) (Tick.is_bid_trade t)).
Proof.
  intros (Hof & t0 & rest & Hseg & Hstart & Hall) Hkeep Hr.
  rewrite (should_create_TIME _ d _ _ _ mode) in Hkeep. injection Hkeep as Hkeep.
  destruct (Z.geb_spec (Tick.datetime t) (start_time b + d)); [discriminate |].
  split; [apply bar_of_next; assumption |].
  exists t0, (rest ++ [t]). simpl. split; [rewrite Hseg; reflexivity |].
  split; [exact Hstart |].
  apply Forall_app. split; [exact Hall |]. constructor; [lia | constructor].
Qed.

Lemma time_good_full (seg : list Tick.t) (b b' : FootprintBar) (t : Tick.t) :
  time_good cfg d seg b ->
  _should_create_new_bar cfg b (Tick.datetime t) (Tick.price t) = Ok true ->
  update_bar_statistics b (value_area_percentage cfg) = Ok b' ->
  time_good cfg d seg b'.
Proof.
  intros (Hof & t0 & rest & Hseg & Hstart & Hall) _ Hstats.
  destruct (update_bar_statistics_tick_count _ _ _ Hstats) as [_ Hst].
  split; [eapply bar_of_stats; eauto |].
  exists t0, rest. rewrite Hst. repeat split; assumption.
Qed.

Lemma process_ticks_TIME (ticks : list Tick.t) (e : FootprintEngine) :
  process_ticks (FootprintEngine_init cfg) ticks = Ok e ->
  config e = cfg /\
  segmented (time_good cfg d) (time_good cfg d) ticks
    (ticks_appends (FootprintEngine_init cfg) ticks) e.
Proof.
  intros H.
  apply (process_ticks_segmented cfg (time_good cfg d) (time_good cfg d)
           time_good_first time_good_next time_good_full
           ticks [] [] (FootprintEngine_init cfg) e);
    [reflexivity | apply new_engine_segmented | exact H].
Qed.

End TimeMode.



(** ** The levels of a bar built from ticks *)

Lemma touch_known (d : Dict.t PriceLevelData) (r : Q) (l : PriceLevelData)
    (f : PriceLevelData -> PriceLevelData) :
  Dict.get d r = Some l -> Dict.set d r (f l) = touch d r f.
Proof.
  induction d as [| [k v] d IH]; cbn [Dict.get Dict.set touch]; [discriminate |].
  destruct (Qeq_bool k r).
  - intros H; injection H as ->. reflexivity.
  - intros H. rewrite (IH H). reflexivity.
Qed.

Lemma touch_new (d : Dict.t PriceLevelData) (r : Q)
    (f : PriceLevelData -> PriceLevelData) :
  Dict.get d r = None ->
  Dict.set (Dict.set d r (PriceLevelData_init r 0 0 0 0)) r
    (f (PriceLevelData_init r 0 0 0 0))
  = touch d r f.
Proof.
  induction d as [| [k v] d IH]; cbn [Dict.get Dict.set touch].
  - intros _. rewrite Qeq_bool_refl. reflexivity.
  - destruct (Qeq_bool k r) eqn:E; [discriminate |].
    intros H. cbn [Dict.set]. rewrite E, (IH H). reflexivity.
Qed.

Lemma fold_tick_touch (cfg : FootprintEngineConfig) (cur : FootprintBar)
    (ts : Z) (r : Q) (v : Z) (side : bool) :
  price_levels (fold_tick cfg cur ts r v side)
  = touch (price_levels cur) r (add_trade cfg v side).
Proof.
  unfold fold_tick; cbn [price_levels]. unfold Dict.mem.
  destruct (Dict.get (price_levels cur) r) as [l |] eqn:E.
  - rewrite E. rewrite <- (touch_known _ _ _ _ E).
    unfold add_trade. destruct side; reflexivity.
  - rewrite Dict_get_set. rewrite <- (touch_new _ _ _ E).
    unfold add_trade. destruct side; reflexivity.
Qed.

Lemma add_trade_level_ok (cfg : FootprintEngineConfig) (v : Z) (side : bool)
    (k : Q) (l : PriceLevelData) :
  0 < v ->
  price l = k ->
  total_volume l = bid_volume l + ask_volume l ->
  0 <= total_volume l ->
  level_ok (k, add_trade cfg v side l).
Proof.
  intros Hv Hp Hc Hpos. unfold level_ok, add_trade, update_derived_metrics.
  destruct side; simpl; repeat split; try assumption; lia.
Qed.

Lemma touch_keys_Forall (P : Q -> Prop) (d : Dict.t PriceLevelData) (r : Q)
    (f : PriceLevelData -> PriceLevelData) :
  Forall P (Dict.keys d) -> P r -> Forall P (Dict.keys (touch d r f)).
Proof.
  unfold Dict.keys. induction d as [| [k v] d IH]; simpl; intros Hd Hr.
  - constructor; [exact Hr | constructor].
  - inversion Hd as [| x l Hx Hl]; subst.
    destruct (Qeq_bool k r); simpl; constructor; auto.
Qed.

Lemma touch_levels_ok (cfg : FootprintEngineConfig) (v : Z) (side : bool)
    (d : Dict.t PriceLevelData) (r : Q) :
  0 < v -> levels_ok d -> levels_ok (touch d r (add_trade cfg v side)).
Proof.
  intros Hv. unfold levels_ok, Dict.keys.
  induction d as [| [k l] d IH]; simpl; intros [Hdist Hall].
  - split; [split; [constructor | exact I] |].
    constructor; [| constructor].
    apply add_trade_level_ok; [exact Hv | reflexivity | reflexivity | simpl; lia].
  - destruct Hdist as [Hk Hdist].
    inversion Hall as [| x xs Hx Hxs]; subst.
    destruct Hx as (Hp & Hc & Hpos). simpl in Hp, Hc, Hpos.
    destruct (Qeq_bool k r) eqn:E; simpl.
    + split; [split; assumption |].
      constructor; [| exact Hxs].
      apply add_trade_level_ok; [exact Hv | exact Hp | exact Hc | lia].
    + destruct (IH (conj Hdist Hxs)) as [Hdist' Hall'].
      split; [split; [| exact Hdist'] |].
      * apply (touch_keys_Forall (fun b => ~ (k == b)%Q)); [exact Hk |].
        apply Qeq_bool_neq. exact E.
      * constructor; [repeat split; assumption | exact Hall'].
Qed.

Lemma touch_not_empty (d : Dict.t PriceLevelData) (r : Q)
    (f : PriceLevelData -> PriceLevelData) :
  touch d r f <> [].
Proof.
  destruct d as [| [k v] d]; simpl; [discriminate |].
  destruct (Qeq_bool k r); discriminate.
Qed.

Lemma bar_of_levels_ok (cfg : FootprintEngineConfig) (ticks : list Tick.t)
    (b : FootprintBar) :
  bar_of cfg ticks b ->
  Forall (fun t => 0 < Tick.volume t) ticks ->
  levels_ok (price_levels b) /\ price_levels b <> [].
Proof.
  induction 1 as [t st r Hst Hr | ticks b t r Hof IH Hr | ticks b b' p Hof IH Hstats];
    intros Hpos.
  - rewrite fold_tick_touch. split; [| apply touch_not_empty].
    apply touch_levels_ok; [exact (Forall_inv Hpos) |].
    split; [exact I | constructor].
  - apply Forall_app in Hpos. destruct Hpos as [Hpos Ht].
    rewrite fold_tick_touch. split; [| apply touch_not_empty].
    apply touch_levels_ok; [exact (Forall_inv Ht) | apply IH; exact Hpos].
  - rewrite (update_bar_statistics_levels _ _ _ Hstats). apply IH; exact Hpos.
Qed.

(** ** [sorted] and [index] *)

Lemma insert_Forall (P : Q -> Prop) (x : Q) (l : list Q) :
  Forall P l -> P x -> Forall P (Py.insert x l).
Proof.
  induction l as [| y l IH]; simpl; intros Hl Hx.
  - constructor; [exact Hx | constructor].
  - inversion Hl; subst.
    destruct (Qle_bool y x); constructor; auto.
Qed.

Lemma insert_Permutation (x : Q) (l : list Q) :
  Permutation (Py.insert x l) (x :: l).
Proof.
  induction l as [| y l IH]; simpl.
  - apply Permutation_refl.
  - destruct (Qle_bool y x).
    + apply Permutation_trans with (y :: x :: l);
        [apply perm_skip; exact IH | apply perm_swap].
    + apply Permutation_refl.
Qed.

Lemma insert_sorted (x : Q) (l : list Q) :
  StronglySorted Qlt l ->
  Forall (fun a => ~ (a == x)%Q) l ->
  StronglySorted Qlt (Py.insert x l).
Proof.
  induction l as [| y l IH]; simpl; intros Hs Hne.
  - constructor; constructor.
  - apply StronglySorted_inv in Hs. destruct Hs as [Hs Hy].
    pose proof (Forall_inv Hne) as Hyx. cbv beta in Hyx.
    apply Forall_inv_tail in Hne.
    destruct (Qle_bool y x) eqn:E.
    + apply Qle_bool_iff in E.
      constructor; [apply IH; assumption |].
      apply insert_Forall; [exact Hy | lra].
    + assert (Hlt : (x < y)%Q).
      { destruct (Qlt_le_dec x y) as [Hlt | Hle]; [exact Hlt |].
        apply Qle_bool_iff in Hle. congruence. }
      constructor; [constructor; assumption |].
      constructor; [exact Hlt |].
      eapply Forall_impl; [| exact Hy]. intros a Ha. simpl in Ha. lra.
Qed.

Lemma sorted_from (l acc : list Q) :
  StronglySorted Qlt acc ->
  distinct l ->
  Forall (fun x => Forall (fun a => ~ (a == x)%Q) acc) l ->
  StronglySorted Qlt (fold_left (fun acc x => Py.insert x acc) l acc) /\
  Permutation (fold_left (fun acc x => Py.insert x acc) l acc) (l ++ acc).
Proof.
  revert acc. induction l as [| x l IH]; simpl; intros acc Hs Hd Hne.
  - split; [exact Hs | apply Permutation_refl].
  - destruct Hd as [Hx Hd].
    pose proof (Forall_inv Hne) as Hxacc. apply Forall_inv_tail in Hne.
    destruct (IH (Py.insert x acc)) as [Hs' Hp'].
    + apply insert_sorted; assumption.
    + exact Hd.
    + clear - Hx Hne. induction l as [| y l IH]; [constructor |].
      pose proof (Forall_inv Hx) as Hxy. cbv beta in Hxy.
      constructor.
      * apply insert_Forall; [exact (Forall_inv Hne) | exact Hxy].
      * apply IH; [exact (Forall_inv_tail Hx) | exact (Forall_inv_tail Hne)].
    + split; [exact Hs' |].
      eapply Permutation_trans; [exact Hp' |].
      eapply Permutation_trans;
        [apply Permutation_app_head, insert_Permutation |].
      apply Permutation_sym, Permutation_middle.
Qed.

Lemma sorted_spec (l : list Q) :
  distinct l ->
  StronglySorted Qlt (Py.sorted l) /\ Permutation (Py.sorted l) l.
Proof.
  intros Hd. unfold Py.sorted.
  destruct (sorted_from l [] (SSorted_nil _) Hd) as [Hs Hp].
  - clear. induction l; constructor; [constructor | assumption].
  - rewrite app_nil_r in Hp. split; assumption.
Qed.

Lemma index_from_spec (x : Q) (l : list Q) (i : Z) :
  Exists (fun y => (y == x)%Q) l ->
  exists pre y post,
    l = pre ++ y :: post /\ (y == x)%Q /\
    Py.index_from x l i = Ok (i + Py.len pre).
Proof.
  revert i. induction l as [| a l IH]; intros i Hex.
  - inversion Hex.
  - simpl. destruct (Qeq_bool a x) eqn:E.
    + apply Qeq_bool_iff in E. exists [], a, l.
      split; [reflexivity |]. split; [exact E |].
      unfold Py.len; simpl. f_equal. lia.
    + assert (Hex' : Exists (fun y => (y == x)%Q) l).
      { inversion Hex as [? ? Ha | ? ? Hl]; subst; [| exact Hl].
        apply Qeq_bool_iff in Ha. congruence. }
      destruct (IH (i + 1) Hex') as (pre & y & post & Hl & Hy & Hidx).
      exists (a :: pre), y, post. rewrite Hl.
      split; [reflexivity |]. split; [exact Hy |].
      rewrite <- Hl, Hidx. unfold Py.len; simpl List.length. f_equal. lia.
Qed.

(** ** The Value Area loop *)

Lemma zsum_app (l1 l2 : list Z) : zsum (l1 ++ l2) = zsum l1 + zsum l2.
Proof.
  unfold zsum. induction l1 as [| a l1 IH]; simpl; [reflexivity | rewrite IH; lia].
Qed.

Lemma getitem_middle {A : Type} (l1 : list A) (a : A) (l2 : list A) :
  Py.getitem (l1 ++ a :: l2) (Py.len l1) = Ok a.
Proof.
  unfold Py.getitem, Py.len. rewrite length_app. simpl List.length.
  destruct (Z.ltb_spec (Z.of_nat (List.length l1)) 0); [lia |].
  destruct (Z.ltb_spec (Z.of_nat (List.length l1)) 0); [lia |].
  destruct (Z.leb_spec (Z.of_nat (List.length l1 + S (List.length l2)))
              (Z.of_nat (List.length l1))); [lia |].
  simpl. rewrite Nat2Z.id, nth_error_app2, Nat.sub_diag by lia. reflexivity.
Qed.

Lemma snoc_case {A : Type} (l : list A) :
  l = [] \/ exists l' a, l = l' ++ [a].
Proof.
  induction l as [| x l IH] using rev_ind; [left; reflexivity |].
  right. exists l, x. reflexivity.
Qed.

Section ValueAreaLoop.

Variable d : Dict.t PriceLevelData.
Variable sorted_prices : list Q.
Variable target : Q.

Hypothesis filed : forall k, In k sorted_prices ->
  exists l, Dict.get d k = Some l /\ 0 < total_volume l.

Lemma level_volume (k : Q) :
  In k sorted_prices ->
  (l <- Dict.getitem d k ;; Ok (total_volume l)) = Ok (vol d k) /\ 0 < vol d k.
Proof.
  intros Hk. destruct (filed k Hk) as (l & Hget & Hpos).
  unfold Dict.getitem, vol. rewrite Hget. simpl. split; [reflexivity | exact Hpos].
Qed.

Lemma vol_above_eq (pre win post : list Q) :
  sorted_prices = pre ++ win ++ post ->
  win <> [] ->
  vol_above d sorted_prices (Py.len pre + Py.len win - 1)
  = Ok match post with [] => 0 | c :: _ => vol d c end.
Proof.
  intros Hs Hwin. unfold vol_above.
  replace (Py.len pre + Py.len win - 1 + 1) with (Py.len (pre ++ win))
    by (unfold Py.len; rewrite length_app; lia).
  destruct post as [| c post].
  - rewrite app_nil_r in Hs. rewrite <- Hs.
    rewrite Z.ltb_irrefl. reflexivity.
  - rewrite app_assoc in Hs.
    assert (Hlt : (Py.len (pre ++ win) <? Py.len sorted_prices) = true).
    { apply Z.ltb_lt. rewrite Hs. unfold Py.len. rewrite (length_app (pre ++ win)).
      simpl. lia. }
    rewrite Hlt. rewrite Hs at 1. rewrite getitem_middle. simpl.
    apply level_volume. rewrite Hs. apply in_or_app. right. left. reflexivity.
Qed.

Lemma vol_below_eq (pre win post : list Q) :
  sorted_prices = pre ++ win ++ post ->
  vol_below d sorted_prices (Py.len pre)
  = Ok match rev pre with [] => 0 | a :: _ => vol d a end.
Proof.
  intros Hs. unfold vol_below. destruct (snoc_case pre) as [-> | (pre' & a & ->)].
  - reflexivity.
  - rewrite rev_unit, len_snoc.
    replace (Py.len pre' + 1 - 1) with (Py.len pre') by lia.
    assert (Hge : (Py.len pre' >=? 0) = true) by (apply Z.geb_le; unfold Py.len; lia).
    rewrite Hge. rewrite <- app_assoc in Hs. simpl in Hs.
    rewrite Hs at 1. rewrite getitem_middle. simpl.
    apply level_volume. rewrite Hs. apply in_or_app. right. left. reflexivity.
Qed.

Lemma va_loop_window (fuel : nat) :
  forall pre win post : list Q,
    sorted_prices = pre ++ win ++ post ->
    win <> [] ->
    (List.length pre + List.length post < fuel)%nat ->
    exists pre' win' post',
      va_loop fuel d sorted_prices target (zsum (map (vol d) win))
        (Py.len pre) (Py.len pre + Py.len win - 1)
      = Ok (Py.len pre', Py.len pre' + Py.len win' - 1) /\
      sorted_prices = pre' ++ win' ++ post' /\
      (exists a c, win' = a ++ win ++ c) /\
      ((target <= inject_Z (zsum (map (vol d) win')))%Q \/
       (pre' = [] /\ post' = [])).
Proof.
  induction fuel as [| fuel IH]; intros pre win post Hs Hwin Hfuel; [lia |].
  cbn [va_loop].
  destruct (Qle_bool target (inject_Z (zsum (map (vol d) win)))) eqn:Etarget.
  - exists pre, win, post. split; [reflexivity |]. split; [exact Hs |].
    split; [exists [], []; rewrite app_nil_r; reflexivity |].
    left. apply Qle_bool_iff. exact Etarget.
  - rewrite (vol_above_eq pre win post Hs Hwin), (vol_below_eq pre win post Hs).
    cbn [bind].
    destruct post as [| c post].
    + destruct (snoc_case pre) as [-> | (pre' & a & ->)].
      * simpl. exists [], win, []. split; [reflexivity |]. split; [exact Hs |].
        split; [exists [], []; rewrite app_nil_r; reflexivity |].
        right. split; reflexivity.
      * rewrite rev_unit.
        assert (Ha : 0 < vol d a).
        { apply level_volume. rewrite Hs. apply in_or_app. left.
          apply in_or_app. right. left. reflexivity. }
        replace (0 =? 0) with true by reflexivity.
        destruct (Z.eqb_spec (vol d a) 0); [lia |].
        destruct (Z.geb_spec 0 (vol d a)); [lia |].
        cbn [andb].
        destruct (IH pre' (a :: win) [])
          as (pre2 & win2 & post2 & Hrun & Hs2 & (x & y & Hwin2) & Hdone).
        { rewrite Hs, <- app_assoc. reflexivity. }
        { discriminate. }
        { rewrite length_app in Hfuel. simpl in *. lia. }
        exists pre2, win2, post2.
        split.
        { rewrite <- Hrun. rewrite !len_snoc. f_equal; [simpl; lia | lia |].
          unfold Py.len; simpl List.length. lia. }
        split; [exact Hs2 |].
        split; [| exact Hdone].
        exists (x ++ [a]), y. rewrite Hwin2, <- !app_assoc. reflexivity.
    + assert (Hc : 0 < vol d c).
      { apply level_volume. rewrite Hs. apply in_or_app. right.
        apply in_or_app. right. left. reflexivity. }
      destruct (Z.eqb_spec (vol d c) 0); [lia |]. cbn [andb].
      destruct (Z.geb_spec (vol d c)
                  match rev pre with [] => 0 | a :: _ => vol d a end)
        as [Hge | Hlt].
      * destruct (IH pre (win ++ [c]) post)
          as (pre2 & win2 & post2 & Hrun & Hs2 & (x & y & Hwin2) & Hdone).
        { rewrite Hs, <- !app_assoc. reflexivity. }
        { destruct win; discriminate. }
        { simpl in Hfuel. lia. }
        exists pre2, win2, post2.
        split.
        { rewrite <- Hrun. rewrite map_app, zsum_app, len_snoc. simpl.
          f_equal; lia. }
        split; [exact Hs2 |].
        split; [| exact Hdone].
        exists x, (c :: y). rewrite Hwin2, <- !app_assoc. reflexivity.
      * destruct (snoc_case pre) as [-> | (pre' & a & ->)];
          [simpl in Hlt; lia |].
        rewrite rev_unit in *.
        destruct (IH pre' (a :: win) (c :: post))
          as (pre2 & win2 & post2 & Hrun & Hs2 & (x & y & Hwin2) & Hdone).
        { rewrite Hs, <- app_assoc. reflexivity. }
        { discriminate. }
        { rewrite length_app in Hfuel. simpl in *. lia. }
        exists pre2, win2, post2.
        split.
        { rewrite <- Hrun. rewrite !len_snoc. f_equal; [simpl; lia | lia |].
          unfold Py.len; simpl List.length. lia. }
        split; [exact Hs2 |].
        split; [| exact Hdone].
        exists (x ++ [a]), y. rewrite Hwin2, <- !app_assoc. reflexivity.
Qed.

End ValueAreaLoop.

Lemma Py_sum_zsum {A : Type} (f : A -> Z) (l : list A) :
  Py.sum f l = zsum (map f l).
Proof.
  unfold Py.sum, zsum.
  assert (H : forall a, fold_left (fun acc x => acc + f x) l a
                        = a + fold_right Z.add 0 (map f l)).
  { induction l as [| x l IH]; intros a; simpl; [lia | rewrite IH; lia]. }
  rewrite H. lia.
Qed.

Lemma zsum_cons (a : Z) (l : list Z) : zsum (a :: l) = a + zsum l.
Proof. reflexivity. Qed.

Lemma zsum_positive (l : list Z) :
  Forall (fun x => 0 < x) l -> l <> [] -> 0 < zsum l.
Proof.
  intros Hall Hne. destruct l as [| a l]; [contradiction |].
  pose proof (Forall_inv Hall) as Ha. apply Forall_inv_tail in Hall.
  assert (H : 0 <= zsum l).
  { clear - Hall. induction l as [| x l IH]; simpl; [lia |].
    pose proof (Forall_inv Hall). apply Forall_inv_tail in Hall.
    specialize (IH Hall). cbv beta in *. lia. }
  simpl. cbv beta in Ha. lia.
Qed.

Lemma zsum_filter_Permutation (g : Q -> Z) (f : Q -> bool) (l l' : list Q) :
  Permutation l l' ->
  zsum (map g (filter f l)) = zsum (map g (filter f l')).
Proof.
  induction 1 as [| x l l' Hp IH | x y l | l l' l'' Hp1 IH1 Hp2 IH2]; simpl.
  - reflexivity.
  - destruct (f x); simpl; rewrite IH; reflexivity.
  - destruct (f x), (f y); simpl; lia.
  - rewrite IH1. exact IH2.
Qed.

Lemma Dict_get_Qeq {V : Type} (d : Dict.t V) (k1 k2 : Q) :
  (k1 == k2)%Q -> Dict.get d k1 = Dict.get d k2.
Proof.
  intros Heq. induction d as [| [k v] d IH]; simpl; [reflexivity |].
  assert (H : Qeq_bool k k1 = Qeq_bool k k2).
  { destruct (Qeq_bool k k1) eqn:E1, (Qeq_bool k k2) eqn:E2; try reflexivity.
    - apply Qeq_bool_iff in E1. apply Qeq_bool_neq in E2.
      exfalso. apply E2. rewrite E1. exact Heq.
    - apply Qeq_bool_iff in E2. apply Qeq_bool_neq in E1.
      exfalso. apply E1. rewrite E2. symmetry. exact Heq. }
  rewrite H, IH. reflexivity.
Qed.

Lemma Dict_get_In (d : Dict.t PriceLevelData) (k : Q) (l : PriceLevelData) :
  distinct (Dict.keys d) -> In (k, l) d -> Dict.get d k = Some l.
Proof.
  unfold Dict.keys. induction d as [| [k' l'] d IH]; simpl; intros Hd Hin;
    [contradiction |].
  destruct Hd as [Hk Hd]. destruct Hin as [Heq | Hin].
  - injection Heq as -> ->. rewrite Qeq_bool_refl. reflexivity.
  - destruct (Qeq_bool k' k) eqn:E; [| apply IH; assumption].
    apply Qeq_bool_iff in E. exfalso.
    rewrite Forall_forall in Hk. apply (Hk k); [| exact E].
    apply (in_map fst) in Hin. exact Hin.
Qed.

Lemma levels_ok_filed (d : Dict.t PriceLevelData) (k : Q) :
  levels_ok d -> In k (Dict.keys d) ->
  exists l, Dict.get d k = Some l /\ 0 < total_volume l /\ price l = k.
Proof.
  intros [Hd Hall] Hin. unfold Dict.keys in Hin.
  apply in_map_iff in Hin. destruct Hin as ([k' l] & Hk & Hin). simpl in Hk. subst k'.
  exists l. split; [apply Dict_get_In; assumption |].
  rewrite Forall_forall in Hall. destruct (Hall _ Hin) as (Hp & _ & Hpos).
  split; assumption.
Qed.

Lemma volume_by_keys (d : Dict.t PriceLevelData) (f : Q -> bool) :
  levels_ok d ->
  zsum (map total_volume (filter (fun l => f (price l)) (Dict.values d)))
  = zsum (map (vol d) (filter f (Dict.keys d))).
Proof.
  intros [Hd Hall].
  assert (H : forall d', incl d' d ->
            zsum (map total_volume (filter (fun l => f (price l)) (Dict.values d')))
            = zsum (map (vol d) (filter f (Dict.keys d')))).
  { induction d' as [| [k l] d' IH]; intros Hincl; [reflexivity |].
    assert (Hin : In (k, l) d) by (apply Hincl; left; reflexivity).
    rewrite Forall_forall in Hall. destruct (Hall _ Hin) as (Hp & _).
    simpl in Hp.
    assert (IH' := IH (fun x Hx => Hincl x (or_intror Hx))).
    unfold Dict.values, Dict.keys in *.
    cbn [map filter fst snd]. rewrite Hp.
    destruct (f k); cbn [map]; [| exact IH'].
    rewrite !zsum_cons, IH'. f_equal.
    unfold vol. rewrite (Dict_get_In d k l Hd Hin). reflexivity. }
  apply H. apply incl_refl.
Qed.

(** ** The window the loop returns *)

Lemma StronglySorted_app_inv {A : Type} (R : A -> A -> Prop) (l1 l2 : list A) :
  StronglySorted R (l1 ++ l2) ->
  StronglySorted R l1 /\ StronglySorted R l2 /\
  Forall (fun a => Forall (R a) l2) l1.
Proof.
  induction l1 as [| a l1 IH]; simpl; intros H.
  - repeat split; [constructor | exact H | constructor].
  - apply StronglySorted_inv in H. destruct H as [Hs Ha].
    destruct (IH Hs) as (H1 & H2 & H12).
    apply Forall_app in Ha. destruct Ha as [Ha1 Ha2].
    repeat split; [constructor; assumption | exact H2 |].
    constructor; assumption.
Qed.

Lemma filter_all {A : Type} (f : A -> bool) (l : list A) :
  Forall (fun x => f x = true) l -> filter f l = l.
Proof.
  induction 1 as [| x l Hx Hl IH]; simpl; [reflexivity |].
  rewrite Hx, IH. reflexivity.
Qed.

Lemma filter_none {A : Type} (f : A -> bool) (l : list A) :
  Forall (fun x => f x = false) l -> filter f l = [].
Proof.
  induction 1 as [| x l Hx Hl IH]; simpl; [reflexivity |].
  rewrite Hx, IH. reflexivity.
Qed.

Lemma Qle_bool_false (x y : Q) : (y < x)%Q -> Qle_bool x y = false.
Proof.
  intros H. destruct (Qle_bool x y) eqn:E; [| reflexivity].
  apply Qle_bool_iff in E. lra.
Qed.

Lemma Qle_bool_true (x y : Q) : (x <= y)%Q -> Qle_bool x y = true.
Proof. apply Qle_bool_iff. Qed.

(** In an ascending list the window between two of its elements is what
    a filter on their values keeps. *)
Lemma window_filter (pre post : list Q) (lo hi : Q) (w wi : list Q) :
  StronglySorted Qlt (pre ++ (lo :: w) ++ post) ->
  lo :: w = wi ++ [hi] ->
  Forall (fun k => in_range lo hi k = true) (lo :: w) /\
  filter (in_range lo hi) (pre ++ (lo :: w) ++ post) = lo :: w.
Proof.
  intros Hs Hlast.
  destruct (StronglySorted_app_inv _ _ _ Hs) as (_ & Hwp & Hpre).
  destruct (StronglySorted_app_inv _ _ _ Hwp) as (Hwin & _ & Hpost).
  assert (Hlo : Forall (fun k => Qle_bool lo k = true) (lo :: w)).
  { apply StronglySorted_inv in Hwin. destruct Hwin as [_ Hw].
    constructor; [apply Qle_bool_true; lra |].
    eapply Forall_impl; [| exact Hw]. intros k Hk. apply Qle_bool_true.
    simpl in Hk. lra. }
  assert (Hhi : Forall (fun k => Qle_bool k hi = true) (lo :: w)).
  { rewrite Hlast in Hwin |- *.
    destruct (StronglySorted_app_inv _ _ _ Hwin) as (_ & _ & Hwi).
    apply Forall_app. split.
    - eapply Forall_impl; [| exact Hwi]. intros k Hk. apply Qle_bool_true.
      pose proof (Forall_inv Hk) as Hk'. simpl in Hk'. lra.
    - constructor; [apply Qle_bool_true; lra | constructor]. }
  assert (Hin : Forall (fun k => in_range lo hi k = true) (lo :: w)).
  { rewrite Forall_forall in *. intros k Hk. unfold in_range.
    rewrite (Hlo k Hk), (Hhi k Hk). reflexivity. }
  split; [exact Hin |].
  rewrite !filter_app, (filter_all _ _ Hin).
  rewrite (filter_none _ pre), (filter_none _ post), app_nil_r; [reflexivity | |].
  - rewrite Forall_forall in *. intros c Hc. unfold in_range.
    assert (Hlt : (hi < c)%Q).
    { assert (Hhiw : In hi (lo :: w))
        by (rewrite Hlast; apply in_or_app; right; left; reflexivity).
      pose proof (Hpost hi Hhiw) as Hall. rewrite Forall_forall in Hall.
      exact (Hall c Hc). }
    rewrite (Qle_bool_false c hi Hlt). apply andb_false_r.
  - rewrite Forall_forall in *. intros a Ha. unfold in_range.
    assert (Hlt : (a < lo)%Q).
    { pose proof (Hpre a Ha) as Hall. rewrite Forall_forall in Hall.
      apply Hall. apply in_or_app. left. left. reflexivity. }
    rewrite (Qle_bool_false lo a Hlt). reflexivity.
Qed.

Lemma getitem_window (pre post : list Q) (lo hi : Q) (w wi : list Q) :
  lo :: w = wi ++ [hi] ->
  Py.getitem (pre ++ (lo :: w) ++ post) (Py.len pre) = Ok lo /\
  Py.getitem (pre ++ (lo :: w) ++ post) (Py.len pre + Py.len (lo :: w) - 1) = Ok hi.
Proof.
  intros Hlast. split; [apply getitem_middle |].
  rewrite Hlast, len_snoc.
  replace (Py.len pre + (Py.len wi + 1) - 1) with (Py.len (pre ++ wi))
    by (unfold Py.len; rewrite length_app; lia).
  replace (pre ++ (wi ++ [hi]) ++ post) with ((pre ++ wi) ++ hi :: post)
    by (rewrite <- !app_assoc; reflexivity).
  apply getitem_middle.
Qed.

Lemma filter_true {A : Type} (l : list A) : filter (fun _ => true) l = l.
Proof. induction l as [| x l IH]; simpl; [reflexivity | rewrite IH; reflexivity]. Qed.

Lemma value_area_of_levels (b : FootprintBar) (p : Q) :
  levels_ok (price_levels b) ->
  price_levels b <> [] ->
  exists b' lo hi poc,
    update_bar_statistics b p = Ok b' /\
    price_levels b' = price_levels b /\
    value_area_low b' = Some lo /\
    value_area_high b' = Some hi /\
    poc_price b' = Some poc /\
    (lo <= poc)%Q /\ (poc <= hi)%Q /\
    In lo (Dict.keys (price_levels b)) /\
    In hi (Dict.keys (price_levels b)) /\
    ((target_va_volume (total_bar_volume b') p
      <= inject_Z (volume_between b' lo hi))%Q \/
     volume_between b' lo hi = total_bar_volume b').
Proof.
  intros Hok Hne. unfold update_bar_statistics.
  set (D := price_levels b) in *.
  destruct D as [| kv d0] eqn:ED; [contradiction |].
  rewrite <- ED in *. clear Hne.
  set (levels := Dict.values D).
  set (total := Py.sum total_volume levels).
  (* the POC *)
  assert (Hmax : exists lv, Py.max_by total_volume levels = Some lv /\ In lv levels).
  { subst levels. rewrite ED. unfold Dict.values. cbn [map Py.max_by].
    eexists; split; [reflexivity |].
    destruct (max_from_first_maximal total_volume (map snd d0) (snd kv))
      as (before & after & Heq & _).
    rewrite Heq. apply in_or_app. right. left. reflexivity. }
  destruct Hmax as (lv & Hmax & Hlv). rewrite Hmax.
  assert (Hpoc : In (price lv) (Dict.keys D)).
  { subst levels. unfold Dict.values, Dict.keys in *.
    apply in_map_iff in Hlv. destruct Hlv as ([k l] & Hl & Hin). simpl in Hl. subst l.
    destruct Hok as [_ Hall]. rewrite Forall_forall in Hall.
    destruct (Hall _ Hin) as (Hp & _). simpl in Hp. rewrite Hp.
    apply (in_map fst) in Hin. exact Hin. }
  (* the total is positive *)
  assert (Htotal : 0 < total).
  { subst total. rewrite Py_sum_zsum. apply zsum_positive.
    - subst levels. destruct Hok as [_ Hall]. unfold Dict.values.
      rewrite map_map. rewrite Forall_map.
      eapply Forall_impl; [| exact Hall]. intros a (_ & _ & Ha). exact Ha.
    - subst levels. rewrite ED. discriminate. }
  assert (Hgt : (total >? 0) = true) by (apply Z.gtb_lt; exact Htotal).
  rewrite Hgt.
  (* the sorted prices *)
  destruct (sorted_spec (Dict.keys D) (proj1 Hok)) as [Hsorted Hperm].
  set (sorted_prices := Py.sorted (Dict.keys D)) in *.
  assert (Hfiled : forall k, In k sorted_prices ->
            exists l, Dict.get D k = Some l /\ 0 < total_volume l).
  { intros k Hk. apply (Permutation_in _ Hperm) in Hk.
    destruct (levels_ok_filed D k Hok Hk) as (l & Hget & Hpos & _).
    exists l. split; assumption. }
  assert (Hex : Exists (fun y => (y == price lv)%Q) sorted_prices).
  { apply Exists_exists. exists (price lv).
    split; [| reflexivity].
    apply (Permutation_in _ (Permutation_sym Hperm)). exact Hpoc. }
  destruct (index_from_spec (price lv) sorted_prices 0 Hex)
    as (pre & x & post & Hsplit & Hx & Hidx).
  rewrite Z.add_0_l in Hidx. unfold Py.index. rewrite Hidx. cbn [bind].
  destruct (levels_ok_filed D (price lv) Hok Hpoc) as (l0 & Hget0 & Hpos0 & _).
  unfold Dict.getitem at 1. rewrite Hget0. cbn [bind].
  assert (Hvolx : total_volume l0 = zsum (map (vol D) [x])).
  { simpl. unfold vol. rewrite (Dict_get_Qeq D x (price lv) Hx), Hget0. lia. }
  destruct (va_loop_window D sorted_prices (target_va_volume total p) Hfiled
              (S (List.length sorted_prices)) pre [x] post)
    as (pre' & win' & post' & Hrun & Hsplit' & (a & c & Hwin') & Hdone).
  { exact Hsplit. }
  { discriminate. }
  { rewrite Hsplit, !length_app. simpl. lia. }
  replace (Py.len pre + Py.len [x] - 1) with (Py.len pre) in Hrun
    by (unfold Py.len; simpl; lia).
  rewrite <- Hvolx in Hrun. rewrite Hrun. cbn [bind fst snd].
  (* the bounds of the window *)
  assert (Hwne : win' <> []).
  { rewrite Hwin'. destruct a; discriminate. }
  destruct win' as [| lo w]; [contradiction |].
  destruct (snoc_case (lo :: w)) as [Hnil | (wi & hi & Hlast)]; [discriminate |].
  destruct (getitem_window pre' post' lo hi w wi Hlast) as [Hlo Hhi].
  rewrite <- Hsplit' in Hlo, Hhi. rewrite Hhi, Hlo. cbn [bind fst snd].
  rewrite Hsplit' in Hsorted.
  destruct (window_filter pre' post' lo hi w wi Hsorted Hlast) as [Hin Hfilter].
  rewrite <- Hsplit' in Hfilter.
  eexists. exists lo, hi, (price lv).
  split; [reflexivity |].
  cbn [price_levels value_area_low value_area_high poc_price total_bar_volume
       with_statistics].
  split; [reflexivity |]. split; [reflexivity |]. split; [reflexivity |].
  split; [reflexivity |].
  assert (Hxin : in_range lo hi x = true).
  { rewrite Forall_forall in Hin. apply Hin. rewrite Hwin'.
    apply in_or_app. right. left. reflexivity. }
  unfold in_range in Hxin. apply andb_prop in Hxin. destruct Hxin as [Hxlo Hxhi].
  apply Qle_bool_iff in Hxlo, Hxhi.
  split; [lra |]. split; [lra |].
  assert (Hkeys : forall k, In k (lo :: w) -> In k (Dict.keys D)).
  { intros k Hk. apply (Permutation_in _ Hperm). rewrite Hsplit'.
    apply in_or_app. right. apply in_or_app. left. exact Hk. }
  split; [apply Hkeys; left; reflexivity |].
  split; [apply Hkeys; rewrite Hlast; apply in_or_app; right; left; reflexivity |].
  (* the volume of the window *)
  assert (Hvb : volume_between
                  (with_statistics b total (Py.sum ask_volume levels)
                     (Py.sum bid_volume levels) (Py.sum total_trades levels)
                     (Py.sum ask_volume levels - Py.sum bid_volume levels)
                     (Some (price lv)) (Some hi) (Some lo)
                     (Qle_bool (open_price b) (close_price b))) lo hi
                = zsum (map (vol D) (lo :: w))).
  { unfold volume_between. cbn [price_levels with_statistics].
    rewrite Py_sum_zsum. fold D.
    rewrite (volume_by_keys D (in_range lo hi) Hok).
    rewrite <- (zsum_filter_Permutation (vol D) (in_range lo hi) _ _ Hperm).
    rewrite Hfilter. reflexivity. }
  rewrite Hvb.
  destruct Hdone as [Hreach | [-> ->]]; [left; exact Hreach | right].
  subst total levels. rewrite Py_sum_zsum.
  pose proof (volume_by_keys D (fun _ => true) Hok) as Hall.
  rewrite !filter_true in Hall. rewrite Hall.
  rewrite <- (filter_true (Dict.keys D)).
  rewrite <- (zsum_filter_Permutation (vol D) (fun _ => true) _ _ Hperm).
  rewrite filter_true. simpl in Hsplit'. rewrite app_nil_r in Hsplit'.
  rewrite Hsplit'. reflexivity.
Qed.

(** C1: for every bar built only from ticks of positive volume (its
    price_levels mapping is then not empty) [update_bar_statistics]
    returns, and the results satisfy value_area_low <= poc_price <=
    value_area_high, both bounds are keys of price_levels, and the sum of
    total_volume over the levels whose price lies in [value_area_low,
    value_area_high] is >= the target of domain.py:148, the product
    total_bar_volume * value_area_percentage in double arithmetic (the
    total converted to a double, the product rounded to a double), or
    equals total_bar_volume. *)
Theorem value_area_of_positive_bar (cfg : FootprintEngineConfig)
    (b : FootprintBar) (p : Q) :
  built_from_positive_ticks cfg b ->
  price_levels b <> [] /\
  exists b' lo hi poc,
    update_bar_statistics b p = Ok b' /\
    price_levels b' = price_levels b /\
    value_area_low b' = Some lo /\
    value_area_high b' = Some hi /\
    poc_price b' = Some poc /\
    (lo <= poc)%Q /\ (poc <= hi)%Q /\
    In lo (Dict.keys (price_levels b)) /\
    In hi (Dict.keys (price_levels b)) /\
    ((target_va_volume (total_bar_volume b') p
      <= inject_Z (volume_between b' lo hi))%Q \/
     volume_between b' lo hi = total_bar_volume b').
Proof.
  intros (ticks & Hof & Hpos).
  destruct (bar_of_levels_ok cfg ticks b Hof Hpos) as [Hok Hne].
  split; [exact Hne |]. apply value_area_of_levels; assumption.
Qed.

Lemma value_area_of_positive_bar_witness :
  exists b b' lo hi poc,
    bar_of example_config (firstn 3 tick_data_1min) b /\
    update_bar_statistics b (7 # 10) = Ok b' /\
    price_levels b' = price_levels b /\
    value_area_low b' = Some lo /\
    value_area_high b' = Some hi /\
    poc_price b' = Some poc /\
    (lo <= poc)%Q /\ (poc <= hi)%Q /\
    In lo (Dict.keys (price_levels b)) /\
    In hi (Dict.keys (price_levels b)) /\
    ((target_va_volume (total_bar_volume b') (7 # 10)
      <= inject_Z (volume_between b' lo hi))%Q \/
     volume_between b' lo hi = total_bar_volume b').
Proof.
  assert (Hof : exists b, bar_of example_config (firstn 3 tick_data_1min) b).
  { eexists.
    change (firstn 3 tick_data_1min)
      with (([Tick.mk example_start 100 10 false]
             ++ [Tick.mk (example_start + seconds 10) (10025 # 100) 5 true])
            ++ [Tick.mk (example_start + seconds 59) 100 8 false]).
    eapply bar_of_next; [eapply bar_of_next; [eapply bar_of_first |] |];
      vm_compute; reflexivity. }
  destruct Hof as [b Hof].
  destruct (value_area_of_positive_bar example_config b (7 # 10))
    as (_ & b' & lo & hi & poc & H).
  - exists (firstn 3 tick_data_1min). split; [exact Hof |].
    repeat constructor.
  - exists b, b', lo, hi, poc. split; [exact Hof | exact H].
Defined.

(** C1 with the exact product fails.  A bar of two ticks, 2^53 contracts
    at 100.00 and 1 contract at 100.25, has total_bar_volume 2^53 + 1; at
    value_area_percentage = 1.0 the target of domain.py:148 is the double
    2^53 (the total is converted to a double first), the Point of Control
    reaches it alone and the loop never runs: the Value Area is
    [100.00, 100.00] and holds 2^53, which is below
    value_area_percentage * total_bar_volume and is not total_bar_volume. *)
Lemma value_area_below_exact_product :
  Forall (fun t => 0 < Tick.volume t) large_volume_ticks /\
  exists b b',
    bar_of example_config large_volume_ticks b /\
    update_bar_statistics b 1 = Ok b' /\
    total_bar_volume b' = 2 ^ 53 + 1 /\
    (target_va_volume (total_bar_volume b') 1 == inject_Z (2 ^ 53))%Q /\
    poc_price b' = Some 100%Q /\
    value_area_low b' = Some 100%Q /\
    value_area_high b' = Some 100%Q /\
    volume_between b' 100 100 = 2 ^ 53 /\
    ~ (1 * inject_Z (total_bar_volume b')
       <= inject_Z (volume_between b' 100 100))%Q /\
    volume_between b' 100 100 <> total_bar_volume b'.
Proof.
  split; [repeat constructor |].
  do 2 eexists. split.
  { change large_volume_ticks
      with ([Tick.mk example_start 100 (2 ^ 53) false]
            ++ [Tick.mk (example_start + seconds 10) (10025 # 100) 1 true]).
    eapply bar_of_next; [eapply bar_of_first |]; vm_compute; reflexivity. }
  split; [vm_compute; reflexivity |].
  repeat split; vm_compute; congruence.
Qed.

(** The target is a rounded product on ordinary volumes too.  With 51
    contracts at 100.00 and 24 at 100.25, 75 * 0.68 is 51.00000000000001
    in doubles, above the 51 of the Point of Control, and the Value Area
    grows to 100.25; 5 * 0.8 is 4.0 in doubles, although the double 0.8
    is above 4/5. *)
Remark target_is_a_rounded_product :
  (51 < target_va_volume 75 (68 # 100))%Q /\
  (target_va_volume 5 (8 # 10) == 4)%Q /\
  (4 < 5 * Py.fl (8 # 10))%Q /\
  exists b b',
    bar_of example_config rounded_target_ticks b /\
    update_bar_statistics b (68 # 100) = Ok b' /\
    poc_price b' = Some 100%Q /\
    value_area_low b' = Some 100%Q /\
    value_area_high b' = Some (401 # 4).
Proof.
  split; [vm_compute; reflexivity |].
  split; [vm_compute; reflexivity |].
  split; [vm_compute; reflexivity |].
  do 2 eexists. split.
  { change rounded_target_ticks
      with ([Tick.mk example_start 100 51 false]
            ++ [Tick.mk (example_start + seconds 10) (10025 # 100) 24 true]).
    eapply bar_of_next; [eapply bar_of_first |]; vm_compute; reflexivity. }
  split; [vm_compute; reflexivity |].
  repeat split; vm_compute; reflexivity.
Qed.

(** ** The fuel of the Value Area loop *)

Section Fuel.

Variable d : Dict.t PriceLevelData.
Variable sorted_prices : list Q.
Variable target : Q.

Lemma getitem_not_diverges {A : Type} (l : list A) (i : Z) :
  Py.getitem l i <> Err Diverges.
Proof.
  unfold Py.getitem.
  destruct ((_ <? 0) || (_ <=? _)); [discriminate |].
  destruct (nth_error _ _); discriminate.
Qed.

Lemma level_volume_not_diverges (i : Z) :
  (k <- Py.getitem sorted_prices i ;;
   l <- Dict.getitem d k ;;
   Ok (total_volume l)) <> Err Diverges.
Proof.
  pose proof (getitem_not_diverges sorted_prices i) as H.
  destruct (Py.getitem sorted_prices i) as [k | e]; simpl; [| congruence].
  unfold Dict.getitem. destruct (Dict.get d k); simpl; discriminate.
Qed.

Lemma vol_above_not_diverges (h : Z) :
  vol_above d sorted_prices h <> Err Diverges.
Proof.
  unfold vol_above. destruct (_ <? _);
    [apply level_volume_not_diverges | discriminate].
Qed.

Lemma vol_below_not_diverges (lw : Z) :
  vol_below d sorted_prices lw <> Err Diverges.
Proof.
  unfold vol_below. destruct (_ >=? _);
    [apply level_volume_not_diverges | discriminate].
Qed.

(** Past the last price with a negative volume below: the window moves
    up for ever. *)
Lemma va_loop_stuck_high (fuel : nat) :
  forall va lw h vb,
    Qle_bool target (inject_Z va) = false ->
    Py.len sorted_prices <= h + 1 ->
    vol_below d sorted_prices lw = Ok vb ->
    vb < 0 ->
    va_loop fuel d sorted_prices target va lw h = Err Diverges.
Proof.
  induction fuel as [| fuel IH]; intros va lw h vb Hcond Hh Hb Hvb;
    [reflexivity |].
  cbn [va_loop]. rewrite Hcond, Hb. unfold vol_above.
  destruct (Z.ltb_spec (h + 1) (Py.len sorted_prices)); [lia |].
  cbn [bind].
  destruct (Z.eqb_spec vb 0); [lia |]. cbn [Z.eqb andb].
  destruct (Z.geb_spec 0 vb); [| lia].
  apply (IH _ _ _ vb); [rewrite Z.add_0_r; exact Hcond | lia | exact Hb | exact Hvb].
Qed.

(** Before the first price with a negative volume above: the window
    moves down for ever. *)
Lemma va_loop_stuck_low (fuel : nat) :
  forall va lw h va',
    Qle_bool target (inject_Z va) = false ->
    lw <= 0 ->
    vol_above d sorted_prices h = Ok va' ->
    va' < 0 ->
    va_loop fuel d sorted_prices target va lw h = Err Diverges.
Proof.
  induction fuel as [| fuel IH]; intros va lw h va' Hcond Hlw Ha Hva;
    [reflexivity |].
  cbn [va_loop]. rewrite Hcond, Ha. unfold vol_below.
  destruct (Z.geb_spec (lw - 1) 0); [lia |].
  cbn [bind].
  destruct (Z.eqb_spec va' 0); [lia |]. cbn [andb].
  destruct (Z.geb_spec va' 0); [lia |].
  apply (IH _ _ _ va'); [rewrite Z.add_0_r; exact Hcond | lia | exact Ha | exact Hva].
Qed.

(** The fuel [update_bar_statistics] gives the loop is enough: a loop
    that has not left after one evaluation of its condition per price
    that can still join the window, and one more, never leaves. *)
Lemma va_loop_diverges (fuel : nat) :
  forall va lw h,
    0 <= lw -> lw <= h -> h < Py.len sorted_prices ->
    Py.len sorted_prices - (h - lw) <= Z.of_nat fuel ->
    va_loop fuel d sorted_prices target va lw h = Err Diverges ->
    forall fuel', va_loop fuel' d sorted_prices target va lw h = Err Diverges.
Proof.
  induction fuel as [| fuel IH]; intros va lw h Hlw Hle Hh Hfuel H fuel';
    [lia |].
  cbn [va_loop] in H.
  destruct (Qle_bool target (inject_Z va)) eqn:Hcond; [discriminate |].
  destruct (vol_above d sorted_prices h) as [above | e] eqn:Ea.
  2:{ cbn [bind] in H. injection H as ->.
      exfalso. exact (vol_above_not_diverges h Ea). }
  destruct (vol_below d sorted_prices lw) as [below | e] eqn:Eb.
  2:{ cbn [bind] in H. injection H as ->.
      exfalso. exact (vol_below_not_diverges lw Eb). }
  cbn [bind] in H.
  destruct ((above =? 0) && (below =? 0)) eqn:Ez; [discriminate |].
  destruct fuel' as [| fuel']; [reflexivity |].
  cbn [va_loop]. rewrite Hcond, Ea, Eb. cbn [bind]. rewrite Ez.
  destruct (Z.geb_spec above below) as [Hge | Hlt].
  - destruct (Z.lt_ge_cases (h + 1) (Py.len sorted_prices)) as [Hin | Hout].
    + apply (IH _ _ _ Hlw); [lia | exact Hin | lia | exact H].
    + assert (Ha0 : above = 0).
      { unfold vol_above in Ea.
        destruct (Z.ltb_spec (h + 1) (Py.len sorted_prices)); [lia |].
        injection Ea as <-. reflexivity. }
      subst above. rewrite Z.add_0_r.
      apply (va_loop_stuck_high _ _ _ _ below); [exact Hcond | lia | exact Eb |].
      destruct (Z.eqb_spec below 0); [discriminate Ez | lia].
  - destruct (Z.le_gt_cases 0 (lw - 1)) as [Hin | Hout].
    + apply (IH _ _ _ Hin); [lia | exact Hh | lia | exact H].
    + assert (Hb0 : below = 0).
      { unfold vol_below in Eb.
        destruct (Z.geb_spec (lw - 1) 0); [lia |].
        injection Eb as <-. reflexivity. }
      subst below. rewrite Z.add_0_r.
      apply (va_loop_stuck_low _ _ _ _ above); [exact Hcond | lia | exact Ea | lia].
Qed.

(** More fuel does not change a result. *)
Lemma va_loop_more_fuel (fuel : nat) :
  forall va lw h r,
    va_loop fuel d sorted_prices target va lw h = r ->
    r <> Err Diverges ->
    forall fuel', (fuel <= fuel')%nat ->
      va_loop fuel' d sorted_prices target va lw h = r.
Proof.
  induction fuel as [| fuel IH]; intros va lw h r H Hr fuel' Hle.
  - simpl in H. congruence.
  - destruct fuel' as [| fuel']; [lia |].
    cbn [va_loop] in H |- *.
    destruct (Qle_bool target (inject_Z va)); [exact H |].
    destruct (vol_above d sorted_prices h) as [above | e]; [| exact H].
    destruct (vol_below d sorted_prices lw) as [below | e]; [| exact H].
    cbn [bind] in H |- *.
    destruct ((above =? 0) && (below =? 0)); [exact H |].
    destruct (above >=? below); apply IH; try assumption; lia.
Qed.

(** The loop as [update_bar_statistics] starts it. *)
Lemma va_loop_fuel_enough (va i : Z) :
  0 <= i < Py.len sorted_prices ->
  va_loop (S (List.length sorted_prices)) d sorted_prices target va i i
  = Err Diverges ->
  forall fuel, va_loop fuel d sorted_prices target va i i = Err Diverges.
Proof.
  intros Hi H. apply (va_loop_diverges (S (List.length sorted_prices)));
    try lia; [unfold Py.len; lia | exact H].
Qed.

End Fuel.

(** With a level of negative volume next to the POC the loop does not
    leave: the batch below ends in [update_bar_statistics] with levels
    99.50 (5), 99.75 (-1) and 100.00 (5); the window starts at 100.00,
    there is nothing above it and -1 below it, so [high_idx] grows for
    ever. *)
Lemma negative_volume_batch_never_returns :
  process_tick_batch (FootprintEngine_init example_config) negative_volume_ticks
  = Err Diverges.
Proof. vm_compute. reflexivity. Qed.

(** ** The Point of Control among tied levels *)

(** C10: the POC [update_bar_statistics] assigns is the price of the
    first level, in the insertion order of [price_levels], whose
    total_volume is maximal: every level before it has strictly less
    volume, every level after it at most as much; so among tied levels
    the one inserted first wins, whatever its price.  The call returns
    for every bar built from ticks of positive volume.  The insertion
    order is the order in which ticks first touched the prices: a tick at
    a new rounded price appends its level, a tick at a known price leaves
    the order alone. *)
Theorem poc_is_first_maximal_level :
  (forall (b b' : FootprintBar) (p : Q),
     price_levels b <> [] ->
     update_bar_statistics b p = Ok b' ->
     exists before lv after,
       Dict.values (price_levels b) = before ++ lv :: after /\
       poc_price b' = Some (price lv) /\
       Forall (fun x => total_volume x < total_volume lv) before /\
       Forall (fun x => total_volume x <= total_volume lv) after) /\
  (forall (cfg : FootprintEngineConfig) (b : FootprintBar) (p : Q),
     built_from_positive_ticks cfg b ->
     exists b', update_bar_statistics b p = Ok b') /\
  (forall (cfg : FootprintEngineConfig) (cur : FootprintBar) (ts : Z) (r : Q)
          (v : Z) (side : bool),
     Dict.keys (price_levels (fold_tick cfg cur ts r v side))
     = if Dict.mem (price_levels cur) r
       then Dict.keys (price_levels cur)
       else Dict.keys (price_levels cur) ++ [r]).
Proof.
  split; [| split; [| apply fold_tick_keys]].
  - intros b b' p Hne H. unfold update_bar_statistics in H.
    destruct (price_levels b) as [| [k l] d] eqn:E; [contradiction |].
    inv_bind H. injection H as <-. simpl.
    destruct (max_from_first_maximal total_volume (Dict.values d) l)
      as (before & after & Heq & Hlt & Hle).
    exists before, (Py.max_from total_volume l (Dict.values d)), after.
    repeat split; assumption.
  - intros cfg b p (ticks & Hof & Hpos).
    destruct (bar_of_levels_ok cfg ticks b Hof Hpos) as [Hok Hne].
    destruct (value_area_of_levels b p Hok Hne) as (b' & _ & _ & _ & H & _).
    exists b'. exact H.
Qed.

Lemma poc_is_first_maximal_level_witness :
  exists b' before lv after,
    update_bar_statistics tied_bar (7 # 10) = Ok b' /\
    Dict.keys (price_levels tied_bar) = [101%Q; 100%Q] /\
    Dict.values (price_levels tied_bar) = before ++ lv :: after /\
    poc_price b' = Some (price lv) /\
    poc_price b' = Some 101%Q /\
    Forall (fun x => total_volume x < total_volume lv) before /\
    Forall (fun x => total_volume x <= total_volume lv) after.
Proof.
  pose (b' := match update_bar_statistics tied_bar (7 # 10) with
              | Ok b => b
              | Err _ => tied_bar
              end).
  destruct (proj1 poc_is_first_maximal_level tied_bar b' (7 # 10))
    as (before & lv & after & Hsplit & Hpoc & Hlt & Hle).
  - vm_compute. discriminate.
  - vm_compute. reflexivity.
  - exists b', before, lv, after.
    repeat split; try assumption; vm_compute; reflexivity.
Defined.

(** ** Streams of ticks of positive volume are processed to the end *)

Lemma fl_zero_test (x : Q) : Qeq_bool (Py.fl x) 0 = Qeq_bool x 0.
Proof.
  destruct (Qeq_bool (Py.fl x) 0) eqn:E1, (Qeq_bool x 0) eqn:E2; try reflexivity.
  - apply Qeq_bool_iff in E1. apply (proj1 (fl_zero_iff x)) in E1.
    apply Qeq_bool_neq in E2. exfalso. exact (E2 E1).
  - apply Qeq_bool_iff in E2. apply Qeq_bool_neq in E1.
    exfalso. apply E1. apply (proj2 (fl_zero_iff x)). exact E2.
Qed.

Lemma rounded_total (cfg : FootprintEngineConfig) (p : Q) :
  ~ (tick_size cfg == 0)%Q -> exists r, rounded cfg p = Ok r.
Proof.
  intros Hts. unfold rounded, Py.truediv. cbv zeta. rewrite fl_zero_test.
  destruct (Qeq_bool (tick_size cfg) 0) eqn:E.
  - apply Qeq_bool_iff in E. contradiction.
  - eexists. reflexivity.
Qed.

Section Totality.

Variable cfg : FootprintEngineConfig.
Hypothesis tick_size_ok : ~ (tick_size cfg == 0)%Q.
Hypothesis boundary_ok : forall b ts p,
  exists c, _should_create_new_bar cfg b ts p = Ok c.
Hypothesis start_ok : forall ts, exists st, new_start_time cfg ts = Ok st.

Lemma process_tick_total (e : FootprintEngine) (t : Tick.t) :
  current_positive cfg e ->
  0 < Tick.volume t ->
  exists e',
    process_tick e (Tick.datetime t) (Tick.price t) (Tick.volume t)
      (Tick.is_bid_trade t) = Ok e' /\
    current_positive cfg e'.
Proof.
  intros [Hcfg Hcur] Hv. rewrite process_tick_eq. cbv zeta. rewrite Hcfg.
  destruct (rounded_total cfg (Tick.price t) tick_size_ok) as [r Hr].
  destruct (start_ok (Tick.datetime t)) as [st Hst].
  assert (Hnew : built_from_positive_ticks cfg
                   (fold_tick cfg (FootprintBar_init st (Tick.datetime t) r r r r)
                      (Tick.datetime t) r (Tick.volume t) (Tick.is_bid_trade t))).
  { exists [t]. split; [apply bar_of_first; assumption |].
    constructor; [exact Hv | constructor]. }
  destruct (current_bar e) as [b |].
  - destruct (boundary_ok b (Tick.datetime t) (Tick.price t)) as [c Hc].
    rewrite Hc. cbn [bind]. destruct c.
    + destruct (Hcur b eq_refl) as (ticks & Hof & Hpos).
      destruct (bar_of_levels_ok cfg ticks b Hof Hpos) as [Hok Hne].
      destruct (value_area_of_levels b (value_area_percentage cfg) Hok Hne)
        as (b' & _ & _ & _ & Hstats & _).
      rewrite Hstats, Hr, Hst. cbn [bind].
      eexists. split; [reflexivity |]. split; [reflexivity |].
      cbn [current_bar]. intros b0 Hb0. injection Hb0 as <-. exact Hnew.
    + rewrite Hr. cbn [bind].
      eexists. split; [reflexivity |]. split; [reflexivity |].
      cbn [current_bar]. intros b0 Hb0. injection Hb0 as <-.
      destruct (Hcur b eq_refl) as (ticks & Hof & Hpos).
      exists (ticks ++ [t]). split; [apply bar_of_next; assumption |].
      apply Forall_app. split; [exact Hpos |]. constructor; [exact Hv | constructor].
  - rewrite Hr, Hst. cbn [bind].
    eexists. split; [reflexivity |]. split; [reflexivity |].
    cbn [current_bar]. intros b0 Hb0. injection Hb0 as <-. exact Hnew.
Qed.

Lemma process_ticks_total (ticks : list Tick.t) (e : FootprintEngine) :
  current_positive cfg e ->
  Forall (fun t => 0 < Tick.volume t) ticks ->
  exists e', process_ticks e ticks = Ok e' /\ current_positive cfg e'.
Proof.
  revert e. induction ticks as [| t ticks IH]; intros e He Hpos.
  - exists e. split; [reflexivity | exact He].
  - pose proof (Forall_inv Hpos) as Ht. apply Forall_inv_tail in Hpos.
    destruct (process_tick_total e t He Ht) as (e1 & H1 & He1).
    destruct (IH e1 He1 Hpos) as (e' & H' & He').
    exists e'. split; [| exact He']. simpl. rewrite H1. exact H'.
Qed.

Lemma new_engine_total (ticks : list Tick.t) :
  Forall (fun t => 0 < Tick.volume t) ticks ->
  exists e, process_ticks (FootprintEngine_init cfg) ticks = Ok e.
Proof.
  intros Hpos.
  destruct (process_ticks_total ticks (FootprintEngine_init cfg)) as (e & H & _).
  - split; [reflexivity |]. intros b Hb. discriminate Hb.
  - exact Hpos.
  - exists e. exact H.
Qed.

End Totality.

(** ** TICK aggregation: the bars of a stream *)

Lemma tick_mode_run (cfg : FootprintEngineConfig) (N : Z)
    (ticks : list Tick.t) (t : Tick.t) (e e' : FootprintEngine) :
  aggregation_type cfg = TICK ->
  aggregation_value cfg = AggInt N ->
  1 <= N ->
  process_ticks (FootprintEngine_init cfg) ticks = Ok e ->
  process_tick e (Tick.datetime t) (Tick.price t) (Tick.volume t)
    (Tick.is_bid_trade t) = Ok e' ->
  (forall b ts p, _should_create_new_bar cfg b ts p = Ok (tick_count b >=? N)) /\
  segmented (tick_full cfg N) (tick_good cfg N) ticks
    (ticks_appends (FootprintEngine_init cfg) ticks) e /\
  Forall (fun b => tick_count b = N) (bars e) /\
  exists b',
    current_bar e' = Some b' /\
    match current_bar e with
    | None => ticks = [] /\ tick_appends e t = [] /\ tick_count b' = 1
    | Some b =>
        1 <= tick_count b <= N /\
        if tick_count b =? N
        then (exists f, tick_appends e t = [f] /\ tick_count f = N) /\
             bar_of cfg [t] b' /\ tick_count b' = 1
        else tick_appends e t = [] /\ tick_count b' = tick_count b + 1
    end.
Proof.
  intros Hty Hval HN Hrun Hstep.
  destruct (process_ticks_TICK cfg N Hty Hval HN ticks e Hrun) as [Hcfg Hseg].
  split; [intros; apply should_create_TICK; assumption |].
  split; [exact Hseg |].
  split.
  - assert (Hhist : history_of cfg
                      ([] ++ ticks_appends (FootprintEngine_init cfg) ticks) e).
    { eapply process_ticks_history; [| exact Hrun]. split; reflexivity. }
    destruct Hhist as [_ Hbars]. rewrite Hbars. apply Forall_last_n.
    destruct Hseg as (segs & cur & _ & Hlog & _).
    eapply Forall2_Forall_r; [| exact Hlog].
    intros seg b (_ & _ & Hb). exact Hb.
  - destruct Hseg as (segs & cur & Hseen & Hlog & Hcur).
    rewrite process_tick_eq in Hstep; simpl in Hstep. rewrite Hcfg in Hstep.
    unfold tick_appends, finalize_appends. rewrite Hcfg.
    destruct (current_bar e) as [b |] eqn:Ecur.
    + destruct Hcur as (Hof & Hcount & Hrange).
      rewrite (should_create_TICK _ N) in * by assumption.
      simpl in Hstep.
      destruct (Z.geb_spec (tick_count b) N) as [Hge | Hlt].
      * inv_bind Hstep. inv_bind Hstep. inv_bind Hstep. injection Hstep as <-.
        simpl. eexists; split; [reflexivity |]. split; [exact Hrange |].
        replace (tick_count b =? N) with true by (symmetry; apply Z.eqb_eq; lia).
        rewrite Ha.
        destruct (update_bar_statistics_tick_count _ _ _ Ha) as [Htc _].
        split; [exists a; split; [reflexivity | lia] |].
        split; [apply bar_of_first; assumption | reflexivity].
      * inv_bind Hstep. injection Hstep as <-. simpl.
        eexists; split; [reflexivity |]. split; [exact Hrange |].
        replace (tick_count b =? N) with false by (symmetry; apply Z.eqb_neq; lia).
        split; reflexivity.
    + inv_bind Hstep. inv_bind Hstep. injection Hstep as <-. simpl.
      eexists; split; [reflexivity |].
      subst cur. rewrite app_nil_r in Hseen.
      split; [| split; reflexivity].
      destruct (process_ticks_current _ _ _ Hrun) as [[Hnil _] | [b Hb]];
        [exact Hnil | congruence].
Qed.

(** C2: in TICK mode with threshold N >= 1 the boundary check compares
    the tick_count of the bar in progress with N before the incoming tick
    is folded in.  A stream of ticks of positive volume given to a new
    engine is processed to the end; and for every stream of ticks that
    is, the stream is cut into the bars appended to the history, each
    built from exactly N ticks and with tick_count N, and the bar in
    progress, which has between 1 and N ticks; a further tick arriving
    when the bar in progress has its N ticks closes that bar (with
    tick_count N) and starts a new bar, which has tick_count 1 once the
    tick is processed. *)
Theorem tick_mode_bars (cfg : FootprintEngineConfig) (N : Z)
    (ticks : list Tick.t) (t : Tick.t) :
  aggregation_type cfg = TICK ->
  aggregation_value cfg = AggInt N ->
  1 <= N ->
  (~ (tick_size cfg == 0)%Q ->
   Forall (fun t => 0 < Tick.volume t) (ticks ++ [t]) ->
   exists e e',
     process_ticks (FootprintEngine_init cfg) ticks = Ok e /\
     process_tick e (Tick.datetime t) (Tick.price t) (Tick.volume t)
       (Tick.is_bid_trade t) = Ok e') /\
  (forall e e' : FootprintEngine,
     process_ticks (FootprintEngine_init cfg) ticks = Ok e ->
     process_tick e (Tick.datetime t) (Tick.price t) (Tick.volume t)
       (Tick.is_bid_trade t) = Ok e' ->
     (forall b ts p,
        _should_create_new_bar cfg b ts p = Ok (tick_count b >=? N)) /\
     segmented (tick_full cfg N) (tick_good cfg N) ticks
       (ticks_appends (FootprintEngine_init cfg) ticks) e /\
     Forall (fun b => tick_count b = N) (bars e) /\
     exists b',
       current_bar e' = Some b' /\
       match current_bar e with
       | None => ticks = [] /\ tick_appends e t = [] /\ tick_count b' = 1
       | Some b =>
           1 <= tick_count b <= N /\
           if tick_count b =? N
           then (exists f, tick_appends e t = [f] /\ tick_count f = N) /\
                bar_of cfg [t] b' /\ tick_count b' = 1
           else tick_appends e t = [] /\ tick_count b' = tick_count b + 1
       end).
Proof.
  intros Hty Hval HN. split.
  - intros Hts Hpos. apply Forall_app in Hpos. destruct Hpos as [Hpos Ht].
    assert (Hboundary : forall b ts p,
              exists c, _should_create_new_bar cfg b ts p = Ok c).
    { intros. eexists. apply should_create_TICK; eassumption. }
    assert (Hstart : forall ts, exists st, new_start_time cfg ts = Ok st).
    { intros. unfold new_start_time. rewrite Hty. eexists. reflexivity. }
    destruct (process_ticks_total cfg Hts Hboundary Hstart ticks
                (FootprintEngine_init cfg)) as (e & Hrun & He).
    + split; [reflexivity |]. intros b Hb. discriminate Hb.
    + exact Hpos.
    + destruct (process_tick_total cfg Hts Hboundary Hstart e t He
                  (Forall_inv Ht)) as (e' & Hstep & _).
      exists e, e'. split; assumption.
  - intros e e' Hrun Hstep. eapply tick_mode_run; eassumption.
Qed.

Lemma tick_mode_bars_witness :
  exists e e' b',
    process_ticks (FootprintEngine_init tick3_config) three_ticks = Ok e /\
    process_tick e (Tick.datetime fourth_tick) (Tick.price fourth_tick)
      (Tick.volume fourth_tick) (Tick.is_bid_trade fourth_tick) = Ok e' /\
    Forall (fun b => tick_count b = 3) (bars e) /\
    current_bar e' = Some b' /\
    tick_count b' = 1.
Proof.
  pose (e := engine_after tick3_config three_ticks).
  pose (e' := engine_after tick3_config (three_ticks ++ [fourth_tick])).
  pose (cur := match current_bar e with Some b => b | None => tied_bar end).
  assert (H1 : process_ticks (FootprintEngine_init tick3_config) three_ticks = Ok e)
    by (vm_compute; reflexivity).
  assert (H2 : process_tick e (Tick.datetime fourth_tick) (Tick.price fourth_tick)
                 (Tick.volume fourth_tick) (Tick.is_bid_trade fourth_tick) = Ok e')
    by (vm_compute; reflexivity).
  assert (Hcur : current_bar e = Some cur) by (vm_compute; reflexivity).
  assert (Hfull : (tick_count cur =? 3) = true) by (vm_compute; reflexivity).
  destruct (tick_mode_bars tick3_config 3 three_ticks fourth_tick
              eq_refl eq_refl ltac:(lia)) as [_ Hbars].
  destruct (Hbars e e' H1 H2) as (_ & _ & Hhist & b' & Hb' & Hm).
  rewrite Hcur in Hm. cbv beta iota in Hm. destruct Hm as (_ & Hm).
  rewrite Hfull in Hm. destruct Hm as (_ & _ & Htc).
  exists e, e', b'.
  split; [exact H1 |]. split; [exact H2 |]. split; [exact Hhist |].
  split; [exact Hb' | exact Htc].
Defined.

(** ** TIME aggregation: boundaries and contents of the bars *)

(** C3: in TIME mode with a duration d > 0, a boundary is crossed
    exactly when the timestamp of the incoming tick is >= the start_time
    of the bar in progress plus d, and a new bar starts at the timestamp
    of its first tick floored to a multiple of d.  A stream of ticks of
    positive volume given to a new engine is processed to the end; and
    every stream that is (in whatever order of timestamps, so in
    non-decreasing order too) is cut into the bars appended to the
    history and the bar in progress: each of these bars is built from a
    run of consecutive ticks, its start_time is the timestamp of the
    first of them floored to a multiple of d, and none of its ticks has a
    timestamp >= start_time + d.  The history holds the last of the
    appended bars. *)
Theorem time_mode_bars (cfg : FootprintEngineConfig) (d : Z)
    (ticks : list Tick.t) :
  time_mode cfg d ->
  (~ (tick_size cfg == 0)%Q ->
   Forall (fun t => 0 < Tick.volume t) ticks ->
   exists e, process_ticks (FootprintEngine_init cfg) ticks = Ok e) /\
  (forall b ts p,
     _should_create_new_bar cfg b ts p = Ok (ts >=? start_time b + d)) /\
  (forall ts, new_start_time cfg ts = Ok (d * (ts / d))) /\
  (forall e : FootprintEngine,
     process_ticks (FootprintEngine_init cfg) ticks = Ok e ->
     segmented (time_good cfg d) (time_good cfg d) ticks
       (ticks_appends (FootprintEngine_init cfg) ticks) e /\
     Forall (fun b => exists seg, time_good cfg d seg b) (bars e)).
Proof.
  intros Hmode.
  assert (Hboundary : forall b ts p,
            _should_create_new_bar cfg b ts p = Ok (ts >=? start_time b + d))
    by (intros; apply should_create_TIME; assumption).
  assert (Hstart : forall ts, new_start_time cfg ts = Ok (d * (ts / d)))
    by (intros; apply new_start_time_TIME; assumption).
  split; [| split; [exact Hboundary | split; [exact Hstart |]]].
  - intros Hts Hpos.
    apply (new_engine_total cfg Hts); [| | exact Hpos].
    + intros. eexists. apply Hboundary.
    + intros. eexists. apply Hstart.
  - intros e Hrun.
    destruct (process_ticks_TIME cfg d Hmode ticks e Hrun) as [Hcfg Hseg].
    split; [exact Hseg |].
    assert (Hhist : history_of cfg
                      ([] ++ ticks_appends (FootprintEngine_init cfg) ticks) e).
    { eapply process_ticks_history; [| exact Hrun]. split; reflexivity. }
    destruct Hhist as [_ Hbars]. rewrite Hbars. apply Forall_last_n.
    destruct Hseg as (segs & cur & _ & Hlog & _).
    clear - Hlog. induction Hlog as [| seg b segs log Hgood _ IH];
      constructor; [exists seg; exact Hgood | exact IH].
Qed.

Lemma time_mode_bars_witness :
  exists e,
    process_ticks (FootprintEngine_init example_config) tick_data_1min = Ok e /\
    segmented (time_good example_config 60000000)
      (time_good example_config 60000000) tick_data_1min
      (ticks_appends (FootprintEngine_init example_config) tick_data_1min) e /\
    Forall (fun b => exists seg, time_good example_config 60000000 seg b) (bars e).
Proof.
  pose (e := engine_after example_config tick_data_1min).
  assert (Hrun : process_ticks (FootprintEngine_init example_config)
                   tick_data_1min = Ok e)
    by (vm_compute; reflexivity).
  destruct (time_mode_bars example_config 60000000 tick_data_1min
              example_time_mode)
    as (_ & _ & _ & Hbars).
  destruct (Hbars e Hrun) as [Hseg Hhist].
  exists e. split; [exact Hrun |]. split; [exact Hseg | exact Hhist].
Defined.

(** * Further properties of the engine *)

(** ** What a bar records of its ticks *)

Lemma example_bar_built :
  bar_of example_config (firstn 3 tick_data_1min) example_bar.
Proof.
  assert (H : example_bar
              = fold_tick example_config
                  (fold_tick example_config
                     (fold_tick example_config
                        (FootprintBar_init example_start example_start
                           100%Q 100%Q 100%Q 100%Q)
                        example_start 100%Q 10 false)
                     (example_start + seconds 10) (401 # 4) 5 true)
                  (example_start + seconds 59) 100%Q 8 false)
    by (vm_compute; reflexivity).
  rewrite H.
  change (firstn 3 tick_data_1min)
    with (([Tick.mk example_start 100 10 false]
           ++ [Tick.mk (example_start + seconds 10) (10025 # 100) 5 true])
          ++ [Tick.mk (example_start + seconds 59) 100 8 false]).
  apply (bar_of_next example_config _ _
           (Tick.mk (example_start + seconds 59) 100 8 false) 100%Q);
    [| vm_compute; reflexivity].
  apply (bar_of_next example_config _ _
           (Tick.mk (example_start + seconds 10) (10025 # 100) 5 true) (401 # 4));
    [| vm_compute; reflexivity].
  apply (bar_of_first example_config (Tick.mk example_start 100 10 false)
           example_start 100%Q); vm_compute; reflexivity.
Qed.

Lemma volumes_snoc (ticks : list Tick.t) (t : Tick.t) :
  volumes (ticks ++ [t]) = volumes ticks + Tick.volume t.
Proof.
  unfold volumes. rewrite map_app, zsum_app. simpl. lia.
Qed.

Lemma bar_of_counters (cfg : FootprintEngineConfig) (ticks : list Tick.t)
    (b : FootprintBar) :
  bar_of cfg ticks b ->
  tick_count b = Py.len ticks /\
  current_aggregated_volume b = volumes ticks /\
  exists init last,
    ticks = init ++ [last] /\ end_time b = Tick.datetime last.
Proof.
  induction 1 as [t st r Hst Hr | ticks b t r Hof IH Hr | ticks b b' p Hof IH Hstats].
  - split; [reflexivity |]. split; [unfold volumes; simpl; lia |].
    exists [], t. split; reflexivity.
  - destruct IH as (Htc & Hvol & _).
    split; [simpl; rewrite len_snoc; lia |].
    split; [simpl; rewrite volumes_snoc; lia |].
    exists ticks, t. split; reflexivity.
  - apply update_bar_statistics_frame in Hstats.
    destruct Hstats as (tv & tav & tbv & tt & bd & poc & vah & val & up & ->).
    exact IH.
Qed.

(** X1: whatever the mode, a bar built from a list of ticks counts them:
    tick_count is the number of ticks, current_aggregated_volume the sum
    of their volumes, and end_time the timestamp of the last one. *)
Theorem bar_counters (cfg : FootprintEngineConfig) (ticks : list Tick.t)
    (b : FootprintBar) :
  bar_of cfg ticks b ->
  tick_count b = Py.len ticks /\
  current_aggregated_volume b = volumes ticks /\
  exists init last,
    ticks = init ++ [last] /\ end_time b = Tick.datetime last.
Proof. exact (bar_of_counters cfg ticks b). Qed.

Lemma bar_counters_witness :
  tick_count example_bar = 3 /\
  current_aggregated_volume example_bar = 23 /\
  exists init last,
    firstn 3 tick_data_1min = init ++ [last] /\
    end_time example_bar = Tick.datetime last.
Proof.
  exact (bar_counters example_config (firstn 3 tick_data_1min) example_bar
           example_bar_built).
Defined.


Lemma fmax_cases (a b : Q) :
  (Py.fmax a b = a /\ (b <= a)%Q) \/ (Py.fmax a b = b /\ (a < b)%Q).
Proof.
  unfold Py.fmax. destruct (Qle_bool b a) eqn:E.
  - left. split; [reflexivity | apply Qle_bool_iff; exact E].
  - right. split; [reflexivity |].
    destruct (Qlt_le_dec a b) as [H | H]; [exact H |].
    apply Qle_bool_iff in H. congruence.
Qed.

Lemma fmin_cases (a b : Q) :
  (Py.fmin a b = a /\ (a <= b)%Q) \/ (Py.fmin a b = b /\ (b < a)%Q).
Proof.
  unfold Py.fmin. destruct (Qle_bool a b) eqn:E.
  - left. split; [reflexivity | apply Qle_bool_iff; exact E].
  - right. split; [reflexivity |].
    destruct (Qlt_le_dec b a) as [H | H]; [exact H |].
    apply Qle_bool_iff in H. congruence.
Qed.

Lemma bar_prices (cfg : FootprintEngineConfig) (ticks : list Tick.t)
    (b : FootprintBar) :
  bar_of cfg ticks b ->
  (exists first rest,
     ticks = first :: rest /\
     rounded cfg (Tick.price first) = Ok (open_price b)) /\
  (exists init last,
     ticks = init ++ [last] /\
     rounded cfg (Tick.price last) = Ok (close_price b)) /\
  (forall t, In t ticks ->
     exists r, rounded cfg (Tick.price t) = Ok r /\
               (low_price b <= r)%Q /\ (r <= high_price b)%Q) /\
  (exists t, In t ticks /\ rounded cfg (Tick.price t) = Ok (high_price b)) /\
  (exists t, In t ticks /\ rounded cfg (Tick.price t) = Ok (low_price b)).
Proof.
  induction 1 as [t st r Hst Hr | ticks b t r Hof IH Hr | ticks b b' p Hof IH Hstats].
  - assert (Hmax : Py.fmax r r = r) by (destruct (fmax_cases r r) as [[H _] | [H _]]; exact H).
    assert (Hmin : Py.fmin r r = r) by (destruct (fmin_cases r r) as [[H _] | [H _]]; exact H).
    cbn [fold_tick FootprintBar_init open_price close_price high_price low_price].
    rewrite Hmax, Hmin.
    split; [exists t, []; split; [reflexivity | exact Hr] |].
    split; [exists [], t; split; [reflexivity | exact Hr] |].
    split.
    { intros t' [<- | []]. exists r. split; [exact Hr |]. split; lra. }
    split; exists t; (split; [left; reflexivity | exact Hr]).
  - destruct IH as ((first & rest & Hfirst & Hopen) & _ & Hall & (th & Hth & Hhigh)
                    & (tl & Htl & Hlow)).
    cbn [fold_tick open_price close_price high_price low_price].
    split; [exists first, (rest ++ [t]); split; [rewrite Hfirst; reflexivity | exact Hopen] |].
    split; [exists ticks, t; split; [reflexivity | exact Hr] |].
    split.
    { intros t' Hin. apply in_app_or in Hin. destruct Hin as [Hin | [<- | []]].
      - destruct (Hall t' Hin) as (r' & Hr' & Hlo & Hhi).
        exists r'. split; [exact Hr' |].
        destruct (fmax_cases (high_price b) r) as [[-> ?] | [-> ?]];
          destruct (fmin_cases (low_price b) r) as [[-> ?] | [-> ?]]; split; lra.
      - exists r. split; [exact Hr |].
        destruct (Hall th Hth) as (rh & Hrh & Hlh & _).
        rewrite Hhigh in Hrh. injection Hrh as <-.
        destruct (fmax_cases (high_price b) r) as [[-> ?] | [-> ?]];
          destruct (fmin_cases (low_price b) r) as [[-> ?] | [-> ?]]; split; lra. }
    split.
    + destruct (fmax_cases (high_price b) r) as [[-> ?] | [-> ?]].
      * exists th. split; [apply in_or_app; left; exact Hth | exact Hhigh].
      * exists t. split; [apply in_or_app; right; left; reflexivity | exact Hr].
    + destruct (fmin_cases (low_price b) r) as [[-> ?] | [-> ?]].
      * exists tl. split; [apply in_or_app; left; exact Htl | exact Hlow].
      * exists t. split; [apply in_or_app; right; left; reflexivity | exact Hr].
  - apply update_bar_statistics_frame in Hstats.
    destruct Hstats as (tv & tav & tbv & tt & bd & poc & vah & val & up & ->).
    exact IH.
Qed.

(** X2: the OHLC fields of a bar built from ticks: open_price is the
    rounded price of the first tick, close_price that of the last,
    high_price and low_price are the rounded prices of ticks of the bar
    and bound the rounded price of every tick; so low <= open, close <=
    high. *)
Theorem bar_ohlc (cfg : FootprintEngineConfig) (ticks : list Tick.t)
    (b : FootprintBar) :
  bar_of cfg ticks b ->
  (exists first rest,
     ticks = first :: rest /\
     rounded cfg (Tick.price first) = Ok (open_price b)) /\
  (exists init last,
     ticks = init ++ [last] /\
     rounded cfg (Tick.price last) = Ok (close_price b)) /\
  (forall t, In t ticks ->
     exists r, rounded cfg (Tick.price t) = Ok r /\
               (low_price b <= r)%Q /\ (r <= high_price b)%Q) /\
  (exists t, In t ticks /\ rounded cfg (Tick.price t) = Ok (high_price b)) /\
  (exists t, In t ticks /\ rounded cfg (Tick.price t) = Ok (low_price b)) /\
  (low_price b <= open_price b)%Q /\ (open_price b <= high_price b)%Q /\
  (low_price b <= close_price b)%Q /\ (close_price b <= high_price b)%Q.
Proof.
  intros Hof.
  destruct (bar_prices cfg ticks b Hof)
    as (Hopen & Hclose & Hall & Hhigh & Hlow).
  split; [exact Hopen |]. split; [exact Hclose |]. split; [exact Hall |].
  split; [exact Hhigh |]. split; [exact Hlow |].
  destruct Hopen as (first & rest & Hfirst & Hopen).
  destruct Hclose as (init & last & Hlast & Hclose).
  destruct (Hall first) as (ro & Hro & Ho1 & Ho2);
    [rewrite Hfirst; left; reflexivity |].
  destruct (Hall last) as (rc & Hrc & Hc1 & Hc2);
    [rewrite Hlast; apply in_or_app; right; left; reflexivity |].
  rewrite Hopen in Hro. injection Hro as <-.
  rewrite Hclose in Hrc. injection Hrc as <-.
  repeat split; assumption.
Qed.

Lemma bar_ohlc_witness :
  (open_price example_bar == 100)%Q /\
  (close_price example_bar == 100)%Q /\
  (low_price example_bar <= open_price example_bar)%Q /\
  (open_price example_bar <= high_price example_bar)%Q /\
  (low_price example_bar <= close_price example_bar)%Q /\
  (close_price example_bar <= high_price example_bar)%Q.
Proof.
  destruct (bar_ohlc example_config (firstn 3 tick_data_1min) example_bar
              example_bar_built)
    as (_ & _ & _ & _ & _ & H1 & H2 & H3 & H4).
  split; [vm_compute; reflexivity |]. split; [vm_compute; reflexivity |].
  split; [exact H1 |]. split; [exact H2 |]. split; [exact H3 | exact H4].
Defined.

(** ** The price levels of a bar *)

Lemma add_trade_raw (cfg : FootprintEngineConfig) (v : Z) (side : bool)
    (l : PriceLevelData) :
  price (add_trade cfg v side l) = price l /\
  bid_volume (add_trade cfg v side l) = bid_volume l + (if side then v else 0) /\
  ask_volume (add_trade cfg v side l) = ask_volume l + (if side then 0 else v) /\
  bid_trades (add_trade cfg v side l) = bid_trades l + (if side then 1 else 0) /\
  ask_trades (add_trade cfg v side l) = ask_trades l + (if side then 0 else 1) /\
  consistent (add_trade cfg v side l).
Proof.
  unfold add_trade. destruct side; simpl;
    repeat split; try lia; try reflexivity.
Qed.

Lemma mem_cons {V : Type} (k' : Q) (v : V) (d : Dict.t V) (k : Q) :
  Dict.mem ((k', v) :: d) k = Qeq_bool k' k || Dict.mem d k.
Proof.
  unfold Dict.mem. simpl. destruct (Qeq_bool k' k); reflexivity.
Qed.

Lemma Qeq_bool_trans_l (a b c : Q) :
  Qeq_bool a b = true -> Qeq_bool b c = Qeq_bool a c.
Proof.
  intros Hab. apply Qeq_bool_iff in Hab.
  destruct (Qeq_bool b c) eqn:E1, (Qeq_bool a c) eqn:E2; try reflexivity.
  - apply Qeq_bool_iff in E1. apply Qeq_bool_neq in E2.
    exfalso. apply E2. rewrite Hab. exact E1.
  - apply Qeq_bool_iff in E2. apply Qeq_bool_neq in E1.
    exfalso. apply E1. rewrite <- Hab. exact E2.
Qed.

Lemma touch_mem (d : Dict.t PriceLevelData) (r k : Q)
    (f : PriceLevelData -> PriceLevelData) :
  Dict.mem (touch d r f) k = Dict.mem d k || Qeq_bool r k.
Proof.
  induction d as [| [k' v] d IH]; cbn [touch].
  - rewrite mem_cons. unfold Dict.mem. simpl. apply orb_false_r.
  - destruct (Qeq_bool k' r) eqn:E.
    + rewrite !mem_cons. rewrite (Qeq_bool_comm k' r) in E.
      rewrite (Qeq_bool_trans_l r k' k E).
      destruct (Qeq_bool r k), (Dict.mem d k); reflexivity.
    + rewrite !mem_cons, IH.
      destruct (Qeq_bool k' k), (Dict.mem d k), (Qeq_bool r k); reflexivity.
Qed.

Lemma touch_levels_wf (cfg : FootprintEngineConfig) (v : Z) (side : bool)
    (d : Dict.t PriceLevelData) (r : Q) :
  levels_wf d -> levels_wf (touch d r (add_trade cfg v side)).
Proof.
  unfold levels_wf, Dict.keys.
  induction d as [| [k l] d IH]; cbn [touch map fst snd distinct];
    intros [Hdist Hall].
  - split; [split; [constructor | exact I] |].
    constructor; [| constructor]. cbn [fst snd].
    split; [rewrite (proj1 (add_trade_raw cfg v side _)); reflexivity
           | apply add_trade_raw].
  - destruct Hdist as [Hk Hdist].
    pose proof (Forall_inv Hall) as [Hp Hc]. apply Forall_inv_tail in Hall.
    cbn [fst snd] in Hp, Hc.
    destruct (Qeq_bool k r) eqn:E; cbn [map fst snd distinct].
    + split; [split; assumption |].
      constructor; [| exact Hall]. cbn [fst snd].
      split; [rewrite (proj1 (add_trade_raw cfg v side l)); exact Hp
             | apply add_trade_raw].
    + destruct (IH (conj Hdist Hall)) as [Hdist' Hall'].
      split; [split; [| exact Hdist'] |].
      * apply (touch_keys_Forall (fun b => ~ (k == b)%Q)); [exact Hk |].
        apply Qeq_bool_neq. exact E.
      * constructor; [split; assumption | exact Hall'].
Qed.

Lemma mem_keys {V : Type} (d : Dict.t V) (k : Q) :
  In k (Dict.keys d) -> Dict.mem d k = true.
Proof.
  unfold Dict.keys. induction d as [| [k' v] d IH]; simpl; [contradiction |].
  rewrite mem_cons. intros [-> | Hin].
  - rewrite Qeq_bool_refl. reflexivity.
  - rewrite (IH Hin). apply orb_true_r.
Qed.

Lemma bar_of_levels (cfg : FootprintEngineConfig) (ticks : list Tick.t)
    (b : FootprintBar) :
  bar_of cfg ticks b ->
  price_levels b <> [] /\
  levels_wf (price_levels b) /\
  (forall t r, In t ticks -> rounded cfg (Tick.price t) = Ok r ->
     Dict.mem (price_levels b) r = true) /\
  (forall k, In k (Dict.keys (price_levels b)) ->
     exists t, In t ticks /\ rounded cfg (Tick.price t) = Ok k).
Proof.
  induction 1 as [t st r Hst Hr | ticks b t r Hof IH Hr | ticks b b' p Hof IH Hstats].
  - rewrite fold_tick_touch. cbn [FootprintBar_init price_levels].
    split; [apply touch_not_empty |].
    split; [apply touch_levels_wf; split; [exact I | constructor] |].
    split.
    + intros t' r' [<- | []] Hr'. rewrite Hr in Hr'. injection Hr' as <-.
      rewrite touch_mem, Qeq_bool_refl. apply orb_true_r.
    + intros k Hk. simpl in Hk. destruct Hk as [<- | []].
      exists t. split; [left; reflexivity | exact Hr].
  - destruct IH as (_ & Hwf & Hmem & Hkeys).
    split; [rewrite fold_tick_touch; apply touch_not_empty |].
    split; [rewrite fold_tick_touch; apply touch_levels_wf; exact Hwf |].
    split.
    + intros t' r' Hin Hr'. rewrite fold_tick_touch, touch_mem.
      apply in_app_or in Hin. destruct Hin as [Hin | [<- | []]].
      * rewrite (Hmem t' r' Hin Hr'). reflexivity.
      * rewrite Hr in Hr'. injection Hr' as <-.
        rewrite Qeq_bool_refl. apply orb_true_r.
    + intros k Hk. rewrite fold_tick_keys in Hk.
      destruct (Dict.mem (price_levels b) r).
      * destruct (Hkeys k Hk) as (t' & Hin & Hr').
        exists t'. split; [apply in_or_app; left; exact Hin | exact Hr'].
      * apply in_app_or in Hk. destruct Hk as [Hk | [<- | []]].
        -- destruct (Hkeys k Hk) as (t' & Hin & Hr').
           exists t'. split; [apply in_or_app; left; exact Hin | exact Hr'].
        -- exists t. split; [apply in_or_app; right; left; reflexivity | exact Hr].
  - rewrite (update_bar_statistics_levels _ _ _ Hstats). exact IH.
Qed.

(** X3: the price levels of a bar built from ticks: the dict is not
    empty, its keys are pairwise different floats, every level is filed
    under its own price with derived fields consistent with its counters,
    every tick's rounded price is a key and every key is the rounded
    price of one of the ticks. *)
Theorem bar_levels (cfg : FootprintEngineConfig) (ticks : list Tick.t)
    (b : FootprintBar) :
  bar_of cfg ticks b ->
  price_levels b <> [] /\
  levels_wf (price_levels b) /\
  (forall t r, In t ticks -> rounded cfg (Tick.price t) = Ok r ->
     Dict.mem (price_levels b) r = true) /\
  (forall k, In k (Dict.keys (price_levels b)) ->
     exists t, In t ticks /\ rounded cfg (Tick.price t) = Ok k).
Proof. exact (bar_of_levels cfg ticks b). Qed.

Lemma bar_levels_witness :
  price_levels example_bar <> [] /\
  levels_wf (price_levels example_bar) /\
  Dict.mem (price_levels example_bar) (401 # 4) = true /\
  (forall k, In k (Dict.keys (price_levels example_bar)) ->
     exists t, In t (firstn 3 tick_data_1min) /\
               rounded example_config (Tick.price t) = Ok k).
Proof.
  destruct (bar_levels example_config (firstn 3 tick_data_1min) example_bar
              example_bar_built) as (Hne & Hwf & Hmem & Hkeys).
  split; [exact Hne |]. split; [exact Hwf |]. split; [| exact Hkeys].
  apply (Hmem (Tick.mk (example_start + seconds 10) (10025 # 100) 5 true)).
  - right. left. reflexivity.
  - vm_compute. reflexivity.
Defined.

(** ** The totals of a bar *)

Lemma touch_sum (cfg : FootprintEngineConfig) (v : Z) (side : bool)
    (g : PriceLevelData -> Z) (delta : Z) (r : Q) (d : Dict.t PriceLevelData) :
  (forall l, g (add_trade cfg v side l) = g l + delta) ->
  g (PriceLevelData_init r 0 0 0 0) = 0 ->
  zsum (map g (Dict.values (touch d r (add_trade cfg v side))))
  = zsum (map g (Dict.values d)) + delta.
Proof.
  intros Hg H0. unfold Dict.values.
  induction d as [| [k l] d IH]; cbn [touch map snd].
  - rewrite !zsum_cons, Hg, H0. simpl. lia.
  - destruct (Qeq_bool k r); cbn [map snd]; rewrite !zsum_cons.
    + rewrite Hg. lia.
    + rewrite IH. lia.
Qed.

Lemma bid_ticks_snoc (ticks : list Tick.t) (t : Tick.t) :
  volumes (bid_ticks (ticks ++ [t]))
  = volumes (bid_ticks ticks) + (if Tick.is_bid_trade t then Tick.volume t else 0) /\
  Py.len (bid_ticks (ticks ++ [t]))
  = Py.len (bid_ticks ticks) + (if Tick.is_bid_trade t then 1 else 0).
Proof.
  unfold bid_ticks. rewrite filter_app. simpl.
  destruct (Tick.is_bid_trade t).
  - rewrite volumes_snoc, len_snoc. split; reflexivity.
  - rewrite app_nil_r. split; lia.
Qed.

Lemma ask_ticks_snoc (ticks : list Tick.t) (t : Tick.t) :
  volumes (ask_ticks (ticks ++ [t]))
  = volumes (ask_ticks ticks) + (if Tick.is_bid_trade t then 0 else Tick.volume t) /\
  Py.len (ask_ticks (ticks ++ [t]))
  = Py.len (ask_ticks ticks) + (if Tick.is_bid_trade t then 0 else 1).
Proof.
  unfold ask_ticks. rewrite filter_app. simpl.
  destruct (Tick.is_bid_trade t); simpl.
  - rewrite app_nil_r. split; lia.
  - rewrite volumes_snoc, len_snoc. split; reflexivity.
Qed.

(** The raw counters of the levels add up to the ticks of either side. *)
Lemma bar_level_sums (cfg : FootprintEngineConfig) (ticks : list Tick.t)
    (b : FootprintBar) :
  bar_of cfg ticks b ->
  zsum (map bid_volume (Dict.values (price_levels b))) = volumes (bid_ticks ticks) /\
  zsum (map ask_volume (Dict.values (price_levels b))) = volumes (ask_ticks ticks) /\
  zsum (map bid_trades (Dict.values (price_levels b))) = Py.len (bid_ticks ticks) /\
  zsum (map ask_trades (Dict.values (price_levels b))) = Py.len (ask_ticks ticks).
Proof.
  assert (Hstep : forall (d : Dict.t PriceLevelData) (t : Tick.t) (r : Q)
                         (bv av bt atr : Z),
            zsum (map bid_volume (Dict.values d)) = bv ->
            zsum (map ask_volume (Dict.values d)) = av ->
            zsum (map bid_trades (Dict.values d)) = bt ->
            zsum (map ask_trades (Dict.values d)) = atr ->
            let d' := touch d r (add_trade cfg (Tick.volume t) (Tick.is_bid_trade t)) in
            zsum (map bid_volume (Dict.values d'))
            = bv + (if Tick.is_bid_trade t then Tick.volume t else 0) /\
            zsum (map ask_volume (Dict.values d'))
            = av + (if Tick.is_bid_trade t then 0 else Tick.volume t) /\
            zsum (map bid_trades (Dict.values d'))
            = bt + (if Tick.is_bid_trade t then 1 else 0) /\
            zsum (map ask_trades (Dict.values d'))
            = atr + (if Tick.is_bid_trade t then 0 else 1)).
  { intros d t r bv av bt atr <- <- <- <-. cbv zeta.
    repeat split; apply touch_sum; try reflexivity; intros l;
      apply (add_trade_raw cfg (Tick.volume t) (Tick.is_bid_trade t) l). }
  induction 1 as [t st r Hst Hr | ticks b t r Hof IH Hr | ticks b b' p Hof IH Hstats].
  - rewrite fold_tick_touch. cbn [FootprintBar_init price_levels].
    destruct (Hstep [] t r 0 0 0 0 eq_refl eq_refl eq_refl eq_refl)
      as (H1 & H2 & H3 & H4).
    rewrite H1, H2, H3, H4.
    unfold bid_ticks, ask_ticks, volumes, Py.len. simpl.
    destruct (Tick.is_bid_trade t); simpl; repeat split; lia.
  - destruct IH as (I1 & I2 & I3 & I4). rewrite fold_tick_touch.
    destruct (Hstep (price_levels b) t r _ _ _ _ I1 I2 I3 I4)
      as (H1 & H2 & H3 & H4).
    rewrite H1, H2, H3, H4.
    destruct (bid_ticks_snoc ticks t) as [B1 B2].
    destruct (ask_ticks_snoc ticks t) as [A1 A2].
    rewrite B1, B2, A1, A2. repeat split; reflexivity.
  - rewrite (update_bar_statistics_levels _ _ _ Hstats). exact IH.
Qed.

Lemma consistent_sums (ls : list PriceLevelData) :
  Forall consistent ls ->
  zsum (map total_volume ls) = zsum (map bid_volume ls) + zsum (map ask_volume ls) /\
  zsum (map total_trades ls) = zsum (map bid_trades ls) + zsum (map ask_trades ls).
Proof.
  induction 1 as [| l ls (Hv & Ht & _) Hls IH]; [split; reflexivity |].
  cbn [map]. rewrite !zsum_cons. destruct IH as [IH1 IH2]. split; lia.
Qed.

Lemma sides_partition (ticks : list Tick.t) :
  volumes (bid_ticks ticks) + volumes (ask_ticks ticks) = volumes ticks /\
  Py.len (bid_ticks ticks) + Py.len (ask_ticks ticks) = Py.len ticks.
Proof.
  unfold bid_ticks, ask_ticks, volumes, Py.len.
  induction ticks as [| t ticks [IH1 IH2]]; [split; reflexivity |].
  cbn [filter]. destruct (Tick.is_bid_trade t);
    cbn [negb map List.length]; rewrite ?zsum_cons, ?Nat2Z.inj_succ; split; lia.
Qed.

Lemma update_bar_statistics_totals (b b' : FootprintBar) (p : Q) :
  price_levels b <> [] ->
  update_bar_statistics b p = Ok b' ->
  total_bar_volume b' = zsum (map total_volume (Dict.values (price_levels b))) /\
  total_bar_ask_volume b' = zsum (map ask_volume (Dict.values (price_levels b))) /\
  total_bar_bid_volume b' = zsum (map bid_volume (Dict.values (price_levels b))) /\
  total_bar_trades b' = zsum (map total_trades (Dict.values (price_levels b))) /\
  bar_delta b' = total_bar_ask_volume b' - total_bar_bid_volume b'.
Proof.
  intros Hne H. unfold update_bar_statistics in H.
  destruct (price_levels b) as [| kv d] eqn:E; [contradiction |].
  inv_bind H. injection H as <-. cbn [with_statistics total_bar_volume
    total_bar_ask_volume total_bar_bid_volume total_bar_trades bar_delta].
  rewrite !Py_sum_zsum. repeat split; reflexivity.
Qed.

Lemma bar_of_totals (cfg : FootprintEngineConfig) (ticks : list Tick.t)
    (b b' : FootprintBar) (p : Q) :
  bar_of cfg ticks b ->
  update_bar_statistics b p = Ok b' ->
  total_bar_volume b' = volumes ticks /\
  total_bar_bid_volume b' = volumes (bid_ticks ticks) /\
  total_bar_ask_volume b' = volumes (ask_ticks ticks) /\
  bar_delta b' = volumes (ask_ticks ticks) - volumes (bid_ticks ticks) /\
  total_bar_trades b' = Py.len ticks /\
  total_bar_volume b' = current_aggregated_volume b' /\
  total_bar_trades b' = tick_count b'.
Proof.
  intros Hof Hstats.
  destruct (bar_of_levels cfg ticks b Hof) as (Hne & [_ Hwf] & _).
  destruct (bar_level_sums cfg ticks b Hof) as (Hbv & Hav & Hbt & Hat).
  destruct (update_bar_statistics_totals b b' p Hne Hstats)
    as (Htv & Htav & Htbv & Htt & Hdelta).
  assert (Hcons : Forall consistent (Dict.values (price_levels b))).
  { unfold Dict.values. rewrite Forall_map.
    eapply Forall_impl; [| exact Hwf]. intros kv [_ Hc]. exact Hc. }
  destruct (consistent_sums _ Hcons) as [Hsv Hst].
  destruct (sides_partition ticks) as [Pv Pl].
  destruct (bar_of_counters cfg ticks b' (bar_of_stats cfg ticks b b' p Hof Hstats))
    as (Htc & Hcav & _).
  repeat split; lia.
Qed.

(** X4: the statistics of a bar built from ticks account for every
    tick: once [update_bar_statistics] has returned, total_bar_volume is
    the sum of the tick volumes (and equals current_aggregated_volume),
    total_bar_bid_volume and total_bar_ask_volume are the sums over the
    bid and over the ask ticks, bar_delta is their difference and
    total_bar_trades is the number of ticks (and equals tick_count). *)
Theorem bar_totals (cfg : FootprintEngineConfig) (ticks : list Tick.t)
    (b b' : FootprintBar) (p : Q) :
  bar_of cfg ticks b ->
  update_bar_statistics b p = Ok b' ->
  total_bar_volume b' = volumes ticks /\
  total_bar_bid_volume b' = volumes (bid_ticks ticks) /\
  total_bar_ask_volume b' = volumes (ask_ticks ticks) /\
  bar_delta b' = volumes (ask_ticks ticks) - volumes (bid_ticks ticks) /\
  total_bar_trades b' = Py.len ticks /\
  total_bar_volume b' = current_aggregated_volume b' /\
  total_bar_trades b' = tick_count b'.
Proof. exact (bar_of_totals cfg ticks b b' p). Qed.

Lemma bar_totals_witness :
  exists b',
    update_bar_statistics example_bar (7 # 10) = Ok b' /\
    total_bar_volume b' = 23 /\
    total_bar_bid_volume b' = 5 /\
    total_bar_ask_volume b' = 18 /\
    bar_delta b' = 13 /\
    total_bar_trades b' = 3 /\
    total_bar_volume b' = current_aggregated_volume b' /\
    total_bar_trades b' = tick_count b'.
Proof.
  pose (b' := match update_bar_statistics example_bar (7 # 10) with
              | Ok x => x
              | Err _ => example_bar
              end).
  assert (H : update_bar_statistics example_bar (7 # 10) = Ok b')
    by (vm_compute; reflexivity).
  exists b'. split; [exact H |].
  exact (bar_totals example_config (firstn 3 tick_data_1min) example_bar b'
           (7 # 10) example_bar_built H).
Defined.

(** ** Every tick is in exactly one bar *)

(** Whatever the mode, the stream is cut into bars built from its ticks. *)
Lemma process_ticks_bar_of (cfg : FootprintEngineConfig) (ticks : list Tick.t)
    (e : FootprintEngine) :
  process_ticks (FootprintEngine_init cfg) ticks = Ok e ->
  config e = cfg /\
  segmented (bar_of cfg) (bar_of cfg) ticks
    (ticks_appends (FootprintEngine_init cfg) ticks) e.
Proof.
  intros H.
  apply (process_ticks_segmented cfg (bar_of cfg) (bar_of cfg))
    with (seen := []) (log := []) (e := FootprintEngine_init cfg);
    [ intros; apply bar_of_first; assumption
    | intros; apply bar_of_next; assumption
    | intros; eapply bar_of_stats; eassumption
    | reflexivity
    | apply new_engine_segmented
    | exact H ].
Qed.

Lemma process_ticks_counter (ticks : list Tick.t) (e e' : FootprintEngine) :
  process_ticks e ticks = Ok e' ->
  _total_ticks_processed e' = _total_ticks_processed e + Py.len ticks /\
  config e' = config e.
Proof.
  revert e. induction ticks as [| t ticks IH]; intros e H.
  - injection H as <-. unfold Py.len. simpl. split; [lia | reflexivity].
  - simpl in H. inv_bind H. destruct (IH _ H) as [Hn Hc].
    assert (Hstep : _total_ticks_processed a = _total_ticks_processed e + 1 /\
                    config a = config e).
    { rewrite process_tick_eq in Ha. cbv zeta in Ha.
      destruct (current_bar e).
      - inv_bind Ha. destruct a0.
        + inv_bind Ha. inv_bind Ha. inv_bind Ha. injection Ha as <-.
          split; reflexivity.
        + inv_bind Ha. injection Ha as <-. split; reflexivity.
      - inv_bind Ha. inv_bind Ha. injection Ha as <-. split; reflexivity. }
    destruct Hstep as [Hs1 Hs2]. rewrite Hn, Hc, Hs1, Hs2.
    unfold Py.len. simpl List.length. split; [lia | reflexivity].
Qed.

Lemma len_app {A : Type} (l1 l2 : list A) : Py.len (l1 ++ l2) = Py.len l1 + Py.len l2.
Proof. unfold Py.len. rewrite length_app. lia. Qed.

Lemma segments_counts (cfg : FootprintEngineConfig)
    (segs : list (list Tick.t)) (log : list FootprintBar) :
  Forall2 (bar_of cfg) segs log ->
  zsum (map tick_count log) = Py.len (concat segs) /\
  zsum (map current_aggregated_volume log) = volumes (concat segs).
Proof.
  induction 1 as [| seg b segs log Hof _ [IH1 IH2]]; [split; reflexivity |].
  destruct (bar_of_counters cfg seg b Hof) as (Htc & Hv & _).
  cbn [map concat]. rewrite !zsum_cons, len_app, IH1, IH2, Htc, Hv.
  unfold volumes. rewrite map_app, zsum_app. split; reflexivity.
Qed.

(** X5: whatever the mode, no tick is lost or counted twice: after a
    stream of ticks given to a new engine, the tick counts of the bars
    appended to the history and of the bar in progress add up to the
    number of ticks, [_total_ticks_processed] is that number, the
    configuration is the one the engine was built with, and after at
    least one tick there is a bar in progress holding at least one
    tick. *)
Theorem no_tick_is_lost (cfg : FootprintEngineConfig) (ticks : list Tick.t)
    (e : FootprintEngine) :
  process_ticks (FootprintEngine_init cfg) ticks = Ok e ->
  config e = cfg /\
  _total_ticks_processed e = Py.len ticks /\
  zsum (map tick_count (ticks_appends (FootprintEngine_init cfg) ticks))
  + current_tick_count e = Py.len ticks /\
  (ticks <> [] -> exists b, current_bar e = Some b /\ 1 <= tick_count b).
Proof.
  intros H.
  destruct (process_ticks_bar_of cfg ticks e H)
    as (Hcfg & segs & cur & Hseen & Hlog & Hcur).
  destruct (process_ticks_counter ticks _ e H) as [Hn _].
  destruct (segments_counts cfg segs _ Hlog) as [Hsum _].
  split; [exact Hcfg |]. split; [exact Hn |].
  unfold current_tick_count.
  split.
  - rewrite Hsum, Hseen, len_app.
    destruct (current_bar e) as [b |].
    + destruct (bar_of_counters cfg cur b Hcur) as (Htc & _). lia.
    + subst cur. reflexivity.
  - intros Hne.
    destruct (process_ticks_current _ _ _ H) as [[Hnil _] | [b Hb]];
      [contradiction |].
    exists b. split; [exact Hb |]. rewrite Hb in Hcur.
    destruct (bar_of_counters cfg cur b Hcur) as (Htc & _ & init & last & Hl & _).
    rewrite Htc, Hl, len_snoc. unfold Py.len. lia.
Qed.

Lemma no_tick_is_lost_witness :
  exists e,
    process_ticks (FootprintEngine_init example_config) tick_data_1min = Ok e /\
    _total_ticks_processed e = 4 /\
    zsum (map tick_count
            (ticks_appends (FootprintEngine_init example_config) tick_data_1min))
    + current_tick_count e = 4.
Proof.
  pose (e := engine_after example_config tick_data_1min).
  assert (H : process_ticks (FootprintEngine_init example_config) tick_data_1min
              = Ok e) by (vm_compute; reflexivity).
  destruct (no_tick_is_lost example_config tick_data_1min e H)
    as (_ & Hn & Hsum & _).
  exists e. split; [exact H |]. split; [exact Hn | exact Hsum].
Defined.


(** ** VOLUME aggregation *)

Lemma should_create_VOLUME (cfg : FootprintEngineConfig) (V : Z)
    (b : FootprintBar) (ts : Z) (p : Q) :
  aggregation_type cfg = VOLUME ->
  aggregation_value cfg = AggInt V ->
  _should_create_new_bar cfg b ts p = Ok (current_aggregated_volume b >=? V).
Proof.
  intros Hty Hval. unfold _should_create_new_bar. rewrite Hty, Hval.
  reflexivity.
Qed.

Section VolumeMode.

Variable cfg : FootprintEngineConfig.
Variable V : Z.
Hypothesis mode : aggregation_type cfg = VOLUME.
Hypothesis threshold : aggregation_value cfg = AggInt V.
Hypothesis positive : 0 < V.

Lemma volume_good_first (t : Tick.t) (st : Z) (r : Q) :
  new_start_time cfg (Tick.datetime t) = Ok st ->
  rounded cfg (Tick.price t) = Ok r ->
  volume_good cfg V [t]
    (fold_tick cfg (FootprintBar_init st (Tick.datetime t) r r r r)
       (Tick.datetime t) r (Tick.volume t) (Tick.is_bid_trade t)).
Proof.
  intros Hst Hr. split; [apply bar_of_first; assumption |].
  exists [], t. split; [reflexivity | exact positive].
Qed.

Lemma volume_good_next (seg : list Tick.t) (b : FootprintBar) (t : Tick.t) (r : Q) :
  volume_good cfg V seg b ->
  _should_create_new_bar cfg b (Tick.datetime t) (Tick.price t) = Ok false ->
  rounded cfg (Tick.price t) = Ok r ->
  volume_good cfg V (seg ++ [t])
    (fold_tick cfg b (Tick.datetime t) r (Tick.volume t) (Tick.is_bid_trade t)).
Proof.
  intros (Hof & _) Hkeep Hr.
  rewrite (should_create_VOLUME _ V) in Hkeep by assumption.
  injection Hkeep as Hkeep.
  destruct (Z.geb_spec (current_aggregated_volume b) V); [discriminate |].
  destruct (bar_of_counters cfg seg b Hof) as (_ & Hv & _).
  split; [apply bar_of_next; assumption |].
  exists seg, t. split; [reflexivity | lia].
Qed.

Lemma volume_good_full (seg : list Tick.t) (b b' : FootprintBar) (t : Tick.t) :
  volume_good cfg V seg b ->
  _should_create_new_bar cfg b (Tick.datetime t) (Tick.price t) = Ok true ->
  update_bar_statistics b (value_area_percentage cfg) = Ok b' ->
  volume_full cfg V seg b'.
Proof.
  intros (Hof & Hshort) Hcross Hstats.
  rewrite (should_create_VOLUME _ V) in Hcross by assumption.
  injection Hcross as Hcross.
  destruct (Z.geb_spec (current_aggregated_volume b) V); [| discriminate].
  pose proof (bar_of_stats cfg seg b b' _ Hof Hstats) as Hof'.
  destruct (bar_of_counters cfg seg b Hof) as (_ & Hv & _).
  destruct (bar_of_counters cfg seg b' Hof') as (_ & Hv' & _).
  split; [split; assumption | lia].
Qed.

Lemma process_ticks_VOLUME (ticks : list Tick.t) (e : FootprintEngine) :
  process_ticks (FootprintEngine_init cfg) ticks = Ok e ->
  config e = cfg /\
  segmented (volume_full cfg V) (volume_good cfg V) ticks
    (ticks_appends (FootprintEngine_init cfg) ticks) e.
Proof.
  intros H.
  apply (process_ticks_segmented cfg (volume_full cfg V) (volume_good cfg V)
           volume_good_first volume_good_next volume_good_full
           ticks [] [] (FootprintEngine_init cfg) e);
    [reflexivity | apply new_engine_segmented | exact H].
Qed.

End VolumeMode.

(** X6: in VOLUME mode with a threshold V > 0 the boundary check
    compares the current_aggregated_volume of the bar in progress with V
    before the incoming tick is folded in.  Every stream given to a new
    engine is cut into bars that close as soon as they reach V: each bar
    appended to the history has current_aggregated_volume >= V, and
    without its last tick its volume was still below V. *)
Theorem volume_mode_bars (cfg : FootprintEngineConfig) (V : Z)
    (ticks : list Tick.t) (e : FootprintEngine) :
  aggregation_type cfg = VOLUME ->
  aggregation_value cfg = AggInt V ->
  0 < V ->
  process_ticks (FootprintEngine_init cfg) ticks = Ok e ->
  (forall b ts p,
     _should_create_new_bar cfg b ts p
     = Ok (current_aggregated_volume b >=? V)) /\
  segmented (volume_full cfg V) (volume_good cfg V) ticks
    (ticks_appends (FootprintEngine_init cfg) ticks) e /\
  Forall (fun b => V <= current_aggregated_volume b) (bars e).
Proof.
  intros Hty Hval HV Hrun.
  destruct (process_ticks_VOLUME cfg V Hty Hval HV ticks e Hrun) as [Hcfg Hseg].
  split; [intros; apply should_create_VOLUME; assumption |].
  split; [exact Hseg |].
  assert (Hhist : history_of cfg
                    ([] ++ ticks_appends (FootprintEngine_init cfg) ticks) e).
  { eapply process_ticks_history; [| exact Hrun]. split; reflexivity. }
  destruct Hhist as [_ Hbars]. rewrite Hbars. apply Forall_last_n.
  destruct Hseg as (segs & cur & _ & Hlog & _).
  eapply Forall2_Forall_r; [| exact Hlog].
  intros seg b [_ Hb]. exact Hb.
Qed.

Lemma volume_mode_bars_witness :
  exists e,
    process_ticks (FootprintEngine_init volume_config) tick_data_1min = Ok e /\
    segmented (volume_full volume_config 15) (volume_good volume_config 15)
      tick_data_1min
      (ticks_appends (FootprintEngine_init volume_config) tick_data_1min) e /\
    Forall (fun b => 15 <= current_aggregated_volume b) (bars e) /\
    List.length (bars e) = 1%nat.
Proof.
  pose (e := engine_after volume_config tick_data_1min).
  assert (H : process_ticks (FootprintEngine_init volume_config) tick_data_1min
              = Ok e) by (vm_compute; reflexivity).
  destruct (volume_mode_bars volume_config 15 tick_data_1min e
              eq_refl eq_refl ltac:(lia) H) as (_ & Hseg & Hbars).
  exists e. split; [exact H |]. split; [exact Hseg |]. split; [exact Hbars |].
  vm_compute. reflexivity.
Defined.


(** ** RANGE and REVERSAL aggregation *)

Lemma should_create_reserved (cfg : FootprintEngineConfig)
    (b : FootprintBar) (ts : Z) (p : Q) :
  aggregation_type cfg = RANGE \/ aggregation_type cfg = REVERSAL ->
  _should_create_new_bar cfg b ts p = Ok false.
Proof.
  intros [H | H]; unfold _should_create_new_bar; rewrite H; reflexivity.
Qed.

(** X7: in RANGE and REVERSAL mode [_should_create_new_bar] always
    answers False, so [process_tick] never closes a bar: after any stream
    given to a new engine nothing was appended to the history, which is
    empty, and the bar in progress is built from all the ticks of the
    stream. *)
Theorem reserved_modes_never_close (cfg : FootprintEngineConfig)
    (ticks : list Tick.t) (e : FootprintEngine) :
  aggregation_type cfg = RANGE \/ aggregation_type cfg = REVERSAL ->
  process_ticks (FootprintEngine_init cfg) ticks = Ok e ->
  (forall b ts p, _should_create_new_bar cfg b ts p = Ok false) /\
  ticks_appends (FootprintEngine_init cfg) ticks = [] /\
  bars e = [] /\
  (ticks <> [] -> exists b, current_bar e = Some b /\ bar_of cfg ticks b).
Proof.
  intros Hmode Hrun.
  assert (Hseg : config e = cfg /\
                 segmented no_bar (bar_of cfg) ticks
                   (ticks_appends (FootprintEngine_init cfg) ticks) e).
  { apply (process_ticks_segmented cfg no_bar (bar_of cfg))
      with (seen := []) (log := []) (e := FootprintEngine_init cfg);
      [ intros; apply bar_of_first; assumption
      | intros; apply bar_of_next; assumption
      |
      | reflexivity
      | apply new_engine_segmented
      | exact Hrun ].
    intros seg b b' t _ Hcross _.
    rewrite (should_create_reserved cfg b _ _ Hmode) in Hcross. discriminate. }
  destruct Hseg as (Hcfg & segs & cur & Hseen & Hlog & Hcur).
  assert (Hnil : segs = [] /\ ticks_appends (FootprintEngine_init cfg) ticks = []).
  { destruct Hlog as [| seg b segs log []]. split; reflexivity. }
  destruct Hnil as [-> Hlognil].
  split; [intros; apply should_create_reserved; exact Hmode |].
  split; [exact Hlognil |].
  split.
  - assert (Hhist : history_of cfg
                      ([] ++ ticks_appends (FootprintEngine_init cfg) ticks) e).
    { eapply process_ticks_history; [| exact Hrun]. split; reflexivity. }
    destruct Hhist as [_ Hbars]. rewrite Hbars, Hlognil. reflexivity.
  - intros Hne. simpl in Hseen. subst cur.
    destruct (process_ticks_current _ _ _ Hrun) as [[Hn _] | [b Hb]];
      [contradiction |].
    exists b. split; [exact Hb |]. rewrite Hb in Hcur. exact Hcur.
Qed.

Lemma reserved_modes_never_close_witness :
  exists e b,
    process_ticks (FootprintEngine_init range_config) tick_data_1min = Ok e /\
    bars e = [] /\
    current_bar e = Some b /\
    bar_of range_config tick_data_1min b.
Proof.
  pose (e := engine_after range_config tick_data_1min).
  assert (H : process_ticks (FootprintEngine_init range_config) tick_data_1min
              = Ok e) by (vm_compute; reflexivity).
  destruct (reserved_modes_never_close range_config tick_data_1min e
              (or_introl eq_refl) H) as (_ & _ & Hbars & Hcur).
  destruct Hcur as (b & Hb & Hof); [discriminate |].
  exists e, b. split; [exact H |]. split; [exact Hbars |].
  split; [exact Hb | exact Hof].
Defined.

(** ** TICK aggregation with a threshold of at most one *)

(** X8: in TICK mode with a threshold of at most one (zero and
    negative thresholds included) every tick after the first closes the
    bar in progress: each appended bar holds exactly one tick, and a
    stream of n >= 1 ticks appends n - 1 bars. *)
Theorem tick_threshold_at_most_one (cfg : FootprintEngineConfig) (N : Z)
    (ticks : list Tick.t) (e : FootprintEngine) :
  aggregation_type cfg = TICK ->
  aggregation_value cfg = AggInt N ->
  N <= 1 ->
  process_ticks (FootprintEngine_init cfg) ticks = Ok e ->
  segmented (single_tick cfg) (single_tick cfg) ticks
    (ticks_appends (FootprintEngine_init cfg) ticks) e /\
  Forall (fun b => tick_count b = 1)
    (ticks_appends (FootprintEngine_init cfg) ticks) /\
  Py.len (ticks_appends (FootprintEngine_init cfg) ticks)
  = Z.max 0 (Py.len ticks - 1).
Proof.
  intros Hty Hval HN Hrun.
  assert (Hseg : config e = cfg /\
                 segmented (single_tick cfg) (single_tick cfg) ticks
                   (ticks_appends (FootprintEngine_init cfg) ticks) e).
  { apply (process_ticks_segmented cfg (single_tick cfg) (single_tick cfg))
      with (seen := []) (log := []) (e := FootprintEngine_init cfg);
      [ | | | reflexivity | apply new_engine_segmented | exact Hrun ].
    - intros t st r Hst Hr. split; [apply bar_of_first; assumption |].
      exists t. reflexivity.
    - intros seg b t r (Hof & t0 & ->) Hkeep Hr. exfalso.
      rewrite (should_create_TICK _ N) in Hkeep by assumption.
      injection Hkeep as Hkeep.
      destruct (Z.geb_spec (tick_count b) N); [discriminate |].
      destruct (bar_of_counters cfg [t0] b Hof) as (Htc & _).
      unfold Py.len in Htc. simpl in Htc. lia.
    - intros seg b b' t (Hof & Hone) _ Hstats.
      split; [eapply bar_of_stats; eassumption | exact Hone]. }
  destruct Hseg as [Hcfg Hseg]. split; [exact Hseg |].
  destruct Hseg as (segs & cur & Hseen & Hlog & Hcur).
  split.
  - eapply Forall2_Forall_r; [| exact Hlog].
    intros seg b (Hof & t0 & ->).
    destruct (bar_of_counters cfg [t0] b Hof) as (Htc & _). exact Htc.
  - assert (Hlen : Py.len (concat segs)
                   = Py.len (ticks_appends (FootprintEngine_init cfg) ticks)).
    { clear - Hlog. induction Hlog as [| seg b segs log (_ & t0 & ->) _ IH];
        [reflexivity |].
      cbn [concat]. rewrite len_app, IH. unfold Py.len. simpl List.length. lia. }
    rewrite <- Hlen. rewrite Hseen, len_app.
    destruct (current_bar e) as [b |] eqn:Eb.
    + destruct Hcur as (_ & t0 & ->). unfold Py.len. simpl List.length. lia.
    + subst cur.
      destruct (process_ticks_current _ _ _ Hrun) as [[-> _] | [b Hb]];
        [| congruence].
      destruct segs as [| s segs]; [reflexivity |].
      simpl in Hlog. inversion Hlog.
Qed.

Lemma tick_threshold_at_most_one_witness :
  exists e,
    process_ticks (FootprintEngine_init tick0_config) tick_data_1min = Ok e /\
    Forall (fun b => tick_count b = 1)
      (ticks_appends (FootprintEngine_init tick0_config) tick_data_1min) /\
    Py.len (ticks_appends (FootprintEngine_init tick0_config) tick_data_1min) = 3.
Proof.
  pose (e := engine_after tick0_config tick_data_1min).
  assert (H : process_ticks (FootprintEngine_init tick0_config) tick_data_1min
              = Ok e) by (vm_compute; reflexivity).
  destruct (tick_threshold_at_most_one tick0_config 0 tick_data_1min e
              eq_refl eq_refl ltac:(lia) H) as (_ & Hall & Hlen).
  exists e. split; [exact H |]. split; [exact Hall | exact Hlen].
Defined.


(** ** A tick size of zero *)

Lemma rounded_zero_tick_size (cfg : FootprintEngineConfig) (p : Q) :
  (tick_size cfg == 0)%Q -> rounded cfg p = Err ZeroDivisionError.
Proof.
  intros H. unfold rounded, Py.truediv. cbv zeta. rewrite fl_zero_test.
  apply Qeq_bool_iff in H. rewrite H. reflexivity.
Qed.

(** X9: with a tick size of zero [process_tick] never succeeds: the
    division of the price by the tick size raises ZeroDivisionError, at
    once on an engine without a bar in progress and when the bar in
    progress is kept. *)
Theorem zero_tick_size_raises (e : FootprintEngine) (ts : Z) (p : Q) (v : Z)
    (side : bool) :
  (tick_size (config e) == 0)%Q ->
  (forall e', process_tick e ts p v side <> Ok e') /\
  (current_bar e = None ->
   process_tick e ts p v side = Err ZeroDivisionError) /\
  (forall cur,
     current_bar e = Some cur ->
     _should_create_new_bar (config e) cur ts p = Ok false ->
     process_tick e ts p v side = Err ZeroDivisionError).
Proof.
  intros Hz. pose proof (rounded_zero_tick_size (config e) p Hz) as Hr.
  rewrite process_tick_eq. cbv zeta. rewrite Hr.
  split; [| split].
  - intros e'. destruct (current_bar e) as [cur |]; [| discriminate].
    destruct (_should_create_new_bar (config e) cur ts p) as [[|] | err];
      cbn [bind]; try discriminate.
    destruct (update_bar_statistics cur (value_area_percentage (config e)));
      discriminate.
  - intros ->. reflexivity.
  - intros cur -> ->. reflexivity.
Qed.

Lemma zero_tick_size_raises_witness :
  process_tick (FootprintEngine_init zero_tick_config) example_start 100 10 false
  = Err ZeroDivisionError.
Proof.
  apply (zero_tick_size_raises (FootprintEngine_init zero_tick_config)
           example_start 100 10 false); reflexivity.
Defined.

(** ** A string where TICK and VOLUME need a number *)

(** X10: in TICK and VOLUME mode with a string as aggregation_value the
    first tick of a new engine is processed (nothing is compared yet),
    and the second tick raises TypeError when the counter of the bar in
    progress is compared with the string. *)
Theorem string_threshold_raises (cfg : FootprintEngineConfig) (s : string)
    (t1 t2 : Tick.t) (rest : list Tick.t) :
  aggregation_type cfg = TICK \/ aggregation_type cfg = VOLUME ->
  aggregation_value cfg = AggStr s ->
  ~ (tick_size cfg == 0)%Q ->
  (exists e, process_ticks (FootprintEngine_init cfg) [t1] = Ok e) /\
  process_ticks (FootprintEngine_init cfg) (t1 :: t2 :: rest) = Err TypeError.
Proof.
  intros Hmode Hval Hts.
  destruct (rounded_total cfg (Tick.price t1) Hts) as [r Hr].
  assert (Hstart : new_start_time cfg (Tick.datetime t1) = Ok (Tick.datetime t1)).
  { unfold new_start_time. destruct Hmode as [-> | ->]; reflexivity. }
  assert (Hraise : forall b ts p, _should_create_new_bar cfg b ts p = Err TypeError).
  { intros. unfold _should_create_new_bar. rewrite Hval.
    destruct Hmode as [-> | ->]; reflexivity. }
  assert (H1 : process_tick (FootprintEngine_init cfg) (Tick.datetime t1)
                 (Tick.price t1) (Tick.volume t1) (Tick.is_bid_trade t1)
               = Ok (mkFootprintEngine cfg []
                       (Some (fold_tick cfg
                                (FootprintBar_init (Tick.datetime t1)
                                   (Tick.datetime t1) r r r r)
                                (Tick.datetime t1) r (Tick.volume t1)
                                (Tick.is_bid_trade t1)))
                       (0 + 1))).
  { rewrite process_tick_eq. cbn [FootprintEngine_init current_bar config bars
      _total_ticks_processed]. cbv zeta. rewrite Hr, Hstart. reflexivity. }
  split.
  - eexists. cbn [process_ticks]. rewrite H1. reflexivity.
  - cbn [process_ticks]. rewrite H1. cbn [bind].
    rewrite process_tick_eq. cbn [current_bar config]. cbv zeta.
    rewrite Hraise. reflexivity.
Qed.

Lemma string_threshold_raises_witness :
  (exists e,
     process_ticks (FootprintEngine_init string_threshold_config)
       [fourth_tick] = Ok e) /\
  process_ticks (FootprintEngine_init string_threshold_config)
    (fourth_tick :: fourth_tick :: three_ticks) = Err TypeError.
Proof.
  apply (string_threshold_raises string_threshold_config "3"
           fourth_tick fourth_tick three_ticks).
  - left. reflexivity.
  - reflexivity.
  - vm_compute. discriminate.
Defined.

(** ** Finalizing *)

(** X11: [_finalize_current_bar], when it returns, leaves no bar in
    progress and changes neither the configuration nor the tick counter;
    calling it again changes nothing.  Without a bar in progress it
    returns the engine as it is; with one it appends that bar, with its
    statistics updated, to the history (evicting the oldest bar when the
    bound is exceeded). *)
Theorem finalize_current_bar_once (e e' : FootprintEngine) :
  _finalize_current_bar e = Ok e' ->
  current_bar e' = None /\
  config e' = config e /\
  _total_ticks_processed e' = _total_ticks_processed e /\
  _finalize_current_bar e' = Ok e' /\
  match current_bar e with
  | None => e' = e
  | Some cur =>
      exists cur',
        update_bar_statistics cur (value_area_percentage (config e)) = Ok cur' /\
        bars e' = append_evict (config e) (bars e) cur'
  end.
Proof.
  unfold _finalize_current_bar. intros H.
  destruct (current_bar e) as [cur |] eqn:E.
  - inv_bind H. injection H as <-. cbn [current_bar config _total_ticks_processed bars].
    repeat split. exists a. split; [exact Ha | reflexivity].
  - injection H as <-. rewrite E. repeat split; reflexivity.
Qed.

Lemma finalize_current_bar_once_witness :
  exists e',
    _finalize_current_bar (engine_after example_config tick_data_1min) = Ok e' /\
    current_bar e' = None /\
    _finalize_current_bar e' = Ok e'.
Proof.
  pose (e' := match _finalize_current_bar
                      (engine_after example_config tick_data_1min) with
              | Ok x => x
              | Err _ => FootprintEngine_init example_config
              end).
  assert (H : _finalize_current_bar (engine_after example_config tick_data_1min)
              = Ok e') by (vm_compute; reflexivity).
  destruct (finalize_current_bar_once _ e' H) as (Hnone & _ & _ & Hagain & _).
  exists e'. split; [exact H |]. split; [exact Hnone | exact Hagain].
Defined.

(** ** A history bound that is not positive *)

(** X12: with max_bars_in_memory <= 0 the history of a new engine stays
    empty whatever is processed: every bar appended to it is evicted at
    once. *)
Theorem no_history_without_room (cfg : FootprintEngineConfig) (ops : list op)
    (e : FootprintEngine) :
  max_bars_in_memory cfg <= 0 ->
  run (FootprintEngine_init cfg) ops = Ok e ->
  bars e = [].
Proof.
  intros HM H.
  assert (Hinit : history_of cfg [] (FootprintEngine_init cfg))
    by (split; reflexivity).
  destruct (run_history _ _ _ _ _ Hinit H) as [_ Hbars].
  rewrite Hbars. unfold last_n.
  replace (Z.to_nat (max_bars_in_memory cfg)) with 0%nat by lia.
  rewrite Nat.sub_0_r. apply skipn_all.
Qed.

Lemma no_history_without_room_witness :
  exists e,
    run (FootprintEngine_init no_history_config)
      [OpBatch tick_data_1min; OpFinalize] = Ok e /\
    bars e = [] /\
    List.length (run_appends (FootprintEngine_init no_history_config)
                   [OpBatch tick_data_1min; OpFinalize]) = 4%nat.
Proof.
  pose (e := match run (FootprintEngine_init no_history_config)
                     [OpBatch tick_data_1min; OpFinalize] with
             | Ok x => x
             | Err _ => FootprintEngine_init no_history_config
             end).
  assert (H : run (FootprintEngine_init no_history_config)
                [OpBatch tick_data_1min; OpFinalize] = Ok e)
    by (vm_compute; reflexivity).
  exists e. split; [exact H |]. split.
  - apply (no_history_without_room no_history_config
             [OpBatch tick_data_1min; OpFinalize] e); [simpl; lia | exact H].
  - vm_compute. reflexivity.
Defined.

(** ** Calling [update_bar_statistics] again *)

Lemma update_bar_statistics_idem (b b' : FootprintBar) (p : Q) :
  update_bar_statistics b p = Ok b' -> update_bar_statistics b' p = Ok b'.
Proof.
  intros H.
  destruct b as [st et o h l c levels tv tav tbv tt bd poc vah val up tc cav
                   dir ext].
  unfold update_bar_statistics in *.
  cbn [price_levels open_price close_price total_bar_volume
       total_bar_ask_volume total_bar_bid_volume total_bar_trades bar_delta
       poc_price value_area_high value_area_low] in H.
  destruct levels as [| kv d].
  - injection H as <-. reflexivity.
  - change (Py.max_by total_volume (Dict.values (kv :: d)))
      with (Some (Py.max_from total_volume (snd kv) (Dict.values d))) in *.
    cbv iota in H. inv_bind H. injection H as <-.
    cbn [with_statistics price_levels open_price close_price poc_price
         value_area_high value_area_low].
    change (Py.max_by total_volume (Dict.values (kv :: d)))
      with (Some (Py.max_from total_volume (snd kv) (Dict.values d))).
    cbv iota.
    destruct (Py.sum total_volume (Dict.values (kv :: d)) >? 0).
    + rewrite Ha. reflexivity.
    + injection Ha as <-. reflexivity.
Qed.

(** X13: calling [update_bar_statistics] a second time changes nothing:
    the bar it returns is its own result.  The call touches the summary
    fields only: is_up_bar becomes close_price >= open_price, and the
    times, the four prices, the price levels and the aggregation counters
    are those of the bar it was given. *)
Theorem update_bar_statistics_again (b b' : FootprintBar) (p : Q) :
  update_bar_statistics b p = Ok b' ->
  update_bar_statistics b' p = Ok b' /\
  is_up_bar b' = Qle_bool (open_price b) (close_price b) /\
  start_time b' = start_time b /\
  end_time b' = end_time b /\
  open_price b' = open_price b /\
  high_price b' = high_price b /\
  low_price b' = low_price b /\
  close_price b' = close_price b /\
  price_levels b' = price_levels b /\
  tick_count b' = tick_count b /\
  current_aggregated_volume b' = current_aggregated_volume b /\
  bar_direction b' = bar_direction b /\
  extreme_price_during_formation b' = extreme_price_during_formation b.
Proof.
  intros H. split; [exact (update_bar_statistics_idem b b' p H) |].
  destruct b as [st et o h l c levels tv tav tbv tt bd poc vah val up tc cav
                   dir ext].
  unfold update_bar_statistics in H. cbn [price_levels] in H.
  destruct levels as [| kv d].
  - injection H as <-. repeat split; reflexivity.
  - inv_bind H. injection H as <-. repeat split; reflexivity.
Qed.

Lemma update_bar_statistics_again_witness :
  exists b',
    update_bar_statistics example_bar (7 # 10) = Ok b' /\
    update_bar_statistics b' (7 # 10) = Ok b' /\
    is_up_bar b' = Qle_bool (open_price example_bar) (close_price example_bar) /\
    price_levels b' = price_levels example_bar /\
    tick_count b' = tick_count example_bar.
Proof.
  pose (b' := match update_bar_statistics example_bar (7 # 10) with
              | Ok x => x
              | Err _ => example_bar
              end).
  assert (H : update_bar_statistics example_bar (7 # 10) = Ok b')
    by (vm_compute; reflexivity).
  clearbody b'. exists b'. split; [exact H |].
  destruct (update_bar_statistics_again example_bar b' (7 # 10) H)
    as (H1 & H2 & _ & _ & _ & _ & _ & _ & H3 & H4 & _).
  split; [exact H1 |]. split; [exact H2 |]. split; [exact H3 | exact H4].
Defined.

(** ** A bar whose volume is not positive *)

Lemma bar_of_level_volume (cfg : FootprintEngineConfig) (ticks : list Tick.t)
    (b : FootprintBar) :
  bar_of cfg ticks b ->
  Py.sum total_volume (Dict.values (price_levels b)) = volumes ticks.
Proof.
  intros Hof.
  destruct (bar_of_levels cfg ticks b Hof) as (_ & [_ Hwf] & _).
  destruct (bar_level_sums cfg ticks b Hof) as (Hbv & Hav & _).
  assert (Hcons : Forall consistent (Dict.values (price_levels b))).
  { unfold Dict.values. rewrite Forall_map.
    eapply Forall_impl; [| exact Hwf]. intros kv [_ Hc]. exact Hc. }
  destruct (consistent_sums _ Hcons) as [Hsv _].
  destruct (sides_partition ticks) as [Pv _].
  rewrite Py_sum_zsum. lia.
Qed.

(** X14: a bar built from ticks whose volumes sum to zero or less gets
    no Value Area.  [update_bar_statistics] returns, it sets the
    Point of Control and the totals, and it leaves value_area_high and
    value_area_low as they were before the call ([None] on a bar whose
    statistics were never computed with a positive volume). *)
Theorem value_area_needs_volume (cfg : FootprintEngineConfig)
    (ticks : list Tick.t) (b : FootprintBar) (p : Q) :
  bar_of cfg ticks b ->
  volumes ticks <= 0 ->
  exists b' l,
    update_bar_statistics b p = Ok b' /\
    value_area_high b' = value_area_high b /\
    value_area_low b' = value_area_low b /\
    In l (Dict.values (price_levels b)) /\
    poc_price b' = Some (price l) /\
    total_bar_volume b' = volumes ticks.
Proof.
  intros Hof Hvol.
  pose proof (bar_of_level_volume cfg ticks b Hof) as Hsum.
  destruct (bar_of_levels cfg ticks b Hof) as (Hne & _).
  unfold update_bar_statistics.
  destruct (price_levels b) as [| kv d] eqn:E; [contradiction |].
  rewrite Hsum.
  change (Py.max_by total_volume (Dict.values (kv :: d)))
    with (Some (Py.max_from total_volume (snd kv) (Dict.values d))).
  cbv iota beta.
  assert (Hle : (volumes ticks >? 0) = false).
  { destruct (volumes ticks >? 0) eqn:G; [| reflexivity].
    apply Z.gtb_lt in G. lia. }
  rewrite Hle. cbn [bind fst snd].
  eexists. exists (Py.max_from total_volume (snd kv) (Dict.values d)).
  split; [reflexivity |].
  cbn [with_statistics value_area_high value_area_low poc_price total_bar_volume].
  split; [reflexivity |]. split; [reflexivity |].
  split; [| split; reflexivity].
  destruct (max_from_first_maximal total_volume (Dict.values d) (snd kv))
    as (before & after & Heq & _).
  change (Dict.values (kv :: d)) with (snd kv :: Dict.values d).
  rewrite Heq. apply in_or_app. right. left. reflexivity.
Qed.

Lemma value_area_needs_volume_witness :
  exists b b' l,
    bar_of example_config [Tick.mk example_start 100 0 false] b /\
    update_bar_statistics b (7 # 10) = Ok b' /\
    value_area_high b' = value_area_high b /\
    value_area_low b' = value_area_low b /\
    In l (Dict.values (price_levels b)) /\
    poc_price b' = Some (price l) /\
    total_bar_volume b' = 0.
Proof.
  assert (Hof : exists b,
             bar_of example_config [Tick.mk example_start 100 0 false] b).
  { eexists. eapply bar_of_first; vm_compute; reflexivity. }
  destruct Hof as [b Hof].
  destruct (value_area_needs_volume example_config
              [Tick.mk example_start 100 0 false] b (7 # 10) Hof)
    as (b' & l & H).
  - vm_compute. discriminate.
  - exists b, b', l. split; [exact Hof | exact H].
Defined.

(** ** A value area percentage of one or more *)

Lemma zsum_filter_le {A : Type} (f : A -> Z) (g : A -> bool) (l : list A) :
  Forall (fun x => 0 < f x) l ->
  zsum (map f (filter g l)) <= zsum (map f l) /\
  (zsum (map f (filter g l)) = zsum (map f l) -> Forall (fun x => g x = true) l).
Proof.
  induction 1 as [| x l Hx Hl [IH1 IH2]]; [split; [reflexivity | constructor] |].
  cbn [filter map]. destruct (g x) eqn:E; cbn [map]; rewrite ?zsum_cons.
  - split; [lia |]. intros H. constructor; [exact E | apply IH2; lia].
  - split; [lia |]. intros H. lia.
Qed.

(** The float target is the whole volume or more when the percentage
    is 1 or more and the volume is an integer a double holds exactly. *)
Lemma target_covers_total (total : Z) (p : Q) :
  0 <= total <= 2 ^ 53 ->
  (1 <= p)%Q ->
  (inject_Z total <= target_va_volume total p)%Q.
Proof.
  intros Ht Hp. unfold target_va_volume, Py.fmul, Py.float.
  assert (Hfl : (Py.fl (inject_Z total) == inject_Z total)%Q)
    by (apply fl_Z; lia).
  assert (Hp1 : (1 <= Py.fl p)%Q).
  { assert (H1 : (Py.fl (inject_Z 1) == inject_Z 1)%Q) by (apply fl_Z; lia).
    change (inject_Z 1) with 1%Q in H1. rewrite <- H1. apply fl_mono. exact Hp. }
  rewrite <- Hfl at 1. apply fl_mono. rewrite Hfl.
  assert (H0 : (0 <= inject_Z total)%Q).
  { change 0%Q with (inject_Z 0). rewrite <- Zle_Qle. lia. }
  nra.
Qed.

Lemma value_area_covers_all (b b' : FootprintBar) (p : Q) :
  levels_ok (price_levels b) ->
  price_levels b <> [] ->
  update_bar_statistics b p = Ok b' ->
  (inject_Z (total_bar_volume b')
   <= target_va_volume (total_bar_volume b') p)%Q ->
  exists lo hi,
    value_area_low b' = Some lo /\
    value_area_high b' = Some hi /\
    In lo (Dict.keys (price_levels b)) /\
    In hi (Dict.keys (price_levels b)) /\
    Forall (fun k => (lo <= k)%Q /\ (k <= hi)%Q) (Dict.keys (price_levels b)) /\
    volume_between b' lo hi = total_bar_volume b'.
Proof.
  intros Hok Hne Hstats Hp.
  destruct (value_area_of_levels b p Hok Hne)
    as (b'' & lo & hi & poc & Hrun & Hlv & Hlo & Hhi & _ & _ & _ & Hinlo & Hinhi & Hvol).
  rewrite Hstats in Hrun. injection Hrun as <-.
  destruct (update_bar_statistics_totals b b' p Hne Hstats) as (Htv & _).
  assert (Hpos : Forall (fun l => 0 < total_volume l) (Dict.values (price_levels b))).
  { unfold Dict.values. rewrite Forall_map.
    eapply Forall_impl; [| exact (proj2 Hok)]. intros kv (_ & _ & H). exact H. }
  destruct (zsum_filter_le total_volume (fun l => in_range lo hi (price l))
              (Dict.values (price_levels b)) Hpos) as [Hle Hall].
  assert (Hvb : volume_between b' lo hi
                = zsum (map total_volume
                          (filter (fun l => in_range lo hi (price l))
                             (Dict.values (price_levels b))))).
  { unfold volume_between. rewrite Hlv, Py_sum_zsum. reflexivity. }
  assert (Heq : volume_between b' lo hi = total_bar_volume b').
  { destruct Hvol as [Hreach | Heq]; [| exact Heq].
    assert (H0 : 0 < total_bar_volume b').
    { rewrite Htv. apply zsum_positive.
      - rewrite Forall_map. exact Hpos.
      - unfold Dict.values. destruct (price_levels b); [contradiction | discriminate]. }
    assert (H1 : (inject_Z (total_bar_volume b')
                  <= inject_Z (volume_between b' lo hi))%Q)
      by (eapply Qle_trans; eassumption).
    rewrite <- Zle_Qle in H1. lia. }
  exists lo, hi. split; [exact Hlo |]. split; [exact Hhi |].
  split; [exact Hinlo |]. split; [exact Hinhi |]. split; [| exact Heq].
  assert (Hval : Forall (fun l => in_range lo hi (price l) = true)
                   (Dict.values (price_levels b))).
  { apply Hall. rewrite <- Hvb, Heq, Htv. reflexivity. }
  unfold Dict.values, Dict.keys in *. rewrite Forall_map in Hval.
  rewrite Forall_map. rewrite Forall_forall in *.
  intros kv Hin. specialize (Hval kv Hin). destruct Hok as [_ Hall'].
  rewrite Forall_forall in Hall'. destruct (Hall' kv Hin) as (Hprice & _).
  rewrite Hprice in Hval. unfold in_range in Hval.
  apply andb_prop in Hval. destruct Hval as [H1 H2].
  apply Qle_bool_iff in H1, H2. split; assumption.
Qed.

Lemma get_in_range {V : Type} (d : Dict.t V) (lo hi r : Q) (v : V) :
  Forall (fun k => (lo <= k)%Q /\ (k <= hi)%Q) (Dict.keys d) ->
  Dict.get d r = Some v ->
  (lo <= r)%Q /\ (r <= hi)%Q.
Proof.
  unfold Dict.keys. induction d as [| [k v'] d IH]; [discriminate |].
  cbn [Dict.get map fst]. intros Hall.
  pose proof (Forall_inv Hall) as Hk. apply Forall_inv_tail in Hall.
  cbv beta in Hk. destruct (Qeq_bool k r) eqn:E.
  - intros _. apply Qeq_bool_iff in E. rewrite <- E. exact Hk.
  - intros G. apply IH; assumption.
Qed.

(** X15: with a value_area_percentage of 1 or more and a total volume of
    at most 2^53 (so that the float product of line 148 is not below the
    volume) the Value Area of a bar built from ticks of positive volume
    is the whole bar: every price level lies between value_area_low and
    value_area_high, which are the bar's low_price and high_price, and
    the levels in it sum to total_bar_volume. *)
Theorem value_area_full_percentage (cfg : FootprintEngineConfig)
    (b b' : FootprintBar) (p : Q) :
  built_from_positive_ticks cfg b ->
  (1 <= p)%Q ->
  update_bar_statistics b p = Ok b' ->
  total_bar_volume b' <= 2 ^ 53 ->
  exists lo hi,
    value_area_low b' = Some lo /\
    value_area_high b' = Some hi /\
    (lo == low_price b')%Q /\ (hi == high_price b')%Q /\
    Forall (fun k => (lo <= k)%Q /\ (k <= hi)%Q) (Dict.keys (price_levels b')) /\
    volume_between b' lo hi = total_bar_volume b'.
Proof.
  intros (ticks & Hof & Hpos) Hp Hstats Hsmall.
  destruct (bar_of_levels_ok cfg ticks b Hof Hpos) as [Hok Hne].
  assert (Htarget : (inject_Z (total_bar_volume b')
                     <= target_va_volume (total_bar_volume b') p)%Q).
  { apply target_covers_total; [| exact Hp]. split; [| exact Hsmall].
    rewrite (proj1 (update_bar_statistics_totals b b' p Hne Hstats)).
    apply Z.lt_le_incl, zsum_positive.
    - unfold Dict.values. rewrite map_map, Forall_map.
      eapply Forall_impl; [| exact (proj2 Hok)]. intros kv (_ & _ & H). exact H.
    - unfold Dict.values. destruct (price_levels b); [contradiction | discriminate]. }
  destruct (value_area_covers_all b b' p Hok Hne Hstats Htarget)
    as (lo & hi & Hlo & Hhi & Hinlo & Hinhi & Hall & Hvol).
  pose proof (update_bar_statistics_levels b b' p Hstats) as Hlv.
  pose proof (bar_of_stats cfg ticks b b' p Hof Hstats) as Hof'.
  destruct (bar_of_levels cfg ticks b' Hof') as (_ & _ & Hmem & Hkeys).
  destruct (bar_prices cfg ticks b' Hof') as (_ & _ & Hbound & Hhigh & Hlow).
  rewrite <- Hlv in Hall, Hinlo, Hinhi.
  assert (Hkey : forall t r, In t ticks -> rounded cfg (Tick.price t) = Ok r ->
                   (lo <= r)%Q /\ (r <= hi)%Q).
  { intros t r Hin Hr. specialize (Hmem t r Hin Hr).
    unfold Dict.mem in Hmem.
    destruct (Dict.get (price_levels b') r) as [l |] eqn:G; [| discriminate].
    exact (get_in_range _ lo hi r l Hall G). }
  exists lo, hi. split; [exact Hlo |]. split; [exact Hhi |].
  split; [| split; [| split; [exact Hall | exact Hvol]]].
  - destruct Hlow as (t & Hin & Hr). destruct (Hkey t _ Hin Hr) as [H1 _].
    destruct (Hkeys lo Hinlo) as (t' & Hin' & Hr').
    destruct (Hbound t' Hin') as (r & Hr'' & H2 & _).
    rewrite Hr' in Hr''. injection Hr'' as <-. lra.
  - destruct Hhigh as (t & Hin & Hr). destruct (Hkey t _ Hin Hr) as [_ H1].
    destruct (Hkeys hi Hinhi) as (t' & Hin' & Hr').
    destruct (Hbound t' Hin') as (r & Hr'' & _ & H2).
    rewrite Hr' in Hr''. injection Hr'' as <-. lra.
Qed.

Lemma value_area_full_percentage_witness :
  exists b' lo hi,
    update_bar_statistics example_bar 1 = Ok b' /\
    value_area_low b' = Some lo /\
    value_area_high b' = Some hi /\
    (lo == low_price b')%Q /\ (hi == high_price b')%Q /\
    Forall (fun k => (lo <= k)%Q /\ (k <= hi)%Q) (Dict.keys (price_levels b')) /\
    volume_between b' lo hi = total_bar_volume b'.
Proof.
  pose (b' := match update_bar_statistics example_bar 1 with
              | Ok x => x
              | Err _ => example_bar
              end).
  assert (H : update_bar_statistics example_bar 1 = Ok b')
    by (vm_compute; reflexivity).
  assert (Hpos : built_from_positive_ticks example_config example_bar).
  { exists (firstn 3 tick_data_1min). split; [exact example_bar_built |].
    repeat constructor. }
  assert (Hp : (1 <= 1)%Q) by (vm_compute; discriminate).
  assert (Hsmall : total_bar_volume b' <= 2 ^ 53)
    by (vm_compute; discriminate).
  clearbody b'.
  destruct (value_area_full_percentage example_config example_bar b' 1 Hpos Hp H
              Hsmall)
    as (lo & hi & Hrest).
  exists b', lo, hi. split; [exact H | exact Hrest].
Defined.

(** ** A Point of Control that reaches the target alone *)

Lemma distinct_Qeq (l : list Q) (x y : Q) :
  distinct l -> In x l -> In y l -> (x == y)%Q -> x = y.
Proof.
  induction l as [| a l IH]; [contradiction |].
  cbn [distinct In]. intros [Ha Hd] [<- | Hx] [<- | Hy] Heq.
  - reflexivity.
  - rewrite Forall_forall in Ha. exfalso. exact (Ha y Hy Heq).
  - rewrite Forall_forall in Ha. exfalso. apply (Ha x Hx). symmetry. exact Heq.
  - apply IH; assumption.
Qed.

Lemma target_not_positive (total : Z) (p : Q) :
  0 <= total -> (p <= 0)%Q -> (target_va_volume total p <= 0)%Q.
Proof.
  intros Ht Hp. unfold target_va_volume, Py.fmul, Py.float.
  assert (H0 : (0 <= Py.fl (inject_Z total))%Q).
  { destruct (proj1 (Z.lt_eq_cases 0 total) Ht) as [H | <-].
    - apply Qlt_le_weak, (proj1 (proj2 (fl_sign _))).
      change 0%Q with (inject_Z 0). rewrite <- Zlt_Qlt. exact H.
    - apply Qle_refl. }
  assert (H1 : (Py.fl p <= 0)%Q).
  { destruct (Qlt_le_dec p 0) as [H | H].
    - apply Qlt_le_weak, (proj2 (proj2 (fl_sign _))). exact H.
    - rewrite (proj1 (fl_sign p)); [apply Qle_refl |].
      apply Qle_antisym; assumption. }
  set (x := Py.fl (inject_Z total)) in *. set (y := Py.fl p) in *.
  destruct (Qlt_le_dec (x * y) 0) as [H | H].
  - apply Qlt_le_weak, (proj2 (proj2 (fl_sign _))). exact H.
  - rewrite (proj1 (fl_sign (x * y))); [apply Qle_refl |].
    apply Qle_antisym; [nra | exact H].
Qed.

Lemma value_area_of_poc (b b' : FootprintBar) (p : Q) :
  levels_ok (price_levels b) ->
  price_levels b <> [] ->
  update_bar_statistics b p = Ok b' ->
  exists l,
    In l (Dict.values (price_levels b)) /\
    poc_price b' = Some (price l) /\
    ((target_va_volume (total_bar_volume b') p <= inject_Z (total_volume l))%Q ->
     value_area_low b' = Some (price l) /\
     value_area_high b' = Some (price l)).
Proof.
  intros Hok Hne H. unfold update_bar_statistics in H.
  set (D := price_levels b) in *.
  destruct D as [| kv d0] eqn:ED; [contradiction |].
  rewrite <- ED in *. clear Hne.
  set (levels := Dict.values D) in *.
  set (total := Py.sum total_volume levels) in *.
  assert (Hmax : exists lv, Py.max_by total_volume levels = Some lv /\ In lv levels).
  { subst levels. rewrite ED. unfold Dict.values. cbn [map Py.max_by].
    eexists; split; [reflexivity |].
    destruct (max_from_first_maximal total_volume (map snd d0) (snd kv))
      as (before & after & Heq & _).
    rewrite Heq. apply in_or_app. right. left. reflexivity. }
  destruct Hmax as (lv & Hmax & Hlv). rewrite Hmax in H.
  exists lv. split; [exact Hlv |].
  assert (Hpoc : In (price lv) (Dict.keys D)).
  { subst levels. unfold Dict.values, Dict.keys in *.
    apply in_map_iff in Hlv. destruct Hlv as (kv' & <- & Hin).
    destruct Hok as [_ Hall]. rewrite Forall_forall in Hall.
    destruct (Hall kv' Hin) as (-> & _). apply in_map. exact Hin. }
  assert (Htotal : 0 < total).
  { subst total. rewrite Py_sum_zsum. apply zsum_positive.
    - subst levels. destruct Hok as [_ Hall]. unfold Dict.values.
      rewrite map_map. rewrite Forall_map.
      eapply Forall_impl; [| exact Hall]. intros a (_ & _ & Ha). exact Ha.
    - subst levels. rewrite ED. discriminate. }
  assert (Hgt : (total >? 0) = true) by (apply Z.gtb_lt; exact Htotal).
  rewrite Hgt in H.
  destruct (sorted_spec (Dict.keys D) (proj1 Hok)) as [Hsorted Hperm].
  set (sorted_prices := Py.sorted (Dict.keys D)) in *.
  assert (Hex : Exists (fun y => (y == price lv)%Q) sorted_prices).
  { apply Exists_exists. exists (price lv).
    split; [| reflexivity].
    apply (Permutation_in _ (Permutation_sym Hperm)). exact Hpoc. }
  destruct (index_from_spec (price lv) sorted_prices 0 Hex)
    as (pre & x & post & Hsplit & Hx & Hidx).
  rewrite Z.add_0_l in Hidx. unfold Py.index in H. rewrite Hidx in H.
  cbn [bind] in H.
  destruct (levels_ok_filed D (price lv) Hok Hpoc) as (l0 & Hget0 & Hpos0 & Hp0).
  unfold Dict.getitem at 1 in H. rewrite Hget0 in H. cbn [bind] in H.
  assert (Hl0 : l0 = lv).
  { subst levels. unfold Dict.values in Hlv. apply in_map_iff in Hlv.
    destruct Hlv as ([k l] & Hl & Hin). cbn [snd] in Hl. subst l.
    destruct Hok as [Hd Hall]. rewrite Forall_forall in Hall.
    destruct (Hall _ Hin) as (Hk & _). cbn [fst snd] in Hk. subst k.
    rewrite (Dict_get_In D (price lv) lv Hd Hin) in Hget0.
    injection Hget0 as <-. reflexivity. }
  subst l0.
  assert (Hxeq : x = price lv).
  { apply (distinct_Qeq (Dict.keys D)); [exact (proj1 Hok) | | exact Hpoc | exact Hx].
    apply (Permutation_in _ Hperm). rewrite Hsplit.
    apply in_or_app. right. left. reflexivity. }
  subst x.
  split.
  - inv_bind H. injection H as <-. reflexivity.
  - intros Hreach.
    replace (total_bar_volume b') with total in Hreach
      by (inv_bind H; injection H as <-; reflexivity).
    apply Qle_bool_iff in Hreach.
    cbn [va_loop] in H. rewrite Hreach in H. cbn [bind fst snd] in H.
    rewrite Hsplit, getitem_middle in H. cbn [bind] in H.
    injection H as <-. split; reflexivity.
Qed.

(** X16: when the volume of the level at the Point of Control reaches
    the target, the float product total_bar_volume * value_area_percentage
    of domain.py:148, and whenever the percentage is zero or less, the
    Value Area of a bar built from ticks of positive volume is that one
    price: value_area_low = value_area_high = poc_price. *)
Theorem value_area_is_poc (cfg : FootprintEngineConfig)
    (b b' : FootprintBar) (p poc : Q) (l : PriceLevelData) :
  built_from_positive_ticks cfg b ->
  update_bar_statistics b p = Ok b' ->
  poc_price b' = Some poc ->
  Dict.get (price_levels b') poc = Some l ->
  (target_va_volume (total_bar_volume b') p <= inject_Z (total_volume l))%Q \/
  (p <= 0)%Q ->
  value_area_low b' = Some poc /\ value_area_high b' = Some poc.
Proof.
  intros (ticks & Hof & Hpos) Hstats Hpoc Hget Hreach.
  destruct (bar_of_levels_ok cfg ticks b Hof Hpos) as [Hok Hne].
  destruct (value_area_of_poc b b' p Hok Hne Hstats) as (l0 & Hin & Hpoc0 & Hva).
  rewrite Hpoc in Hpoc0. injection Hpoc0 as ->.
  rewrite (update_bar_statistics_levels b b' p Hstats) in Hget.
  assert (Hl : l = l0).
  { unfold Dict.values in Hin. apply in_map_iff in Hin.
    destruct Hin as ([k l1] & Hl1 & Hin). cbn [snd] in Hl1. subst l1.
    destruct Hok as [Hd Hall]. rewrite Forall_forall in Hall.
    destruct (Hall _ Hin) as (Hk & _). cbn [fst snd] in Hk. subst k.
    rewrite (Dict_get_In _ _ _ Hd Hin) in Hget. injection Hget as <-.
    reflexivity. }
  subst l0. apply Hva. destruct Hreach as [Hreach | Hp]; [exact Hreach |].
  assert (H0 : 0 < total_volume l).
  { destruct Hok as [_ Hall]. unfold Dict.values in Hin.
    apply in_map_iff in Hin. destruct Hin as (kv & <- & Hin).
    rewrite Forall_forall in Hall. destruct (Hall kv Hin) as (_ & _ & H). exact H. }
  assert (H1 : 0 <= total_bar_volume b').
  { rewrite (proj1 (update_bar_statistics_totals b b' p Hne Hstats)).
    rewrite <- Py_sum_zsum, (bar_of_level_volume cfg ticks b Hof).
    clear - Hpos. unfold volumes. induction Hpos as [| t ticks Ht _ IH];
      [simpl; lia | cbn [map]; rewrite zsum_cons; lia]. }
  assert (H0' : (0 < inject_Z (total_volume l))%Q).
  { change 0%Q with (inject_Z 0). rewrite <- Zlt_Qlt. exact H0. }
  apply Qle_trans with 0%Q; [| apply Qlt_le_weak; exact H0'].
  apply target_not_positive; assumption.
Qed.

Lemma value_area_is_poc_witness :
  exists b' poc,
    update_bar_statistics example_bar (7 # 10) = Ok b' /\
    poc_price b' = Some poc /\
    value_area_low b' = Some poc /\
    value_area_high b' = Some poc.
Proof.
  pose (b' := match update_bar_statistics example_bar (7 # 10) with
              | Ok x => x
              | Err _ => example_bar
              end).
  pose (poc := match poc_price b' with Some x => x | None => 0%Q end).
  pose (l := match Dict.get (price_levels b') poc with
             | Some x => x
             | None => PriceLevelData_init 0 0 0 0 0
             end).
  assert (H : update_bar_statistics example_bar (7 # 10) = Ok b')
    by (vm_compute; reflexivity).
  assert (Hpoc : poc_price b' = Some poc) by (vm_compute; reflexivity).
  assert (Hget : Dict.get (price_levels b') poc = Some l)
    by (vm_compute; reflexivity).
  assert (Hreach : (target_va_volume (total_bar_volume b') (7 # 10)
                    <= inject_Z (total_volume l))%Q)
    by (vm_compute; discriminate).
  clearbody l. clearbody poc. clearbody b'.
  assert (Hpos : built_from_positive_ticks example_config example_bar).
  { exists (firstn 3 tick_data_1min). split; [exact example_bar_built |].
    repeat constructor. }
  exists b', poc. split; [exact H |]. split; [exact Hpoc |].
  exact (value_area_is_poc example_config example_bar b' (7 # 10) poc l
           Hpos H Hpoc Hget (or_introl Hreach)).
Defined.

(** ** The dominance ratio of a traded level *)




(** ** Rounding a price to the tick size *)

Lemma round_bounds (x : Q) :
  (inject_Z (Py.round x) - (1 # 2) <= x)%Q /\
  (x <= inject_Z (Py.round x) + (1 # 2))%Q.
Proof.
  destruct (floor_bounds_Q x) as [H1 H2].
  destruct (round_cases x) as [[-> H] | [[-> H] | [-> H]]].
  - split; lra.
  - rewrite inject_Z_plus. change (inject_Z 1) with 1%Q. split; lra.
  - destruct (Z.even (Qfloor x)).
    + split; lra.
    + rewrite inject_Z_plus. change (inject_Z 1) with 1%Q. split; lra.
Qed.

Lemma round_half (m : Z) (x : Q) :
  (x == inject_Z m + (1 # 2))%Q ->
  Py.round x = if Z.even m then m else m + 1.
Proof.
  intros Hx.
  assert (Hf : Qfloor x = m).
  { destruct (floor_bounds_Q x) as [H1 H2].
    assert (Hlo : (inject_Z m < inject_Z (Qfloor x) + 1)%Q) by lra.
    assert (Hhi : (inject_Z (Qfloor x) < inject_Z m + 1)%Q) by lra.
    change 1%Q with (inject_Z 1) in Hlo, Hhi.
    rewrite <- inject_Z_plus in Hlo, Hhi.
    rewrite <- Zlt_Qlt in Hlo, Hhi. lia. }
  destruct (round_cases x) as [[-> H] | [[-> H] | [-> H]]];
    rewrite Hf in *; [lra | lra | reflexivity].
Qed.

Lemma rounded_eq (cfg : FootprintEngineConfig) (p : Q) :
  ~ (tick_size cfg == 0)%Q ->
  rounded cfg p
  = Ok (Py.fmul
          (Py.float (Py.round (Py.fl (Py.fl p / Py.fl (tick_size cfg)))))
          (Py.fl (tick_size cfg))).
Proof.
  intros Hnz. unfold rounded, Py.truediv. cbv zeta. rewrite fl_zero_test.
  destruct (Qeq_bool (tick_size cfg) 0) eqn:E; [| reflexivity].
  apply Qeq_bool_iff in E. contradiction.
Qed.

Lemma scale_bounds (q ts p n : Q) :
  (0 < ts)%Q -> (q * ts == p)%Q ->
  (n - (1 # 2) <= q)%Q -> (q <= n + (1 # 2))%Q ->
  (n * ts - ts / 2 <= p)%Q /\ (p <= n * ts + ts / 2)%Q.
Proof.
  intros Hts Hq Hlo Hhi.
  assert (A : (0 <= (q - (n - (1 # 2))) * ts)%Q)
    by (apply Qmult_le_0_compat; lra).
  assert (B : (0 <= (n + (1 # 2) - q) * ts)%Q)
    by (apply Qmult_le_0_compat; lra).
  assert (H2 : (ts / 2 == ts * (1 # 2))%Q) by (unfold Qdiv; reflexivity).
  rewrite H2. split; lra.
Qed.

Lemma rounded_mono (cfg : FootprintEngineConfig) (p p2 r r2 : Q) :
  (0 < tick_size cfg)%Q -> (p <= p2)%Q ->
  rounded cfg p = Ok r -> rounded cfg p2 = Ok r2 -> (r <= r2)%Q.
Proof.
  intros Hts Hle H1 H2.
  assert (Hnz : ~ (tick_size cfg == 0)%Q) by (intros H; lra).
  rewrite rounded_eq in H1, H2 by exact Hnz.
  injection H1 as <-. injection H2 as <-.
  pose proof (proj1 (proj2 (fl_sign _)) Hts) as Hfts.
  set (ts := Py.fl (tick_size cfg)) in *.
  unfold Py.fmul, Py.float. apply fl_mono.
  apply Qmult_le_compat_r; [| lra].
  apply fl_mono. rewrite <- Zle_Qle. apply round_mono, fl_mono.
  unfold Qdiv. apply Qmult_le_compat_r; [apply fl_mono; exact Hle |].
  apply Qlt_le_weak, Qinv_lt_0_compat. exact Hfts.
Qed.

Lemma two_double (k : Z) : (Py.fl (2 ^ k) == 2 ^ k)%Q.
Proof.
  assert (H : (2 ^ k == inject_Z 1 * 2 ^ k)%Q)
    by (change (inject_Z 1) with 1%Q; rewrite Qmult_1_l; reflexivity).
  eapply Qeq_trans; [apply fl_comp, H |].
  eapply Qeq_trans; [apply fl_exact; lia | symmetry; exact H].
Qed.

Lemma two_minus (a b : Z) : (2 ^ a / 2 ^ b == 2 ^ (a - b))%Q.
Proof.
  assert (Hnz : ~ (2 ^ b == 0)%Q).
  { intros H. pose proof (two_pos b) as Hb. rewrite H in Hb.
    exact (Qlt_irrefl 0 Hb). }
  apply (proj1 (Qmult_inj_r _ _ (2 ^ b)%Q Hnz)).
  rewrite <- two_plus. replace (a - b + b) with a by lia.
  rewrite Qmult_comm. apply Qmult_div_r. exact Hnz.
Qed.

(** The quotient of a double by a power of two is a double, and so are
    the nearest whole number and its product with the power of two. *)
Lemma count_of_double (x : Q) (k : Z) :
  exists m e : Z,
    - 2 ^ 53 <= m <= 2 ^ 53 /\
    (inject_Z (Py.round (Py.fl x / 2 ^ k)) == inject_Z m * 2 ^ e)%Q.
Proof.
  destruct (fl_form x) as (m & e & Hm & Hx).
  assert (Hq : (Py.fl x / 2 ^ k == inject_Z m * 2 ^ (e - k))%Q).
  { rewrite Hx. unfold Qdiv. rewrite <- Qmult_assoc.
    apply Qmult_comp; [reflexivity |]. apply two_minus. }
  destruct (Z_le_gt_dec 0 (e - k)) as [Hge | Hlt].
  - exists m, (e - k). split; [exact Hm |].
    rewrite (round_comp _ (inject_Z (m * 2 ^ (e - k)))).
    + rewrite round_Z, inject_Z_mult, two_inject by exact Hge. reflexivity.
    + rewrite Hq, inject_Z_mult, two_inject by exact Hge. reflexivity.
  - exists (Py.round (Py.fl x / 2 ^ k)), 0. split.
    + assert (Hhalf : (2 ^ (e - k) <= 1)%Q).
      { change 1%Q with (2 ^ 0)%Q. apply two_le. lia. }
      pose proof (two_pos (e - k)) as Hpos.
      set (P := (2 ^ (e - k))%Q) in *.
      assert (Hm1 : (- inject_Z (2 ^ 53) <= inject_Z m)%Q).
      { rewrite <- inject_Z_opp, <- Zle_Qle. lia. }
      assert (Hm2 : (inject_Z m <= inject_Z (2 ^ 53))%Q).
      { rewrite <- Zle_Qle. lia. }
      assert (Hlo : (inject_Z (- 2 ^ 53) <= Py.fl x / 2 ^ k)%Q).
      { rewrite Hq, inject_Z_opp. nra. }
      assert (Hhi : (Py.fl x / 2 ^ k <= inject_Z (2 ^ 53))%Q).
      { rewrite Hq. nra. }
      apply round_mono in Hlo, Hhi. rewrite round_Z in Hlo, Hhi. lia.
    + change (2 ^ 0)%Q with 1%Q. rewrite Qmult_1_r. reflexivity.
Qed.

Lemma rounded_power_of_two (cfg : FootprintEngineConfig) (p : Q) (k : Z) :
  (tick_size cfg == 2 ^ k)%Q ->
  let n := Py.round (Py.fl (Py.fl p / Py.fl (tick_size cfg))) in
  n = Py.round (Py.fl p / tick_size cfg) /\
  (Py.float n == inject_Z n)%Q /\
  (Py.fmul (Py.float n) (Py.fl (tick_size cfg)) == inject_Z n * tick_size cfg)%Q.
Proof.
  intros Hk n.
  assert (Hts : (Py.fl (tick_size cfg) == 2 ^ k)%Q).
  { rewrite (fl_comp _ _ Hk). apply two_double. }
  destruct (fl_form p) as (m & e & Hm & Hp).
  assert (Hq : (Py.fl p / Py.fl (tick_size cfg) == inject_Z m * 2 ^ (e - k))%Q).
  { rewrite Hts, Hp. unfold Qdiv. rewrite <- Qmult_assoc.
    apply Qmult_comp; [reflexivity |]. apply two_minus. }
  assert (Hfq : (Py.fl (Py.fl p / Py.fl (tick_size cfg))
                 == Py.fl p / 2 ^ k)%Q).
  { rewrite (fl_comp _ _ Hq), fl_exact by exact Hm. rewrite <- Hq, Hts.
    reflexivity. }
  assert (Hn : n = Py.round (Py.fl p / 2 ^ k)).
  { subst n. apply round_comp. exact Hfq. }
  destruct (count_of_double p k) as (m' & e' & Hm' & Hc). rewrite <- Hn in Hc.
  assert (Hfn : (Py.float n == inject_Z n)%Q).
  { unfold Py.float. rewrite (fl_comp _ _ Hc), fl_exact by exact Hm'.
    symmetry. exact Hc. }
  split; [| split].
  - rewrite Hn. apply round_comp. rewrite Hk. reflexivity.
  - exact Hfn.
  - unfold Py.fmul.
    assert (Hprod : (Py.float n * Py.fl (tick_size cfg)
                     == inject_Z m' * 2 ^ (e' + k))%Q).
    { rewrite Hfn, Hts, Hc, two_plus. symmetry. apply Qmult_assoc. }
    rewrite (fl_comp _ _ Hprod), fl_exact by exact Hm'.
    rewrite two_plus, Qmult_assoc, <- Hc, Hk. reflexivity.
Qed.

(** X18: for a positive tick size, the price [process_tick] files a
    tick under is round(price / tick_size) * tick_size in double
    arithmetic, and it does not decrease when the price increases.
    When the tick size is a power of two (0.25 in the tests and the
    example), the division and the product are exact: the result is a
    whole number n of ticks, at most half a tick away from the price (the
    double nearest to it); a price halfway between two multiples goes to
    the even one, and a rounded price rounds to itself. *)
Theorem rounded_to_tick_size (cfg : FootprintEngineConfig) (p : Q) :
  (0 < tick_size cfg)%Q ->
  exists (n : Z) (r : Q),
    rounded cfg p = Ok r /\
    n = Py.round (Py.fl (Py.fl p / Py.fl (tick_size cfg))) /\
    r = Py.fmul (Py.float n) (Py.fl (tick_size cfg)) /\
    (forall p2 r2 : Q, (p <= p2)%Q -> rounded cfg p2 = Ok r2 -> (r <= r2)%Q) /\
    (forall k : Z, (tick_size cfg == 2 ^ k)%Q ->
       (r == inject_Z n * tick_size cfg)%Q /\
       (r - tick_size cfg / 2 <= Py.fl p)%Q /\
       (Py.fl p <= r + tick_size cfg / 2)%Q /\
       (forall m : Z, (Py.fl p == (inject_Z m + (1 # 2)) * tick_size cfg)%Q ->
          n = if Z.even m then m else m + 1) /\
       rounded cfg r = Ok r).
Proof.
  intros Hts.
  assert (Hnz : ~ (tick_size cfg == 0)%Q) by (intros H; lra).
  set (n := Py.round (Py.fl (Py.fl p / Py.fl (tick_size cfg)))).
  exists n, (Py.fmul (Py.float n) (Py.fl (tick_size cfg))).
  split; [apply rounded_eq; exact Hnz |].
  split; [reflexivity |]. split; [reflexivity |].
  split.
  { intros p2 r2 Hle H2.
    exact (rounded_mono cfg p p2 _ r2 Hts Hle (rounded_eq cfg p Hnz) H2). }
  intros k Hk.
  destruct (rounded_power_of_two cfg p k Hk) as (Hn & Hfn & Hr). fold n in Hn, Hfn, Hr.
  set (r := Py.fmul (Py.float n) (Py.fl (tick_size cfg))) in *.
  set (ts := tick_size cfg) in *.
  assert (Hq : (Py.fl p / ts * ts == Py.fl p)%Q)
    by (rewrite Qmult_comm; apply Qmult_div_r; exact Hnz).
  destruct (round_bounds (Py.fl p / ts)) as [Hlo Hhi]. rewrite <- Hn in Hlo, Hhi.
  destruct (scale_bounds (Py.fl p / ts) ts (Py.fl p) (inject_Z n) Hts Hq Hlo Hhi)
    as [A B].
  split; [exact Hr |].
  split; [rewrite Hr; exact A |]. split; [rewrite Hr; exact B |].
  split.
  { intros m Hm. rewrite Hn. apply round_half.
    apply (Qmult_inj_r _ _ ts Hnz). rewrite Hq. exact Hm. }
  rewrite rounded_eq by exact Hnz. fold ts.
  assert (Hidem : Py.fl r = r) by (subst r; unfold Py.fmul; apply fl_idem).
  rewrite Hidem.
  assert (Hn' : Py.round (Py.fl (r / Py.fl ts)) = n).
  { assert (Hfts : (Py.fl ts == ts)%Q).
    { rewrite (fl_comp _ _ Hk), Hk. apply two_double. }
    assert (Hdiv : (r / Py.fl ts == inject_Z n)%Q).
    { rewrite Hfts, Hr. apply Qdiv_mult_l. exact Hnz. }
    rewrite (round_comp _ (inject_Z n)); [apply round_Z |].
    rewrite (fl_comp _ _ Hdiv). exact Hfn. }
  rewrite Hn'. reflexivity.
Qed.

Lemma rounded_to_tick_size_witness :
  exists (n : Z) (r : Q),
    rounded example_config (100125 # 1000) = Ok r /\
    (r == inject_Z n * tick_size example_config)%Q /\
    n = 400.
Proof.
  assert (Hts : (0 < tick_size example_config)%Q) by reflexivity.
  destruct (rounded_to_tick_size example_config (100125 # 1000) Hts)
    as (n & r & Hr & _ & _ & _ & Hpow).
  assert (Hk : (tick_size example_config == 2 ^ (-2))%Q) by reflexivity.
  destruct (Hpow (-2) Hk) as (Heq & _ & _ & Hhalf & _).
  exists n, r. split; [exact Hr |]. split; [exact Heq |].
  apply (Hhalf 400). vm_compute. reflexivity.
Defined.

(** A tick size of 0.1 is not a double, and the quotient is rounded to a
    double before [round] sees it: 0.75 / 0.1 is 7.5 and the price goes
    to 8 ticks, 0.8, although 7 ticks, 0.7000000000000001, are nearer;
    0.15 / 0.1 is 1.4999999999999998 and the price goes to 0.1. *)
Remark rounded_tenths :
  rounded tenth_tick_config (3 # 4) = Ok (Py.fl (8 # 10)) /\
  rounded tenth_tick_config (15 # 100) = Ok (Py.fl (1 # 10)) /\
  (Py.fl (3 # 4) - Py.fmul (Py.float 7) (Py.fl (1 # 10))
   < Py.fl (8 # 10) - Py.fl (3 # 4))%Q.
Proof.
  split; [| split]; vm_compute; reflexivity.
Qed.

(** ** The bars of the history are finished bars *)

Lemma finished_from_more (cfg : FootprintEngineConfig) (seen more : list Tick.t)
    (b : FootprintBar) :
  finished_from cfg seen b -> finished_from cfg (seen ++ more) b.
Proof.
  intros (pre & seg & post & b0 & Hseen & Hof & Hstats).
  exists pre, seg, (post ++ more), b0.
  split; [rewrite Hseen, <- !app_assoc; reflexivity |].
  split; assumption.
Qed.

Lemma process_tick_bars_built (cfg : FootprintEngineConfig) (seen : list Tick.t)
    (e e' : FootprintEngine) (t : Tick.t) :
  bars_built cfg seen e ->
  process_tick e (Tick.datetime t) (Tick.price t) (Tick.volume t)
    (Tick.is_bid_trade t) = Ok e' ->
  bars_built cfg (seen ++ [t]) e'.
Proof.
  intros (Hcfg & Hbars & Hcur) H.
  rewrite process_tick_eq in H; simpl in H. rewrite Hcfg in H.
  assert (Hbars' : Forall (finished_from cfg (seen ++ [t])) (bars e)).
  { eapply Forall_impl; [| exact Hbars]. intros b. apply finished_from_more. }
  destruct (current_bar e) as [cur |].
  - destruct (Hcur cur eq_refl) as (pre & seg & Hseen & Hof).
    inv_bind H. destruct a as [|].
    + inv_bind H. inv_bind H. inv_bind H. injection H as <-.
      split; [reflexivity |]. split; cbn [bars current_bar].
      * apply append_evict_Forall; [exact Hbars' |].
        exists pre, seg, [t], cur. split; [rewrite Hseen, app_assoc; reflexivity |].
        split; assumption.
      * intros b Hb. injection Hb as <-. exists seen, [t].
        split; [reflexivity |]. apply bar_of_first; assumption.
    + inv_bind H. injection H as <-.
      split; [reflexivity |]. split; cbn [bars current_bar]; [exact Hbars' |].
      intros b Hb. injection Hb as <-. exists pre, (seg ++ [t]).
      split; [rewrite Hseen, app_assoc; reflexivity |].
      apply bar_of_next; assumption.
  - inv_bind H. inv_bind H. injection H as <-.
    split; [reflexivity |]. split; cbn [bars current_bar]; [exact Hbars' |].
    intros b Hb. injection Hb as <-. exists seen, [t].
    split; [reflexivity |]. apply bar_of_first; assumption.
Qed.

Lemma process_ticks_bars_built (cfg : FootprintEngineConfig) (ticks seen : list Tick.t)
    (e e' : FootprintEngine) :
  bars_built cfg seen e ->
  process_ticks e ticks = Ok e' ->
  bars_built cfg (seen ++ ticks) e'.
Proof.
  revert seen e. induction ticks as [| t ticks IH]; simpl; intros seen e He H.
  - injection H as <-. rewrite app_nil_r. exact He.
  - inv_bind H.
    pose proof (process_tick_bars_built cfg seen e a t He Ha) as Ha'.
    specialize (IH _ _ Ha' H). rewrite <- app_assoc in IH. exact IH.
Qed.

Lemma exec_bars_built (cfg : FootprintEngineConfig) (seen : list Tick.t)
    (o : op) (e e' : FootprintEngine) :
  bars_built cfg seen e ->
  exec e o = Ok e' ->
  bars_built cfg (seen ++ op_ticks o) e'.
Proof.
  destruct o as [t | ticks |]; cbn [exec op_ticks]; intros He H.
  - eapply process_tick_bars_built; eauto.
  - unfold process_tick_batch in H. inv_bind H.
    destruct (process_ticks_bars_built cfg ticks seen e a He Ha)
      as (Hcfg & Hbars & Hcur).
    destruct (current_bar a) as [cur |] eqn:E.
    + inv_bind H. injection H as <-.
      split; [exact Hcfg |]. split; [exact Hbars |].
      cbn [current_bar]. intros b Hb. injection Hb as <-.
      destruct (Hcur cur eq_refl) as (pre & seg & Hseen & Hof).
      exists pre, seg. split; [exact Hseen |].
      eapply bar_of_stats; eauto.
    + injection H as <-. split; [exact Hcfg |]. split; [exact Hbars |].
      intros b Hb. rewrite E in Hb. discriminate.
  - rewrite app_nil_r. destruct He as (Hcfg & Hbars & Hcur).
    unfold _finalize_current_bar in H. rewrite Hcfg in H.
    destruct (current_bar e) as [cur |] eqn:E.
    + inv_bind H. injection H as <-.
      split; [reflexivity |]. split; cbn [bars current_bar]; [| discriminate].
      apply append_evict_Forall; [exact Hbars |].
      destruct (Hcur cur eq_refl) as (pre & seg & Hseen & Hof).
      exists pre, seg, [], cur. split; [rewrite app_nil_r; exact Hseen |].
      split; assumption.
    + injection H as <-. split; [exact Hcfg |]. split; [exact Hbars |].
      intros b Hb. rewrite E in Hb. discriminate.
Qed.

Lemma run_bars_built (cfg : FootprintEngineConfig) (ops : list op)
    (seen : list Tick.t) (e e' : FootprintEngine) :
  bars_built cfg seen e ->
  run e ops = Ok e' ->
  bars_built cfg (seen ++ flat_map op_ticks ops) e'.
Proof.
  revert seen e. induction ops as [| o ops IH]; simpl; intros seen e He H.
  - injection H as <-. rewrite app_nil_r. exact He.
  - inv_bind H.
    pose proof (exec_bars_built cfg seen o e a He Ha) as Ha'.
    specialize (IH _ _ Ha' H). rewrite <- app_assoc in IH. exact IH.
Qed.

Lemma update_bar_statistics_poc (b b' : FootprintBar) (p : Q) :
  price_levels b <> [] ->
  update_bar_statistics b p = Ok b' ->
  is_up_bar b' = Qle_bool (open_price b') (close_price b') /\
  exists l, In l (Dict.values (price_levels b')) /\ poc_price b' = Some (price l).
Proof.
  intros Hne H. unfold update_bar_statistics in H.
  destruct (price_levels b) as [| kv d] eqn:E; [contradiction |].
  change (Py.max_by total_volume (Dict.values (kv :: d)))
    with (Some (Py.max_from total_volume (snd kv) (Dict.values d))) in H.
  cbv iota in H. inv_bind H. injection H as <-.
  cbn [with_statistics is_up_bar open_price close_price price_levels poc_price].
  split; [reflexivity |].
  exists (Py.max_from total_volume (snd kv) (Dict.values d)).
  split; [| reflexivity]. rewrite E.
  destruct (max_from_first_maximal total_volume (Dict.values d) (snd kv))
    as (before & after & Heq & _).
  change (Dict.values (kv :: d)) with (snd kv :: Dict.values d).
  rewrite Heq. apply in_or_app. right. left. reflexivity.
Qed.

(** X19: whatever the caller did ([process_tick], [process_tick_batch]
    and [_finalize_current_bar] in any order), every bar that
    [get_all_completed_bars] returns is a finished bar: it was built from
    a run of consecutive ticks of the input, its statistics are up to
    date (computing them again changes nothing), it has a Point of
    Control at one of its levels, its totals are those of its ticks, and
    it has a Value Area when its ticks have positive volume. *)
Theorem completed_bars_are_finished (cfg : FootprintEngineConfig)
    (ops : list op) (e : FootprintEngine) :
  run (FootprintEngine_init cfg) ops = Ok e ->
  Forall (fun b =>
    exists pre seg post,
      flat_map op_ticks ops = pre ++ seg ++ post /\
      bar_of cfg seg b /\
      update_bar_statistics b (value_area_percentage cfg) = Ok b /\
      is_up_bar b = Qle_bool (open_price b) (close_price b) /\
      (exists l, In l (Dict.values (price_levels b)) /\
                 poc_price b = Some (price l)) /\
      total_bar_volume b = volumes seg /\
      total_bar_trades b = Py.len seg /\
      (Forall (fun t => 0 < Tick.volume t) seg ->
       exists lo hi,
         value_area_low b = Some lo /\ value_area_high b = Some hi))
    (get_all_completed_bars e).
Proof.
  intros H.
  assert (H0 : bars_built cfg [] (FootprintEngine_init cfg)).
  { split; [reflexivity |]. split; [constructor | discriminate]. }
  destruct (run_bars_built cfg ops [] _ e H0 H) as (_ & Hbars & _).
  unfold get_all_completed_bars. eapply Forall_impl; [| exact Hbars].
  cbn [app]. intros b (pre & seg & post & b0 & Hseen & Hof & Hstats).
  exists pre, seg, post. split; [exact Hseen |].
  split; [eapply bar_of_stats; eauto |].
  split; [eapply update_bar_statistics_idem; eauto |].
  destruct (bar_of_levels cfg seg b0 Hof) as (Hne & _).
  destruct (update_bar_statistics_poc b0 b _ Hne Hstats) as [Hup Hpoc].
  split; [exact Hup |]. split; [exact Hpoc |].
  destruct (bar_of_totals cfg seg b0 b _ Hof Hstats) as (Htv & _ & _ & _ & Htt & _).
  split; [exact Htv |]. split; [exact Htt |].
  intros Hpos.
  destruct (bar_of_levels_ok cfg seg b0 Hof Hpos) as [Hok _].
  destruct (value_area_of_levels b0 (value_area_percentage cfg) Hok Hne)
    as (b'' & lo & hi & poc & Hrun & _ & Hlo & Hhi & _).
  rewrite Hstats in Hrun. injection Hrun as <-.
  exists lo, hi. split; assumption.
Qed.

Lemma completed_bars_are_finished_witness :
  exists e,
    run (FootprintEngine_init example_config)
      [OpBatch (firstn 2 tick_data_1min); OpBatch (skipn 2 tick_data_1min);
       OpFinalize] = Ok e /\
    Py.len (get_all_completed_bars e) = 2 /\
    Forall (fun b =>
      exists pre seg post,
        tick_data_1min = pre ++ seg ++ post /\
        bar_of example_config seg b /\
        update_bar_statistics b (7 # 10) = Ok b /\
        total_bar_volume b = volumes seg /\
        total_bar_trades b = Py.len seg)
      (get_all_completed_bars e).
Proof.
  pose (ops := [OpBatch (firstn 2 tick_data_1min);
                OpBatch (skipn 2 tick_data_1min); OpFinalize]).
  pose (e := match run (FootprintEngine_init example_config) ops with
             | Ok x => x
             | Err _ => FootprintEngine_init example_config
             end).
  assert (H : run (FootprintEngine_init example_config) ops = Ok e)
    by (vm_compute; reflexivity).
  assert (Hlen : Py.len (get_all_completed_bars e) = 2)
    by (vm_compute; reflexivity).
  clearbody e.
  exists e. split; [exact H |]. split; [exact Hlen |].
  eapply Forall_impl;
    [| exact (completed_bars_are_finished example_config ops e H)].
  intros b (pre & seg & post & Hseen & Hof & Hidem & _ & _ & Htv & Htt & _).
  exists pre, seg, post.
  split; [exact Hseen |]. split; [exact Hof |]. split; [exact Hidem |].
  split; [exact Htv | exact Htt].
Defined.

(** ** A stream fed in several batches *)

Lemma process_ticks_app (e : FootprintEngine) (a b : list Tick.t) :
  process_ticks e (a ++ b) = (e1 <- process_ticks e a ;; process_ticks e1 b).
Proof.
  revert e. induction a as [| t a IH]; intros e; [reflexivity |].
  cbn [app process_ticks].
  destruct (process_tick e (Tick.datetime t) (Tick.price t) (Tick.volume t)
              (Tick.is_bid_trade t)) as [e1 | x]; cbn [bind]; [apply IH | reflexivity].
Qed.

Lemma update_bar_statistics_same_raw (b1 b2 : FootprintBar) (p : Q) :
  levels_ok (price_levels b1) ->
  price_levels b1 <> [] ->
  same_raw b1 b2 ->
  update_bar_statistics b2 p = update_bar_statistics b1 p.
Proof.
  intros Hok Hne (tv & tav & tbv & tt & bd & poc & vah & val & up & ->).
  assert (Hpos : 0 < Py.sum total_volume (Dict.values (price_levels b1))).
  { rewrite Py_sum_zsum. apply zsum_positive.
    - unfold Dict.values. rewrite map_map, Forall_map.
      eapply Forall_impl; [| exact (proj2 Hok)]. intros a (_ & _ & Ha). exact Ha.
    - destruct (price_levels b1); [contradiction | discriminate]. }
  apply Z.gtb_lt in Hpos.
  destruct b1 as [st et o h l c levels tv1 tav1 tbv1 tt1 bd1 poc1 vah1 val1 up1
                    tc cav dir ext].
  cbn [price_levels] in *. unfold update_bar_statistics.
  cbn [with_statistics price_levels open_price close_price start_time end_time
       high_price low_price tick_count current_aggregated_volume bar_direction
       extreme_price_during_formation].
  destruct levels as [| kv d]; [contradiction |].
  change (Py.max_by total_volume (Dict.values (kv :: d)))
    with (Some (Py.max_from total_volume (snd kv) (Dict.values d))).
  cbv iota. rewrite Hpos. reflexivity.
Qed.

Lemma fold_tick_same_raw (cfg : FootprintEngineConfig) (b1 b2 : FootprintBar)
    (ts : Z) (r : Q) (v : Z) (side : bool) :
  same_raw b1 b2 ->
  same_raw (fold_tick cfg b1 ts r v side) (fold_tick cfg b2 ts r v side).
Proof.
  intros (tv & tav & tbv & tt & bd & poc & vah & val & up & ->).
  exists tv, tav, tbv, tt, bd, poc, vah, val, up.
  destruct b1; reflexivity.
Qed.

Lemma should_create_same_raw (cfg : FootprintEngineConfig) (b1 b2 : FootprintBar)
    (ts : Z) (p : Q) :
  same_raw b1 b2 ->
  _should_create_new_bar cfg b2 ts p = _should_create_new_bar cfg b1 ts p.
Proof.
  intros (tv & tav & tbv & tt & bd & poc & vah & val & up & ->).
  destruct b1; reflexivity.
Qed.

Lemma same_raw_refl (b : FootprintBar) : same_raw b b.
Proof.
  exists (total_bar_volume b), (total_bar_ask_volume b), (total_bar_bid_volume b),
    (total_bar_trades b), (bar_delta b), (poc_price b), (value_area_high b),
    (value_area_low b), (is_up_bar b).
  destruct b; reflexivity.
Qed.

Lemma process_tick_positive (cfg : FootprintEngineConfig) (e e' : FootprintEngine)
    (t : Tick.t) :
  current_positive cfg e ->
  0 < Tick.volume t ->
  process_tick e (Tick.datetime t) (Tick.price t) (Tick.volume t)
    (Tick.is_bid_trade t) = Ok e' ->
  current_positive cfg e'.
Proof.
  intros [Hcfg Hcur] Hv H. rewrite process_tick_eq in H. cbv zeta in H.
  rewrite Hcfg in H.
  assert (Hnew : forall st r,
            new_start_time cfg (Tick.datetime t) = Ok st ->
            rounded cfg (Tick.price t) = Ok r ->
            built_from_positive_ticks cfg
              (fold_tick cfg (FootprintBar_init st (Tick.datetime t) r r r r)
                 (Tick.datetime t) r (Tick.volume t) (Tick.is_bid_trade t))).
  { intros st r Hst Hr. exists [t]. split; [apply bar_of_first; assumption |].
    constructor; [exact Hv | constructor]. }
  destruct (current_bar e) as [b |].
  - inv_bind H. destruct a as [|].
    + inv_bind H. inv_bind H. inv_bind H. injection H as <-.
      split; [reflexivity |]. cbn [current_bar].
      intros b0 Hb0. injection Hb0 as <-. apply Hnew; assumption.
    + inv_bind H. injection H as <-. split; [reflexivity |]. cbn [current_bar].
      intros b0 Hb0. injection Hb0 as <-.
      destruct (Hcur b eq_refl) as (ticks & Hof & Hpos).
      exists (ticks ++ [t]). split; [apply bar_of_next; assumption |].
      apply Forall_app. split; [exact Hpos |]. constructor; [exact Hv | constructor].
  - inv_bind H. inv_bind H. injection H as <-.
    split; [reflexivity |]. cbn [current_bar].
    intros b0 Hb0. injection Hb0 as <-. apply Hnew; assumption.
Qed.

Lemma process_tick_same (cfg : FootprintEngineConfig) (e1 e2 : FootprintEngine)
    (t : Tick.t) :
  current_positive cfg e1 ->
  same_engine e1 e2 ->
  res_rel same_engine
    (process_tick e1 (Tick.datetime t) (Tick.price t) (Tick.volume t)
       (Tick.is_bid_trade t))
    (process_tick e2 (Tick.datetime t) (Tick.price t) (Tick.volume t)
       (Tick.is_bid_trade t)).
Proof.
  intros [Hcfg Hcur] (Hc & Hb & Hn & Hsame).
  rewrite !process_tick_eq. cbv zeta. rewrite <- Hc, <- Hb, <- Hn, Hcfg.
  destruct (current_bar e1) as [b1 |], (current_bar e2) as [b2 |];
    try contradiction.
  - rewrite (should_create_same_raw cfg b1 b2 _ _ Hsame).
    destruct (_should_create_new_bar cfg b1 (Tick.datetime t) (Tick.price t))
      as [[|] | x]; cbn [bind res_rel]; [| | reflexivity].
    + destruct (Hcur b1 eq_refl) as (ticks & Hof & Hpos).
      destruct (bar_of_levels_ok cfg ticks b1 Hof Hpos) as [Hok Hne].
      rewrite (update_bar_statistics_same_raw b1 b2 _ Hok Hne Hsame).
      destruct (update_bar_statistics b1 (value_area_percentage cfg)) as [b' | x];
        cbn [bind res_rel]; [| reflexivity].
      destruct (rounded cfg (Tick.price t)) as [r | x];
        cbn [bind res_rel]; [| reflexivity].
      destruct (new_start_time cfg (Tick.datetime t)) as [st | x];
        cbn [bind res_rel]; [| reflexivity].
      repeat split. apply same_raw_refl.
    + destruct (rounded cfg (Tick.price t)) as [r | x];
        cbn [bind res_rel]; [| reflexivity].
      repeat split. cbn [current_bar]. apply fold_tick_same_raw. exact Hsame.
  - destruct (rounded cfg (Tick.price t)) as [r | x];
      cbn [bind res_rel]; [| reflexivity].
    destruct (new_start_time cfg (Tick.datetime t)) as [st | x];
      cbn [bind res_rel]; [| reflexivity].
    repeat split. apply same_raw_refl.
Qed.

Lemma process_ticks_same (cfg : FootprintEngineConfig) (ticks : list Tick.t)
    (e1 e2 : FootprintEngine) :
  current_positive cfg e1 ->
  Forall (fun t => 0 < Tick.volume t) ticks ->
  same_engine e1 e2 ->
  res_rel (fun a1 a2 => same_engine a1 a2 /\ current_positive cfg a1)
    (process_ticks e1 ticks) (process_ticks e2 ticks).
Proof.
  revert e1 e2. induction ticks as [| t ticks IH]; intros e1 e2 Hpos Hall Hsame.
  - cbn [process_ticks res_rel]. split; assumption.
  - pose proof (Forall_inv Hall) as Ht. apply Forall_inv_tail in Hall.
    cbn [process_ticks].
    pose proof (process_tick_same cfg e1 e2 t Hpos Hsame) as Hstep.
    destruct (process_tick e1 (Tick.datetime t) (Tick.price t) (Tick.volume t)
                (Tick.is_bid_trade t)) as [a1 | x1] eqn:E1;
      destruct (process_tick e2 (Tick.datetime t) (Tick.price t) (Tick.volume t)
                  (Tick.is_bid_trade t)) as [a2 | x2];
      cbn [res_rel bind] in *; try contradiction; [| exact Hstep].
    apply IH; [| exact Hall | exact Hstep].
    exact (process_tick_positive cfg e1 a1 t Hpos Ht E1).
Qed.

Lemma batch_statistics_same (cfg : FootprintEngineConfig)
    (e1 e2 : FootprintEngine) :
  current_positive cfg e1 ->
  same_engine e1 e2 ->
  match current_bar e2 with
  | Some cur =>
      cur' <- update_bar_statistics cur (value_area_percentage (config e2)) ;;
      Ok (mkFootprintEngine (config e2) (bars e2) (Some cur')
            (_total_ticks_processed e2))
  | None => Ok e2
  end
  = match current_bar e1 with
    | Some cur =>
        cur' <- update_bar_statistics cur (value_area_percentage (config e1)) ;;
        Ok (mkFootprintEngine (config e1) (bars e1) (Some cur')
              (_total_ticks_processed e1))
    | None => Ok e1
    end.
Proof.
  intros [Hcfg Hcur] (Hc & Hb & Hn & Hsame).
  destruct e1 as [c1 h1 cur1 n1], e2 as [c2 h2 cur2 n2].
  cbn [config bars current_bar _total_ticks_processed] in *. subst c2 h2 n2 c1.
  destruct cur1 as [b1 |], cur2 as [b2 |]; try contradiction; [| reflexivity].
  destruct (Hcur b1 eq_refl) as (ticks & Hof & Hpos).
  destruct (bar_of_levels_ok cfg ticks b1 Hof Hpos) as [Hok Hne].
  rewrite (update_bar_statistics_same_raw b1 b2 _ Hok Hne Hsame). reflexivity.
Qed.

(** X20: a stream of ticks of positive volume can be fed in pieces:
    [process_tick_batch] on the first part and then on the rest leaves
    the engine exactly as one call on the whole stream does, and raises
    the same exception when that call raises. *)
Theorem batches_compose (cfg : FootprintEngineConfig) (e : FootprintEngine)
    (a b : list Tick.t) :
  current_positive cfg e ->
  Forall (fun t => 0 < Tick.volume t) (a ++ b) ->
  (e1 <- process_tick_batch e a ;; process_tick_batch e1 b)
  = process_tick_batch e (a ++ b).
Proof.
  intros He Hall. apply Forall_app in Hall. destruct Hall as [Ha Hb].
  unfold process_tick_batch at 1 3. rewrite process_ticks_app.
  pose proof (process_ticks_same cfg a e e He Ha) as Hrun.
  destruct (process_ticks e a) as [ea | x]; [| reflexivity].
  cbn [bind res_rel] in *.
  assert (Hea : current_positive cfg ea).
  { apply Hrun. destruct e as [c h [cur |] n]; repeat split; apply same_raw_refl. }
  clear Hrun.
  assert (Hstats : exists ea',
             match current_bar ea with
             | Some cur =>
                 cur' <- update_bar_statistics cur
                           (value_area_percentage (config ea)) ;;
                 Ok (mkFootprintEngine (config ea) (bars ea) (Some cur')
                       (_total_ticks_processed ea))
             | None => Ok ea
             end = Ok ea' /\ same_engine ea ea').
  { destruct Hea as [Hcfg Hcur].
    destruct ea as [c h [cur |] n]; cbn [config bars current_bar
      _total_ticks_processed] in *.
    - destruct (Hcur cur eq_refl) as (ticks & Hof & Hpos).
      destruct (bar_of_levels_ok cfg ticks cur Hof Hpos) as [Hok Hne].
      destruct (value_area_of_levels cur (value_area_percentage c) Hok Hne)
        as (cur' & _ & _ & _ & Hstats & _).
      rewrite Hstats. cbn [bind]. eexists. split; [reflexivity |].
      repeat split. cbn [current_bar].
      apply update_bar_statistics_frame in Hstats. exact Hstats.
    - eexists. split; [reflexivity |]. repeat split. }
  destruct Hstats as (ea' & -> & Hsame). cbn [bind].
  unfold process_tick_batch.
  pose proof (process_ticks_same cfg b ea ea' Hea Hb Hsame) as Hrun.
  destruct (process_ticks ea b) as [e1 | x1], (process_ticks ea' b) as [e2 | x2];
    cbn [bind res_rel] in *; try contradiction; [| congruence].
  destruct Hrun as [Hsame' Hpos']. apply batch_statistics_same with (cfg := cfg);
    assumption.
Qed.

Lemma batches_compose_witness :
  (e1 <- process_tick_batch (FootprintEngine_init example_config)
           (firstn 2 tick_data_1min) ;;
   process_tick_batch e1 (skipn 2 tick_data_1min))
  = process_tick_batch (FootprintEngine_init example_config)
      (firstn 2 tick_data_1min ++ skipn 2 tick_data_1min).
Proof.
  apply (batches_compose example_config (FootprintEngine_init example_config)
           (firstn 2 tick_data_1min) (skipn 2 tick_data_1min)).
  - split; [reflexivity |]. intros b Hb. discriminate Hb.
  - repeat constructor.
Defined.

(** The volumes have to be positive: after a tick of volume 5 and one
    of volume -5 at the same price the bar's volume is 0, and the Value
    Area computed between the two batches is still there. *)
Lemma batches_differ_on_negative_volume :
  (e1 <- process_tick_batch (FootprintEngine_init example_config)
           [Tick.mk example_start 100 5 false] ;;
   process_tick_batch e1 [Tick.mk (example_start + seconds 1) 100 (-5) false])
  <> process_tick_batch (FootprintEngine_init example_config)
       [Tick.mk example_start 100 5 false;
        Tick.mk (example_start + seconds 1) 100 (-5) false].
Proof.
  intros H. vm_compute in H. discriminate H.
Qed.

(** ** The example script: every tick ends in one completed bar *)

Lemma finished_bars_totals (cfg : FootprintEngineConfig)
    (segs : list (list Tick.t)) (log : list FootprintBar) :
  Forall2 (finished_bar cfg) segs log ->
  Forall (fun seg => seg <> []) segs /\
  zsum (map total_bar_trades log) = Py.len (concat segs) /\
  zsum (map total_bar_volume log) = volumes (concat segs).
Proof.
  induction 1 as [| seg b segs log [Hof Hidem] _ (IH0 & IH1 & IH2)];
    [repeat split; constructor |].
  destruct (bar_of_totals cfg seg b b _ Hof Hidem) as (Htv & _ & _ & _ & Htt & _).
  destruct (bar_of_counters cfg seg b Hof) as (_ & _ & init & last & Hl & _).
  split; [constructor; [rewrite Hl; destruct init; discriminate | exact IH0] |].
  cbn [map concat]. rewrite !zsum_cons, len_app, IH1, IH2, Htv, Htt.
  unfold volumes. rewrite map_app, zsum_app. split; reflexivity.
Qed.

Lemma last_n_all {A : Type} (n : nat) (l : list A) :
  (List.length l <= n)%nat -> last_n n l = l.
Proof.
  intros H. unfold last_n.
  replace (List.length l - n)%nat with 0%nat by lia. reflexivity.
Qed.

(** X21: the example script loses no tick.  When [run_example] returns,
    the stream is cut into consecutive non-empty runs of ticks, one per
    bar appended to the history, each bar built from its run with
    statistics up to date; the script gets the last max_bars_in_memory
    of them, and when that many were not exceeded it gets them all: the
    total_bar_trades of the completed bars add up to the number of ticks
    and the total_bar_volume to the volume of the stream. *)
Theorem run_example_partitions_stream (cfg : FootprintEngineConfig)
    (ticks : list Tick.t) (completed_bars : list FootprintBar) :
  run_example cfg ticks = Ok completed_bars ->
  exists (segs : list (list Tick.t)) (log : list FootprintBar),
    ticks = concat segs /\
    Forall (fun seg => seg <> []) segs /\
    Forall2 (finished_bar cfg) segs log /\
    completed_bars = last_n (Z.to_nat (max_bars_in_memory cfg)) log /\
    (Py.len log <= max_bars_in_memory cfg ->
     completed_bars = log /\
     zsum (map total_bar_trades completed_bars) = Py.len ticks /\
     zsum (map total_bar_volume completed_bars) = volumes ticks).
Proof.
  unfold run_example, process_tick_batch. intros H.
  inv_bind H. inv_bind Ha. rename a0 into e1. rename Ha0 into Hrun.
  assert (Hseg : config e1 = cfg /\
                 segmented (finished_bar cfg) (bar_of cfg) ticks
                   (ticks_appends (FootprintEngine_init cfg) ticks) e1).
  { apply (process_ticks_segmented cfg (finished_bar cfg) (bar_of cfg))
      with (seen := []) (log := []) (e := FootprintEngine_init cfg);
      [ intros; apply bar_of_first; assumption
      | intros; apply bar_of_next; assumption
      | intros seg b b' t Hof _ Hstats; split;
        [eapply bar_of_stats; eassumption
        | eapply update_bar_statistics_idem; eassumption]
      | reflexivity
      | apply new_engine_segmented
      | exact Hrun ]. }
  destruct Hseg as (Hcfg & segs & cur & Hseen & Hlog & Hcur).
  assert (Hhist : history_of cfg
                    (ticks_appends (FootprintEngine_init cfg) ticks) e1).
  { apply (process_ticks_history cfg ticks [] (FootprintEngine_init cfg) e1);
      [split; reflexivity | exact Hrun]. }
  destruct Hhist as [_ Hbars].
  set (log := ticks_appends (FootprintEngine_init cfg) ticks) in *.
  assert (Hgoal : exists segs' log',
             ticks = concat segs' /\
             Forall2 (finished_bar cfg) segs' log' /\
             completed_bars = last_n (Z.to_nat (max_bars_in_memory cfg)) log').
  { destruct (current_bar e1) as [b |] eqn:Ecur.
    - inv_bind Ha. injection Ha as <-. cbn [current_bar] in H.
      unfold _finalize_current_bar in H.
      cbn [config current_bar bars _total_ticks_processed] in H.
      inv_bind H. inv_bind Ha. injection Ha as <-. injection H as <-.
      rename a0 into b'. rename a1 into b''.
      rewrite Hcfg in *.
      pose proof (update_bar_statistics_idem b b' _ Ha0) as Hidem.
      rewrite Hidem in Ha1. injection Ha1 as <-.
      exists (segs ++ [cur]), (log ++ [b']).
      split; [rewrite concat_app; cbn [concat]; rewrite app_nil_r; exact Hseen |].
      split.
      + apply Forall2_app; [exact Hlog |].
        constructor; [| constructor].
        split; [eapply bar_of_stats; eassumption | exact Hidem].
      + unfold get_all_completed_bars. cbn [bars]. rewrite Hbars.
        apply append_evict_last_n.
    - injection Ha as <-. rewrite Ecur in H. cbn [bind] in H.
      injection H as <-. subst cur.
      exists segs, log. split; [rewrite Hseen, app_nil_r; reflexivity |].
      split; [exact Hlog |]. exact Hbars. }
  destruct Hgoal as (segs' & log' & Hticks & Hall & Hlast).
  destruct (finished_bars_totals cfg segs' log' Hall) as (Hne & Htt & Htv).
  exists segs', log'. split; [exact Hticks |]. split; [exact Hne |].
  split; [exact Hall |]. split; [exact Hlast |].
  intros Hroom.
  assert (Heq : completed_bars = log').
  { rewrite Hlast. apply last_n_all. unfold Py.len in Hroom. lia. }
  split; [exact Heq |]. rewrite Heq, Htt, Htv, <- Hticks. split; reflexivity.
Qed.

Lemma run_example_partitions_stream_witness :
  exists completed_bars,
    run_example example_config tick_data_1min = Ok completed_bars /\
    Py.len completed_bars = 2 /\
    zsum (map total_bar_trades completed_bars) = 4 /\
    zsum (map total_bar_volume completed_bars) = 43.
Proof.
  pose (completed_bars := match run_example example_config tick_data_1min with
                          | Ok x => x
                          | Err _ => []
                          end).
  assert (H : run_example example_config tick_data_1min = Ok completed_bars)
    by (vm_compute; reflexivity).
  assert (Hlen : Py.len completed_bars = 2) by (vm_compute; reflexivity).
  clearbody completed_bars.
  destruct (run_example_partitions_stream example_config tick_data_1min
              completed_bars H)
    as (segs & log & _ & _ & Hall & Hlast & Hroom).
  exists completed_bars. split; [exact H |]. split; [exact Hlen |].
  apply Hroom.
  set (n := Z.to_nat (max_bars_in_memory example_config)) in *.
  assert (Hn : Z.of_nat n = max_bars_in_memory example_config)
    by (apply Z2Nat.id; vm_compute; discriminate).
  change (max_bars_in_memory example_config) with 10000 in Hn |- *.
  unfold Py.len in *.
  destruct (Nat.le_gt_cases (List.length log) n) as [Hs | Hb]; [lia |].
  assert (Hk : List.length completed_bars = n).
  { rewrite Hlast. unfold last_n. rewrite length_skipn. lia. }
  lia.
Defined.

(** ** TIME aggregation: bars that do not overlap *)

Lemma StronglySorted_snoc {A : Type} (R : A -> A -> Prop) (l : list A) (x : A) :
  StronglySorted R l -> Forall (fun a => R a x) l -> StronglySorted R (l ++ [x]).
Proof.
  induction 1 as [| a l Hs IH Ha]; intros Hx; simpl.
  - constructor; constructor.
  - pose proof (Forall_inv Hx) as Hax. apply Forall_inv_tail in Hx.
    constructor; [apply IH; exact Hx |].
    apply Forall_app. split; [exact Ha | constructor; [exact Hax | constructor]].
Qed.

Lemma spaced_snoc (d : Z) (l : list Z) (a c : Z) :
  0 < d ->
  spaced d (l ++ [a]) ->
  (exists k, c = d * k) ->
  a + d <= c ->
  spaced d ((l ++ [a]) ++ [c]).
Proof.
  intros Hd [Hgrid Hs] Hc Hac. split.
  - apply Forall_app. split; [exact Hgrid | constructor; [exact Hc | constructor]].
  - apply StronglySorted_snoc; [exact Hs |].
    destruct (StronglySorted_app_inv _ _ _ Hs) as (_ & _ & Hla).
    apply Forall_app. split; [| constructor; [exact Hac | constructor]].
    eapply Forall_impl; [| exact Hla]. intros x Hx.
    apply Forall_inv in Hx. lia.
Qed.

Lemma floor_crosses (d s ts : Z) :
  0 < d -> (exists k, s = d * k) -> s + d <= ts -> s + d <= d * (ts / d).
Proof.
  intros Hd [k ->] Hle.
  assert (H : k + 1 <= ts / d).
  { apply Z.div_le_lower_bound; [exact Hd | lia]. }
  nia.
Qed.

Lemma process_tick_spaced (cfg : FootprintEngineConfig) (d : Z)
    (log : list FootprintBar) (e e' : FootprintEngine) (t : Tick.t) :
  time_mode cfg d ->
  config e = cfg ->
  (current_bar e = None -> log = []) ->
  spaced d (map start_time (with_current log e)) ->
  process_tick e (Tick.datetime t) (Tick.price t) (Tick.volume t)
    (Tick.is_bid_trade t) = Ok e' ->
  config e' = cfg /\
  (exists b, current_bar e' = Some b) /\
  spaced d (map start_time (with_current (log ++ tick_appends e t) e')).
Proof.
  intros Hmode Hcfg Hnone Hsp H.
  pose proof Hmode as (_ & _ & Hd).
  rewrite process_tick_eq in H; simpl in H. rewrite Hcfg in H.
  unfold tick_appends, finalize_appends, with_current in *. rewrite Hcfg.
  rewrite (new_start_time_TIME cfg d _ Hmode) in H.
  destruct (current_bar e) as [b |].
  - rewrite (should_create_TIME cfg d b _ _ Hmode) in *. cbn [bind] in H.
    destruct (Z.geb_spec (Tick.datetime t) (start_time b + d)) as [Hge | Hlt].
    + inv_bind H. rewrite Ha. inv_bind H. cbn [bind] in H. injection H as <-.
      split; [reflexivity |]. split; [eexists; reflexivity |].
      cbn [current_bar]. rewrite <- app_assoc, !map_app in *.
      cbn [map fold_tick FootprintBar_init start_time app] in *.
      destruct (update_bar_statistics_tick_count _ _ _ Ha) as [_ Hst].
      rewrite Hst.
      change (map start_time log ++ [start_time b; d * (Tick.datetime t / d)])
        with (map start_time log ++ [start_time b] ++ [d * (Tick.datetime t / d)]).
      rewrite app_assoc.
      apply spaced_snoc; [exact Hd | exact Hsp | eexists; reflexivity |].
      destruct Hsp as [Hgrid _]. apply Forall_app in Hgrid.
      destruct Hgrid as [_ Hb]. apply Forall_inv in Hb.
      apply floor_crosses; assumption.
    + inv_bind H. injection H as <-.
      split; [reflexivity |]. split; [eexists; reflexivity |].
      cbn [current_bar]. rewrite app_nil_r, !map_app in *.
      cbn [map fold_tick start_time] in *. exact Hsp.
  - rewrite (Hnone eq_refl) in *. inv_bind H. cbn [bind] in H. injection H as <-.
    split; [reflexivity |]. split; [eexists; reflexivity |].
    cbn [current_bar app map fold_tick FootprintBar_init start_time].
    split; [constructor; [eexists; reflexivity | constructor] |].
    constructor; constructor.
Qed.

Lemma process_ticks_spaced (cfg : FootprintEngineConfig) (d : Z)
    (ticks : list Tick.t) (log : list FootprintBar) (e e' : FootprintEngine) :
  time_mode cfg d ->
  config e = cfg ->
  (current_bar e = None -> log = []) ->
  spaced d (map start_time (with_current log e)) ->
  process_ticks e ticks = Ok e' ->
  spaced d (map start_time (with_current (log ++ ticks_appends e ticks) e')).
Proof.
  intros Hmode. revert log e.
  induction ticks as [| t ticks IH]; simpl; intros log e Hcfg Hnone Hsp H.
  - injection H as <-. rewrite app_nil_r. exact Hsp.
  - inv_bind H. rewrite Ha, app_assoc.
    destruct (process_tick_spaced cfg d log e a t Hmode Hcfg Hnone Hsp Ha)
      as (Hcfg' & [b Hb] & Hsp').
    apply (IH _ a); [exact Hcfg' | | exact Hsp' | exact H].
    intros Hn. rewrite Hb in Hn. discriminate.
Qed.

Lemma StronglySorted_map {A B : Type} (R : B -> B -> Prop) (f : A -> B)
    (l : list A) :
  StronglySorted R (map f l) -> StronglySorted (fun a b => R (f a) (f b)) l.
Proof.
  induction l as [| a l IH]; simpl; intros H; [constructor |].
  apply StronglySorted_inv in H. destruct H as [Hs Ha].
  constructor; [apply IH; exact Hs |]. rewrite Forall_map in Ha. exact Ha.
Qed.

(** X22: in TIME mode with a duration d > 0, whatever the order of the
    timestamps, the bars of an engine (the completed ones and the one in
    progress) start on the grid of multiples of d and each starts at
    least d after the bar before it: their intervals
    [start_time, start_time + d) never overlap. *)
Theorem time_mode_bars_do_not_overlap (cfg : FootprintEngineConfig) (d : Z)
    (ticks : list Tick.t) (e : FootprintEngine) :
  time_mode cfg d ->
  process_ticks (FootprintEngine_init cfg) ticks = Ok e ->
  Forall (fun b => exists k, start_time b = d * k) (observable_bars e) /\
  StronglySorted (fun b1 b2 => start_time b1 + d <= start_time b2)
    (observable_bars e).
Proof.
  intros Hmode H.
  pose proof (process_ticks_spaced cfg d ticks [] (FootprintEngine_init cfg) e
                Hmode eq_refl (fun _ => eq_refl)) as Hsp.
  cbn [app] in Hsp. specialize (Hsp (conj (Forall_nil _) (SSorted_nil _)) H).
  assert (Hhist : history_of cfg
                    ([] ++ ticks_appends (FootprintEngine_init cfg) ticks) e).
  { eapply process_ticks_history; [| exact H]. split; reflexivity. }
  destruct Hhist as [_ Hbars]. cbn [app] in Hbars.
  set (log := ticks_appends (FootprintEngine_init cfg) ticks) in *.
  unfold observable_bars. rewrite Hbars. unfold last_n.
  set (k := (List.length log - Z.to_nat (max_bars_in_memory cfg))%nat).
  unfold with_current in Hsp.
  rewrite <- (firstn_skipn k log), <- app_assoc in Hsp.
  set (obs := skipn k log ++ match current_bar e with
                             | Some cur => [cur]
                             | None => []
                             end) in *.
  destruct Hsp as [Hgrid Hs]. rewrite map_app in Hgrid, Hs.
  apply Forall_app in Hgrid. destruct Hgrid as [_ Hgrid].
  destruct (StronglySorted_app_inv _ _ _ Hs) as (_ & Hs' & _).
  split; [rewrite Forall_map in Hgrid; exact Hgrid |].
  apply StronglySorted_map with (f := start_time)
                                (R := fun a b => a + d <= b). exact Hs'.
Qed.

Lemma time_mode_bars_do_not_overlap_witness :
  exists e,
    process_ticks (FootprintEngine_init example_config) tick_data_1min = Ok e /\
    Py.len (observable_bars e) = 2 /\
    Forall (fun b => exists k, start_time b = 60000000 * k) (observable_bars e) /\
    StronglySorted (fun b1 b2 => start_time b1 + 60000000 <= start_time b2)
      (observable_bars e).
Proof.
  pose (e := engine_after example_config tick_data_1min).
  assert (H : process_ticks (FootprintEngine_init example_config) tick_data_1min
              = Ok e) by (vm_compute; reflexivity).
  assert (Hlen : Py.len (observable_bars e) = 2) by (vm_compute; reflexivity).
  clearbody e.
  exists e. split; [exact H |]. split; [exact Hlen |].
  exact (time_mode_bars_do_not_overlap example_config 60000000 tick_data_1min e
           example_time_mode H).
Defined.

(** ** TIME aggregation: timestamps that never go back *)

Lemma non_decreasing_segments (segs : list (list Tick.t)) (cur : list Tick.t) :
  non_decreasing (concat segs ++ cur) ->
  Forall non_decreasing segs /\ non_decreasing cur.
Proof.
  unfold non_decreasing. induction segs as [| seg segs IH]; simpl; intros H.
  - split; [constructor | exact H].
  - rewrite <- app_assoc in H.
    destruct (StronglySorted_app_inv _ _ _ H) as (Hseg & Hrest & _).
    destruct (IH Hrest) as [Hsegs Hcur].
    split; [constructor; assumption | exact Hcur].
Qed.

Lemma time_good_sorted (cfg : FootprintEngineConfig) (d : Z)
    (seg : list Tick.t) (b : FootprintBar) :
  0 < d ->
  time_good cfg d seg b ->
  non_decreasing seg ->
  bar_of cfg seg b /\ seg <> [] /\
  Forall (fun t => start_time b <= Tick.datetime t < start_time b + d) seg.
Proof.
  intros Hd (Hof & t0 & rest & -> & Hstart & Hall) Hs.
  split; [exact Hof |]. split; [discriminate |].
  apply StronglySorted_inv in Hs. destruct Hs as [_ Hrest].
  pose proof (floor_bounds d (Tick.datetime t0) Hd) as Hfl.
  rewrite <- Hstart in Hfl.
  pose proof (Forall_inv Hall) as H0. apply Forall_inv_tail in Hall.
  constructor; [lia |].
  rewrite Forall_forall in *. intros t Ht.
  specialize (Hrest t Ht). specialize (Hall t Ht). cbv beta in *. lia.
Qed.

(** X23: in TIME mode with a duration d > 0, when the timestamps of the
    stream never go back, every bar of the engine (completed or in
    progress) holds ticks of its own interval only: each of its ticks
    has start_time <= timestamp < start_time + d. *)
Theorem time_mode_sorted_stream (cfg : FootprintEngineConfig) (d : Z)
    (ticks : list Tick.t) (e : FootprintEngine) :
  time_mode cfg d ->
  non_decreasing ticks ->
  process_ticks (FootprintEngine_init cfg) ticks = Ok e ->
  Forall (fun b =>
    exists seg,
      bar_of cfg seg b /\ seg <> [] /\
      Forall (fun t => start_time b <= Tick.datetime t < start_time b + d) seg)
    (observable_bars e).
Proof.
  intros Hmode Hsorted H.
  pose proof Hmode as (_ & _ & Hd).
  destruct (process_ticks_TIME cfg d Hmode ticks e H)
    as (_ & segs & cur & Hseen & Hlog & Hcur).
  rewrite Hseen in Hsorted.
  destruct (non_decreasing_segments segs cur Hsorted) as [Hsegs Hc].
  assert (Hhist : history_of cfg
                    ([] ++ ticks_appends (FootprintEngine_init cfg) ticks) e).
  { eapply process_ticks_history; [| exact H]. split; reflexivity. }
  destruct Hhist as [_ Hbars]. cbn [app] in Hbars.
  unfold observable_bars. apply Forall_app. split.
  - rewrite Hbars. apply Forall_last_n.
    clear - Hlog Hsegs Hd.
    induction Hlog as [| seg b segs log Hgood _ IH]; [constructor |].
    pose proof (Forall_inv Hsegs) as Hseg. apply Forall_inv_tail in Hsegs.
    constructor; [| apply IH; exact Hsegs].
    exists seg. apply (time_good_sorted cfg d); assumption.
  - destruct (current_bar e) as [b |]; [| constructor].
    constructor; [| constructor].
    exists cur. apply (time_good_sorted cfg d); assumption.
Qed.

Lemma time_mode_sorted_stream_witness :
  exists e,
    process_ticks (FootprintEngine_init example_config) tick_data_1min = Ok e /\
    Forall (fun b =>
      exists seg,
        bar_of example_config seg b /\ seg <> [] /\
        Forall (fun t => start_time b <= Tick.datetime t
                         < start_time b + 60000000) seg)
      (observable_bars e).
Proof.
  pose (e := engine_after example_config tick_data_1min).
  assert (H : process_ticks (FootprintEngine_init example_config) tick_data_1min
              = Ok e) by (vm_compute; reflexivity).
  clearbody e.
  exists e. split; [exact H |].
  apply (time_mode_sorted_stream example_config 60000000 tick_data_1min e
           example_time_mode); [| exact H].
  unfold non_decreasing, tick_data_1min.
  repeat (constructor; [| repeat (constructor; [vm_compute; discriminate |])]);
    constructor.
Defined.

(** ** What a price level holds *)

Lemma Qeq_bool_sym (a b : Q) : Qeq_bool a b = Qeq_bool b a.
Proof.
  destruct (Qeq_bool a b) eqn:E1, (Qeq_bool b a) eqn:E2; try reflexivity.
  - apply Qeq_bool_iff in E1. apply Qeq_bool_neq in E2.
    exfalso. apply E2. symmetry. exact E1.
  - apply Qeq_bool_iff in E2. apply Qeq_bool_neq in E1.
    exfalso. apply E1. symmetry. exact E2.
Qed.

Lemma get_touch (d : Dict.t PriceLevelData) (r k : Q)
    (f : PriceLevelData -> PriceLevelData) :
  Dict.get (touch d r f) k
  = if Qeq_bool r k
    then Some (f (match Dict.get d r with
                  | Some l => l
                  | None => PriceLevelData_init r 0 0 0 0
                  end))
    else Dict.get d k.
Proof.
  induction d as [| [k' v] d IH]; cbn [touch Dict.get].
  - destruct (Qeq_bool r k); reflexivity.
  - destruct (Qeq_bool k' r) eqn:E; cbn [Dict.get].
    + apply Qeq_bool_iff in E.
      destruct (Qeq_bool r k) eqn:Erk, (Qeq_bool k' k) eqn:Ek; try reflexivity;
        exfalso.
      * apply Qeq_bool_iff in Erk. apply Qeq_bool_neq in Ek.
        apply Ek. rewrite E. exact Erk.
      * apply Qeq_bool_iff in Ek. apply Qeq_bool_neq in Erk.
        apply Erk. rewrite <- E. exact Ek.
    + rewrite IH. destruct (Qeq_bool r k) eqn:Erk; [| reflexivity].
      destruct (Qeq_bool k' k) eqn:Ek; [| reflexivity].
      apply Qeq_bool_iff in Erk, Ek. apply Qeq_bool_neq in E.
      exfalso. apply E. rewrite Ek, Erk. reflexivity.
Qed.

Lemma ticks_at_snoc (cfg : FootprintEngineConfig) (k r : Q)
    (ticks : list Tick.t) (t : Tick.t) :
  rounded cfg (Tick.price t) = Ok r ->
  ticks_at cfg k (ticks ++ [t])
  = ticks_at cfg k ticks ++ (if Qeq_bool r k then [t] else []).
Proof.
  intros Hr. unfold ticks_at. rewrite filter_app. cbn [filter]. rewrite Hr.
  destruct (Qeq_bool r k); reflexivity.
Qed.

Lemma ticks_at_Qeq (cfg : FootprintEngineConfig) (k1 k2 : Q) (ticks : list Tick.t) :
  (k1 == k2)%Q -> ticks_at cfg k1 ticks = ticks_at cfg k2 ticks.
Proof.
  intros Heq. unfold ticks_at. apply filter_ext. intros t.
  destruct (rounded cfg (Tick.price t)) as [r |]; [| reflexivity].
  destruct (Qeq_bool r k1) eqn:E1, (Qeq_bool r k2) eqn:E2; try reflexivity.
  - apply Qeq_bool_iff in E1. apply Qeq_bool_neq in E2.
    exfalso. apply E2. rewrite E1. exact Heq.
  - apply Qeq_bool_iff in E2. apply Qeq_bool_neq in E1.
    exfalso. apply E1. rewrite E2. symmetry. exact Heq.
Qed.

Lemma volumes_app (l1 l2 : list Tick.t) :
  volumes (l1 ++ l2) = volumes l1 + volumes l2.
Proof. unfold volumes. rewrite map_app, zsum_app. reflexivity. Qed.

Lemma touch_level_holds (cfg : FootprintEngineConfig) (ticks : list Tick.t)
    (d : Dict.t PriceLevelData) (t : Tick.t) (r : Q) :
  (forall k, level_holds cfg ticks k (Dict.get d k)) ->
  rounded cfg (Tick.price t) = Ok r ->
  forall k,
    level_holds cfg (ticks ++ [t]) k
      (Dict.get (touch d r (add_trade cfg (Tick.volume t) (Tick.is_bid_trade t))) k).
Proof.
  intros Hinv Hr k. rewrite get_touch.
  unfold level_holds.
  rewrite (ticks_at_snoc cfg k r ticks t Hr).
  destruct (Qeq_bool r k) eqn:E.
  - apply Qeq_bool_iff in E.
    destruct (add_trade_raw cfg (Tick.volume t) (Tick.is_bid_trade t)
                (match Dict.get d r with
                 | Some l => l
                 | None => PriceLevelData_init r 0 0 0 0
                 end)) as (Hp & Hbv & Hav & Hbt & Hat & Hcons).
    rewrite Hp, Hbv, Hav, Hbt, Hat.
    unfold bid_ticks, ask_ticks. rewrite !filter_app, !volumes_app, !len_app.
    pose proof (Hinv r) as Hold. unfold level_holds in Hold.
    rewrite (ticks_at_Qeq cfg r k ticks E) in Hold.
    unfold bid_ticks, ask_ticks in Hold.
    assert (Hlast :
      volumes (filter Tick.is_bid_trade [t])
      = (if Tick.is_bid_trade t then Tick.volume t else 0) /\
      volumes (filter (fun t0 => negb (Tick.is_bid_trade t0)) [t])
      = (if Tick.is_bid_trade t then 0 else Tick.volume t) /\
      Py.len (filter Tick.is_bid_trade [t])
      = (if Tick.is_bid_trade t then 1 else 0) /\
      Py.len (filter (fun t0 => negb (Tick.is_bid_trade t0)) [t])
      = (if Tick.is_bid_trade t then 0 else 1)).
    { cbn [filter]. destruct (Tick.is_bid_trade t); cbn [negb];
        unfold volumes, Py.len; simpl; repeat split; lia. }
    destruct Hlast as (L1 & L2 & L3 & L4). rewrite L1, L2, L3, L4.
    split; [| split; [exact Hcons |]].
    + destruct (Dict.get d r) as [l |]; [| simpl; exact E].
      destruct Hold as (Hprice & _). rewrite <- E. exact Hprice.
    + destruct (Dict.get d r) as [l |].
      * destruct Hold as (_ & _ & H1 & H2 & H3 & H4).
        rewrite H1, H2, H3, H4. repeat split; reflexivity.
      * rewrite Hold. simpl. repeat split; reflexivity.
  - rewrite app_nil_r. exact (Hinv k).
Qed.

Lemma bar_of_level_holds (cfg : FootprintEngineConfig) (ticks : list Tick.t)
    (b : FootprintBar) :
  bar_of cfg ticks b ->
  forall k, level_holds cfg ticks k (Dict.get (price_levels b) k).
Proof.
  induction 1 as [t st r Hst Hr | ticks b t r Hof IH Hr | ticks b b' p Hof IH Hstats].
  - rewrite fold_tick_touch. cbn [FootprintBar_init price_levels].
    apply (touch_level_holds cfg [] [] t r); [| exact Hr].
    intros k. reflexivity.
  - rewrite fold_tick_touch. apply touch_level_holds; assumption.
  - rewrite (update_bar_statistics_levels _ _ _ Hstats). exact IH.
Qed.

(** X24: each price level of a bar holds exactly the ticks that rounded
    to its price: its bid and ask volumes and trade counts are the sums
    and the numbers of the bid and of the ask ticks at that price, its
    total_volume, total_trades and delta follow, and a price without a
    level saw no tick. *)
Theorem level_holds_its_ticks (cfg : FootprintEngineConfig)
    (ticks : list Tick.t) (b : FootprintBar) (k : Q) :
  bar_of cfg ticks b ->
  match Dict.get (price_levels b) k with
  | Some l =>
      (price l == k)%Q /\
      bid_volume l = volumes (bid_ticks (ticks_at cfg k ticks)) /\
      ask_volume l = volumes (ask_ticks (ticks_at cfg k ticks)) /\
      bid_trades l = Py.len (bid_ticks (ticks_at cfg k ticks)) /\
      ask_trades l = Py.len (ask_ticks (ticks_at cfg k ticks)) /\
      total_volume l = volumes (ticks_at cfg k ticks) /\
      total_trades l = Py.len (ticks_at cfg k ticks) /\
      delta l = volumes (ask_ticks (ticks_at cfg k ticks))
                - volumes (bid_ticks (ticks_at cfg k ticks)) /\
      ticks_at cfg k ticks <> []
  | None => ticks_at cfg k ticks = []
  end.
Proof.
  intros Hof. pose proof (bar_of_level_holds cfg ticks b Hof k) as H.
  unfold level_holds in H.
  destruct (Dict.get (price_levels b) k) as [l |] eqn:G; [| exact H].
  destruct H as (Hp & (Hv & Ht & Hd) & Hbv & Hav & Hbt & Hat).
  destruct (sides_partition (ticks_at cfg k ticks)) as [Pv Pl].
  split; [exact Hp |].
  split; [exact Hbv |]. split; [exact Hav |].
  split; [exact Hbt |]. split; [exact Hat |].
  split; [lia |]. split; [lia |]. split; [lia |].
  destruct (bar_of_levels cfg ticks b Hof) as (_ & _ & _ & Hkeys).
  assert (Hk : exists k', In k' (Dict.keys (price_levels b)) /\ (k' == k)%Q).
  { clear - G. unfold Dict.keys. induction (price_levels b) as [| [k' v] d IH];
      [discriminate |].
    cbn [Dict.get] in G. destruct (Qeq_bool k' k) eqn:E.
    - apply Qeq_bool_iff in E. exists k'. split; [left; reflexivity | exact E].
    - destruct (IH G) as (k'' & Hin & Heq).
      exists k''. split; [right; exact Hin | exact Heq]. }
  destruct Hk as (k' & Hin & Heq).
  destruct (Hkeys k' Hin) as (t & Ht_in & Hr).
  intros Hnil.
  assert (Hin_at : In t (ticks_at cfg k ticks)).
  { unfold ticks_at. apply filter_In. split; [exact Ht_in |].
    rewrite Hr. apply Qeq_bool_iff. exact Heq. }
  rewrite Hnil in Hin_at. exact Hin_at.
Qed.

Lemma level_holds_its_ticks_witness :
  exists l,
    Dict.get (price_levels example_bar) 100 = Some l /\
    bid_volume l = 0 /\
    ask_volume l = 18 /\
    total_volume l = 18 /\
    total_trades l = 2.
Proof.
  pose (l := match Dict.get (price_levels example_bar) 100 with
             | Some x => x
             | None => PriceLevelData_init 0 0 0 0 0
             end).
  assert (G : Dict.get (price_levels example_bar) 100 = Some l)
    by (vm_compute; reflexivity).
  clearbody l.
  pose proof (level_holds_its_ticks example_config (firstn 3 tick_data_1min)
                example_bar 100 example_bar_built) as H.
  rewrite G in H. destruct H as (_ & Hbv & Hav & _ & _ & Htv & Htt & _).
  exists l. split; [exact G |].
  split; [rewrite Hbv; vm_compute; reflexivity |].
  split; [rewrite Hav; vm_compute; reflexivity |].
  split; [rewrite Htv; vm_compute; reflexivity |].
  rewrite Htt. vm_compute. reflexivity.
Defined.

(** ** TICK aggregation: how many bars *)

Lemma tick_full_lengths (cfg : FootprintEngineConfig) (N : Z)
    (segs : list (list Tick.t)) (log : list FootprintBar) :
  Forall2 (tick_full cfg N) segs log ->
  Py.len (concat segs) = N * Py.len log.
Proof.
  induction 1 as [| seg b segs log (_ & Hlen & _) _ IH]; [unfold Py.len; simpl; lia |].
  cbn [concat]. rewrite len_app, IH, Hlen.
  unfold Py.len. simpl List.length. lia.
Qed.

Lemma len_last_n {A : Type} (n : Z) (l : list A) :
  Py.len (last_n (Z.to_nat n) l) = Z.min (Py.len l) (Z.max 0 n).
Proof.
  unfold last_n, Py.len. rewrite length_skipn. lia.
Qed.

(** X25: in TICK mode with threshold N >= 1, a stream of n >= 1 ticks
    given to a new engine closes (n - 1) / N bars (integer division) and
    leaves the remaining n - N * ((n - 1) / N) ticks, between 1 and N of
    them, in the bar in progress; [get_all_completed_bars] returns the
    closed bars, or the last max_bars_in_memory of them. *)
Theorem tick_mode_bar_count (cfg : FootprintEngineConfig) (N : Z)
    (ticks : list Tick.t) (e : FootprintEngine) :
  aggregation_type cfg = TICK ->
  aggregation_value cfg = AggInt N ->
  1 <= N ->
  ticks <> [] ->
  process_ticks (FootprintEngine_init cfg) ticks = Ok e ->
  Py.len (ticks_appends (FootprintEngine_init cfg) ticks)
  = (Py.len ticks - 1) / N /\
  current_tick_count e = Py.len ticks - N * ((Py.len ticks - 1) / N) /\
  1 <= current_tick_count e <= N /\
  Py.len (get_all_completed_bars e)
  = Z.min ((Py.len ticks - 1) / N) (Z.max 0 (max_bars_in_memory cfg)).
Proof.
  intros Hty Hval HN Hne H.
  destruct (process_ticks_TICK cfg N Hty Hval HN ticks e H)
    as (_ & segs & cur & Hseen & Hlog & Hcur).
  destruct (process_ticks_current _ _ _ H) as [[Hnil _] | [b Hb]];
    [contradiction |].
  unfold current_tick_count. rewrite Hb in *.
  destruct Hcur as (_ & Hlen & Hrange).
  pose proof (tick_full_lengths cfg N segs _ Hlog) as Hsegs.
  set (k := Py.len (ticks_appends (FootprintEngine_init cfg) ticks)) in *.
  assert (Hn : Py.len ticks = N * k + tick_count b).
  { rewrite Hseen, len_app, Hsegs, Hlen. reflexivity. }
  assert (Hk : k = (Py.len ticks - 1) / N).
  { apply (Z.div_unique _ N k (tick_count b - 1)); lia. }
  split; [exact Hk |]. split; [rewrite <- Hk; lia |]. split; [exact Hrange |].
  assert (Hhist : history_of cfg
                    ([] ++ ticks_appends (FootprintEngine_init cfg) ticks) e).
  { eapply process_ticks_history; [| exact H]. split; reflexivity. }
  destruct Hhist as [_ Hbars]. cbn [app] in Hbars.
  unfold get_all_completed_bars. rewrite Hbars, len_last_n, <- Hk. reflexivity.
Qed.

Lemma tick_mode_bar_count_witness :
  exists e,
    process_ticks (FootprintEngine_init tick3_config) (three_ticks ++ [fourth_tick])
    = Ok e /\
    Py.len (ticks_appends (FootprintEngine_init tick3_config)
              (three_ticks ++ [fourth_tick])) = 1 /\
    current_tick_count e = 1 /\
    Py.len (get_all_completed_bars e) = 1.
Proof.
  pose (e := engine_after tick3_config (three_ticks ++ [fourth_tick])).
  assert (H : process_ticks (FootprintEngine_init tick3_config)
                (three_ticks ++ [fourth_tick]) = Ok e)
    by (vm_compute; reflexivity).
  clearbody e.
  destruct (tick_mode_bar_count tick3_config 3 (three_ticks ++ [fourth_tick]) e
              eq_refl eq_refl) as (H1 & H2 & _ & H3);
    [lia | discriminate | exact H |].
  exists e. split; [exact H |].
  split; [exact H1 |]. split; [exact H2 | exact H3].
Defined.

(** ** Volumes that are not negative: the engine always returns *)

Lemma getitem_In {A : Type} (l : list A) (i : Z) :
  0 <= i < Py.len l -> exists a, Py.getitem l i = Ok a /\ In a l.
Proof.
  intros Hi. unfold Py.getitem.
  destruct (Z.ltb_spec i 0); [lia |].
  destruct (Z.ltb_spec i 0); [lia |].
  destruct (Z.leb_spec (Py.len l) i); [lia |]. cbn [orb].
  destruct (nth_error l (Z.to_nat i)) as [a |] eqn:E.
  - exists a. split; [reflexivity |]. eapply nth_error_In; eauto.
  - apply nth_error_None in E. unfold Py.len in *. lia.
Qed.

Section ValueAreaLoopReturns.

Variable d : Dict.t PriceLevelData.
Variable sorted_prices : list Q.
Variable target : Q.

Hypothesis filed : forall k, In k sorted_prices ->
  exists l, Dict.get d k = Some l /\ 0 <= total_volume l.

Lemma vol_above_returns (h : Z) :
  0 <= h ->
  exists a, vol_above d sorted_prices h = Ok a /\ 0 <= a /\
            (Py.len sorted_prices <= h + 1 -> a = 0).
Proof.
  intros Hh. unfold vol_above.
  destruct (Z.ltb_spec (h + 1) (Py.len sorted_prices)) as [Hlt | Hge].
  - destruct (getitem_In sorted_prices (h + 1)) as (k & -> & Hin); [lia |].
    destruct (filed k Hin) as (l & Hget & Hpos).
    cbn [bind]. unfold Dict.getitem. rewrite Hget. cbn [bind].
    exists (total_volume l). split; [reflexivity |]. split; [exact Hpos | lia].
  - exists 0. split; [reflexivity |]. split; [lia | reflexivity].
Qed.

Lemma vol_below_returns (lw : Z) :
  lw < Py.len sorted_prices ->
  exists a, vol_below d sorted_prices lw = Ok a /\ 0 <= a /\
            (lw - 1 < 0 -> a = 0).
Proof.
  intros Hlw. unfold vol_below.
  destruct (Z.geb_spec (lw - 1) 0) as [Hge | Hlt].
  - destruct (getitem_In sorted_prices (lw - 1)) as (k & -> & Hin); [lia |].
    destruct (filed k Hin) as (l & Hget & Hpos).
    cbn [bind]. unfold Dict.getitem. rewrite Hget. cbn [bind].
    exists (total_volume l). split; [reflexivity |]. split; [exact Hpos | lia].
  - exists 0. split; [reflexivity |]. split; [lia | reflexivity].
Qed.

Lemma va_loop_returns (fuel : nat) :
  forall va lw h,
    0 <= lw -> lw <= h -> h < Py.len sorted_prices ->
    Py.len sorted_prices - (h - lw) <= Z.of_nat fuel ->
    exists lw' h',
      va_loop fuel d sorted_prices target va lw h = Ok (lw', h') /\
      0 <= lw' /\ lw' <= h' /\ h' < Py.len sorted_prices.
Proof.
  induction fuel as [| fuel IH]; intros va lw h Hlw Hle Hh Hfuel; [lia |].
  cbn [va_loop].
  destruct (Qle_bool target (inject_Z va)).
  { exists lw, h. repeat split; assumption. }
  destruct (vol_above_returns h) as (above & -> & Ha0 & Ha); [lia |].
  destruct (vol_below_returns lw) as (below & -> & Hb0 & Hb); [lia |].
  cbn [bind].
  destruct (Z.eqb_spec above 0) as [Hza | Hnza];
    destruct (Z.eqb_spec below 0) as [Hzb | Hnzb]; cbn [andb];
    try (exists lw, h; repeat split; assumption).
  - destruct (Z.geb_spec above below) as [Hge | Hlt]; [lia |].
    apply IH; lia.
  - destruct (Z.geb_spec above below) as [Hge | Hlt]; [| lia].
    apply IH; lia.
  - destruct (Z.geb_spec above below) as [Hge | Hlt].
    + apply IH; lia.
    + apply IH; lia.
Qed.

End ValueAreaLoopReturns.

Lemma update_bar_statistics_returns_levels (b : FootprintBar) (p : Q) :
  levels_wf (price_levels b) ->
  Forall (fun kv => 0 <= total_volume (snd kv)) (price_levels b) ->
  exists b', update_bar_statistics b p = Ok b'.
Proof.
  intros [Hd Hwf] Hpos. unfold update_bar_statistics.
  set (D := price_levels b) in *.
  destruct D as [| kv d0] eqn:ED; [eexists; reflexivity |].
  rewrite <- ED in *.
  set (levels := Dict.values D).
  set (total := Py.sum total_volume levels).
  assert (Hmax : exists lv, Py.max_by total_volume levels = Some lv /\ In lv levels).
  { subst levels. rewrite ED. unfold Dict.values. cbn [map Py.max_by].
    eexists; split; [reflexivity |].
    destruct (max_from_first_maximal total_volume (map snd d0) (snd kv))
      as (before & after & Heq & _).
    rewrite Heq. apply in_or_app. right. left. reflexivity. }
  destruct Hmax as (lv & -> & Hlv).
  destruct (total >? 0); [| eexists; reflexivity].
  assert (Hfiled : forall k l, In (k, l) D ->
            Dict.get D k = Some l /\ price l = k /\ 0 <= total_volume l).
  { intros k l Hin. split; [apply Dict_get_In; assumption |].
    rewrite Forall_forall in Hwf, Hpos.
    destruct (Hwf _ Hin) as [Hp _]. split; [exact Hp | exact (Hpos _ Hin)]. }
  assert (Hin : In (price lv, lv) D).
  { subst levels. unfold Dict.values in Hlv. apply in_map_iff in Hlv.
    destruct Hlv as ([k l] & Hl & Hin). cbn [snd] in Hl. subst l.
    destruct (Hfiled k lv Hin) as (_ & -> & _). exact Hin. }
  destruct (sorted_spec (Dict.keys D) Hd) as [_ Hperm].
  set (sorted_prices := Py.sorted (Dict.keys D)) in *.
  assert (Hkeys : forall k, In k sorted_prices ->
            exists l, Dict.get D k = Some l /\ 0 <= total_volume l).
  { intros k Hk. apply (Permutation_in _ Hperm) in Hk.
    unfold Dict.keys in Hk. apply in_map_iff in Hk.
    destruct Hk as ([k' l] & Hk' & Hkl). cbn [fst] in Hk'. subst k'.
    destruct (Hfiled k l Hkl) as (Hget & _ & H0). exists l. split; assumption. }
  assert (Hex : Exists (fun y => (y == price lv)%Q) sorted_prices).
  { apply Exists_exists. exists (price lv). split; [| reflexivity].
    apply (Permutation_in _ (Permutation_sym Hperm)).
    unfold Dict.keys. apply in_map_iff. exists (price lv, lv).
    split; [reflexivity | exact Hin]. }
  destruct (index_from_spec (price lv) sorted_prices 0 Hex)
    as (pre & x & post & Hsplit & _ & Hidx).
  rewrite Z.add_0_l in Hidx. unfold Py.index. rewrite Hidx. cbn [bind].
  destruct (Hfiled _ _ Hin) as (Hget & _).
  unfold Dict.getitem at 1. rewrite Hget. cbn [bind].
  assert (Hlen : Py.len pre < Py.len sorted_prices).
  { rewrite Hsplit. unfold Py.len. rewrite length_app. simpl List.length. lia. }
  assert (Hpre : 0 <= Py.len pre) by (unfold Py.len; lia).
  destruct (va_loop_returns D sorted_prices
              (target_va_volume total p) Hkeys (S (List.length sorted_prices))
              (total_volume lv) (Py.len pre) (Py.len pre))
    as (lw' & h' & -> & H1 & H2 & H3); try lia.
  { unfold Py.len. lia. }
  cbn [bind fst snd].
  destruct (getitem_In sorted_prices h') as (hi & -> & _); [lia |].
  destruct (getitem_In sorted_prices lw') as (lo & -> & _); [lia |].
  cbn [bind]. eexists. reflexivity.
Qed.

Lemma volumes_not_negative (ticks : list Tick.t) :
  Forall (fun t => 0 <= Tick.volume t) ticks -> 0 <= volumes ticks.
Proof.
  unfold volumes. induction 1 as [| t ticks Ht _ IH]; [simpl; lia |].
  cbn [map]. rewrite zsum_cons. lia.
Qed.

Lemma Forall_filter_keep {A : Type} (P : A -> Prop) (f : A -> bool) (l : list A) :
  Forall P l -> Forall P (filter f l).
Proof.
  rewrite !Forall_forall. intros H x Hx. apply filter_In in Hx. apply H, Hx.
Qed.

Lemma bar_of_levels_not_negative (cfg : FootprintEngineConfig)
    (ticks : list Tick.t) (b : FootprintBar) :
  bar_of cfg ticks b ->
  Forall (fun t => 0 <= Tick.volume t) ticks ->
  levels_wf (price_levels b) /\
  Forall (fun kv => 0 <= total_volume (snd kv)) (price_levels b).
Proof.
  intros Hof Hpos.
  destruct (bar_of_levels cfg ticks b Hof) as (_ & Hwf & _).
  split; [exact Hwf |].
  rewrite Forall_forall. intros [k l] Hin. cbn [snd].
  pose proof (bar_of_level_holds cfg ticks b Hof k) as Hk.
  rewrite (Dict_get_In _ k l (proj1 Hwf) Hin) in Hk.
  destruct Hk as (_ & (Hv & _) & Hbv & Hav & _).
  assert (H1 : 0 <= volumes (bid_ticks (ticks_at cfg k ticks))).
  { apply volumes_not_negative. unfold bid_ticks, ticks_at.
    apply Forall_filter_keep, Forall_filter_keep. exact Hpos. }
  assert (H2 : 0 <= volumes (ask_ticks (ticks_at cfg k ticks))).
  { apply volumes_not_negative. unfold ask_ticks, ticks_at.
    apply Forall_filter_keep, Forall_filter_keep. exact Hpos. }
  lia.
Qed.







(** ** The first step of the Value Area search *)

Lemma index_from_skip (x : Q) (pre post : list Q) (i : Z) :
  Forall (fun a => (a < x)%Q) pre ->
  Py.index_from x (pre ++ x :: post) i = Ok (i + Py.len pre).
Proof.
  revert i. induction pre as [| a pre IH]; intros i Hpre; cbn [app Py.index_from].
  - rewrite Qeq_bool_refl. unfold Py.len. simpl. f_equal. lia.
  - pose proof (Forall_inv Hpre) as Ha. apply Forall_inv_tail in Hpre.
    destruct (Qeq_bool a x) eqn:E.
    + apply Qeq_bool_iff in E. exfalso. exact (Qlt_not_eq _ _ Ha E).
    + rewrite (IH (i + 1) Hpre). unfold Py.len. simpl List.length.
      f_equal. lia.
Qed.

Lemma getitem_after {A : Type} (l1 : list A) (a b : A) (l2 : list A) :
  Py.getitem (l1 ++ a :: b :: l2) (Py.len l1 + 1) = Ok b.
Proof.
  replace (l1 ++ a :: b :: l2) with ((l1 ++ [a]) ++ b :: l2)
    by (rewrite <- app_assoc; reflexivity).
  rewrite <- (len_snoc l1 a). apply getitem_middle.
Qed.

Lemma getitem_before {A : Type} (l1 : list A) (a b : A) (l2 : list A) :
  Py.getitem ((l1 ++ [a]) ++ b :: l2) (Py.len (l1 ++ [a]) - 1) = Ok a.
Proof.
  rewrite len_snoc. replace (Py.len l1 + 1 - 1) with (Py.len l1) by lia.
  rewrite <- app_assoc. apply getitem_middle.
Qed.

Lemma vol_getitem (d : Dict.t PriceLevelData) (k : Q) :
  In k (Dict.keys d) ->
  (l <- Dict.getitem d k ;; Ok (total_volume l)) = Ok (vol d k).
Proof.
  intros Hin. pose proof (mem_keys d k Hin) as Hmem.
  unfold Dict.mem in Hmem. unfold Dict.getitem, vol.
  destruct (Dict.get d k); [reflexivity | discriminate].
Qed.

Lemma value_area_search (cfg : FootprintEngineConfig) (ticks : list Tick.t)
    (b b' : FootprintBar) (p poc : Q) (pre post : list Q) :
  bar_of cfg ticks b ->
  update_bar_statistics b p = Ok b' ->
  0 < total_bar_volume b' ->
  poc_price b' = Some poc ->
  Py.sorted (Dict.keys (price_levels b)) = pre ++ poc :: post ->
  vol_above (price_levels b) (pre ++ poc :: post) (Py.len pre)
  = Ok (volume_at b (hd_error post)) /\
  vol_below (price_levels b) (pre ++ poc :: post) (Py.len pre)
  = Ok (volume_at b (hd_error (rev pre))) /\
  exists idx hi lo,
    va_loop (S (List.length (pre ++ poc :: post))) (price_levels b)
      (pre ++ poc :: post) (target_va_volume (total_bar_volume b') p)
      (vol (price_levels b) poc) (Py.len pre) (Py.len pre) = Ok idx /\
    Py.getitem (pre ++ poc :: post) (snd idx) = Ok hi /\
    Py.getitem (pre ++ poc :: post) (fst idx) = Ok lo /\
    value_area_high b' = Some hi /\
    value_area_low b' = Some lo.
Proof.
  intros Hof H Htotal Hpoc Hsorted.
  destruct (bar_of_levels cfg ticks b Hof) as (Hne & [Hd Hwf] & _).
  destruct (sorted_spec _ Hd) as [Hs Hperm]. rewrite Hsorted in Hs, Hperm.
  assert (Hkeys : forall k, In k (pre ++ poc :: post) ->
            In k (Dict.keys (price_levels b))).
  { intros k Hk. exact (Permutation_in _ Hperm Hk). }
  split; [| split].
  - unfold vol_above, volume_at.
    destruct post as [| k post']; cbn [hd_error].
    + destruct (Z.ltb_spec (Py.len pre + 1) (Py.len (pre ++ [poc])));
        [rewrite len_snoc in *; lia | reflexivity].
    + destruct (Z.ltb_spec (Py.len pre + 1) (Py.len (pre ++ poc :: k :: post')))
        as [_ | Hge].
      * rewrite getitem_after. cbn [bind]. apply vol_getitem, Hkeys.
        apply in_or_app. right. right. left. reflexivity.
      * unfold Py.len in Hge. rewrite length_app in Hge.
        simpl List.length in Hge. lia.
  - unfold vol_below, volume_at.
    destruct (snoc_case pre) as [-> | (pre' & k & ->)]; cbn [rev hd_error].
    + reflexivity.
    + rewrite rev_unit. cbn [hd_error].
      destruct (Z.geb_spec (Py.len (pre' ++ [k]) - 1) 0) as [_ | Hlt];
        [| rewrite len_snoc in Hlt; unfold Py.len in Hlt; lia].
      rewrite getitem_before. cbn [bind]. apply vol_getitem, Hkeys.
      apply in_or_app. left. apply in_or_app. right. left. reflexivity.
  - unfold update_bar_statistics in H.
    destruct (price_levels b) as [| kv d0] eqn:ED; [contradiction |].
    assert (Hmax : exists lv,
              Py.max_by total_volume (Dict.values (kv :: d0)) = Some lv)
      by (eexists; reflexivity).
    destruct Hmax as [lv Hmax]. rewrite <- ED in *. rewrite Hmax in H.
    inv_bind H. injection H as <-.
    cbn [with_statistics total_bar_volume poc_price value_area_high
         value_area_low] in *.
    injection Hpoc as Hpoc. subst poc.
    apply Z.gtb_lt in Htotal. rewrite Htotal in Ha.
    rewrite Hsorted in Ha. unfold Py.index in Ha.
    rewrite index_from_skip in Ha.
    2:{ destruct (StronglySorted_app_inv _ _ _ Hs) as (_ & _ & Hlt).
        eapply Forall_impl; [| exact Hlt]. intros x Hx.
        exact (Forall_inv Hx). }
    rewrite Z.add_0_l in Ha. cbn [bind] in Ha.
    set (poc := price lv) in *.
    assert (Hin : In poc (Dict.keys (price_levels b))).
    { apply Hkeys. apply in_or_app. right. left. reflexivity. }
    pose proof (mem_keys _ _ Hin) as Hmem. unfold Dict.mem in Hmem.
    unfold Dict.getitem at 1 in Ha.
    assert (Hvol : forall l, Dict.get (price_levels b) poc = Some l ->
                     total_volume l = vol (price_levels b) poc).
    { intros l Hl. unfold vol. rewrite Hl. reflexivity. }
    destruct (Dict.get (price_levels b) poc) as [l |]; [| discriminate].
    cbn [bind] in Ha. rewrite (Hvol l eq_refl) in Ha.
    apply bind_Ok in Ha. destruct Ha as (idx & Hidx & Ha).
    apply bind_Ok in Ha. destruct Ha as (hi & Hhi & Ha).
    apply bind_Ok in Ha. destruct Ha as (lo & Hlo & Ha).
    injection Ha as <-.
    exists idx, hi, lo. cbn [fst snd].
    split; [exact Hidx |]. split; [exact Hhi |]. split; [exact Hlo |].
    split; reflexivity.
Qed.

Lemma two_units_of_fuel {A : Type} (pre : list A) (x : A) (post : list A) :
  exists n, S (List.length (pre ++ x :: post)) = S (S n).
Proof.
  rewrite length_app. simpl List.length. rewrite Nat.add_succ_r.
  eexists. reflexivity.
Qed.

(** X27: the first step of the Value Area search in a bar with positive
    total volume, in terms of the prices next to the Point of Control in
    ascending order (volume 0 where there is no such price); the target
    is the product total_bar_volume * value_area_percentage in double
    arithmetic, as domain.py:148 computes it.  The Value
    Area is the POC alone when the POC's volume reaches the target, and
    also when it does not but both neighbours have volume 0, whatever the
    volume further away.  Otherwise the neighbour with the larger volume
    is added, the upper one on a tie, and the search ends there when the
    target is reached. *)
Theorem value_area_first_step (cfg : FootprintEngineConfig)
    (ticks : list Tick.t) (b b' : FootprintBar) (p poc : Q)
    (pre post : list Q) :
  bar_of cfg ticks b ->
  update_bar_statistics b p = Ok b' ->
  0 < total_bar_volume b' ->
  poc_price b' = Some poc ->
  Py.sorted (Dict.keys (price_levels b)) = pre ++ poc :: post ->
  let above := volume_at b (hd_error post) in
  let below := volume_at b (hd_error (rev pre)) in
  let target := target_va_volume (total_bar_volume b') p in
  let at_poc := vol (price_levels b) poc in
  ((target <= inject_Z at_poc)%Q \/ (above = 0 /\ below = 0) ->
   value_area_low b' = Some poc /\ value_area_high b' = Some poc) /\
  (~ (target <= inject_Z at_poc)%Q ->
   above >= below ->
   (target <= inject_Z (at_poc + above))%Q ->
   value_area_low b' = Some poc /\ value_area_high b' = hd_error post) /\
  (~ (target <= inject_Z at_poc)%Q ->
   above < below ->
   (target <= inject_Z (at_poc + below))%Q ->
   value_area_low b' = hd_error (rev pre) /\ value_area_high b' = Some poc).
Proof.
  intros Hof H Htotal Hpoc Hsorted above below target at_poc.
  destruct (value_area_search cfg ticks b b' p poc pre post Hof H Htotal Hpoc
              Hsorted)
    as (Habove & Hbelow & idx & hi & lo & Hidx & Hhi & Hlo & -> & ->).
  fold above in Habove. fold below in Hbelow. fold target at_poc in Hidx.
  destruct (two_units_of_fuel pre poc post) as [n Hn]. rewrite Hn in Hidx.
  cbn [va_loop] in Hidx. rewrite Habove, Hbelow in Hidx. cbn [bind] in Hidx.
  assert (Hfalse : forall x, ~ (target <= inject_Z x)%Q ->
            Qle_bool target (inject_Z x) = false).
  { intros x Hx. destruct (Qle_bool target (inject_Z x)) eqn:E; [| reflexivity].
    apply Qle_bool_iff in E. contradiction. }
  split; [| split].
  - intros [Hreach | [Ha Hb]].
    + apply Qle_bool_iff in Hreach. rewrite Hreach in Hidx.
      injection Hidx as <-. cbn [fst snd] in *.
      rewrite getitem_middle in Hhi, Hlo. injection Hhi as <-. injection Hlo as <-.
      split; reflexivity.
    + rewrite Ha, Hb in Hidx. cbn [Z.eqb andb] in Hidx.
      destruct (Qle_bool target (inject_Z at_poc));
        injection Hidx as <-; cbn [fst snd] in *;
        rewrite getitem_middle in Hhi, Hlo;
        injection Hhi as <-; injection Hlo as <-; split; reflexivity.
  - intros Hnot Hge Hreach. rewrite (Hfalse _ Hnot) in Hidx.
    assert (Hpos : 0 < above).
    { destruct (Z.lt_ge_cases 0 above) as [Hp | Hn0]; [exact Hp |].
      exfalso. apply Hnot. eapply Qle_trans; [exact Hreach |].
      rewrite <- Zle_Qle. lia. }
    destruct (Z.eqb_spec above 0) as [Hz | _]; [lia |]. cbn [andb] in Hidx.
    destruct (Z.geb_spec above below) as [_ | Hlt]; [| lia].
    apply Qle_bool_iff in Hreach. rewrite Hreach in Hidx.
    injection Hidx as <-. cbn [fst snd] in *.
    rewrite getitem_middle in Hlo. injection Hlo as <-.
    destruct post as [| k post'].
    + exfalso. unfold above, volume_at in Hpos. cbn [hd_error] in Hpos. lia.
    + rewrite getitem_after in Hhi. injection Hhi as <-.
      split; reflexivity.
  - intros Hnot Hlt Hreach. rewrite (Hfalse _ Hnot) in Hidx.
    assert (Hpos : 0 < below).
    { destruct (Z.lt_ge_cases 0 below) as [Hp | Hn0]; [exact Hp |].
      exfalso. apply Hnot. eapply Qle_trans; [exact Hreach |].
      rewrite <- Zle_Qle. lia. }
    destruct (Z.eqb_spec below 0) as [Hz | _]; [lia |].
    rewrite andb_false_r in Hidx.
    destruct (Z.geb_spec above below) as [Hge | _]; [lia |].
    apply Qle_bool_iff in Hreach. rewrite Hreach in Hidx.
    injection Hidx as <-. cbn [fst snd] in *.
    rewrite getitem_middle in Hhi. injection Hhi as <-.
    destruct (snoc_case pre) as [Hnil | (pre' & k & Hpre)].
    + exfalso. unfold below, volume_at in Hpos. rewrite Hnil in Hpos.
      cbn [rev hd_error] in Hpos. lia.
    + rewrite Hpre in *. rewrite rev_unit. cbn [hd_error].
      rewrite getitem_before in Hlo. injection Hlo as <-.
      split; reflexivity.
Qed.

Lemma value_area_first_step_witness :
  exists b',
    update_bar_statistics example_bar (9 # 10) = Ok b' /\
    poc_price b' = Some 100%Q /\
    value_area_low b' = Some 100%Q /\
    value_area_high b' = Some (401 # 4).
Proof.
  pose (b' := match update_bar_statistics example_bar (9 # 10) with
              | Ok x => x
              | Err _ => example_bar
              end).
  assert (H : update_bar_statistics example_bar (9 # 10) = Ok b')
    by (vm_compute; reflexivity).
  assert (Htotal : 0 < total_bar_volume b') by (vm_compute; reflexivity).
  assert (Hpoc : poc_price b' = Some 100%Q) by (vm_compute; reflexivity).
  assert (Hsorted : Py.sorted (Dict.keys (price_levels example_bar))
                    = [] ++ 100%Q :: [401 # 4])
    by (vm_compute; reflexivity).
  assert (Hnot : ~ (target_va_volume (total_bar_volume b') (9 # 10)
                    <= inject_Z (vol (price_levels example_bar) 100%Q))%Q)
    by (intros Hc; vm_compute in Hc; apply Hc; reflexivity).
  assert (Hge : volume_at example_bar (hd_error [401 # 4])
                >= volume_at example_bar (hd_error (rev []))).
  { vm_compute. discriminate. }
  assert (Hreach : (target_va_volume (total_bar_volume b') (9 # 10)
                    <= inject_Z (vol (price_levels example_bar) 100%Q
                                 + volume_at example_bar (hd_error [401 # 4])))%Q).
  { vm_compute. discriminate. }
  clearbody b'.
  destruct (value_area_first_step example_config (firstn 3 tick_data_1min)
              example_bar b' (9 # 10) 100%Q [] [401 # 4]
              example_bar_built H Htotal Hpoc Hsorted) as (_ & Hup & _).
  destruct (Hup Hnot Hge Hreach) as [Hlo Hhi].
  exists b'. split; [exact H |]. split; [exact Hpoc |].
  split; [exact Hlo | exact Hhi].
Defined.

(** ** The Value Area of a bar with zero-volume ticks *)

Lemma getitem_nth {A : Type} (l : list A) (i : Z) (a : A) :
  0 <= i -> Py.getitem l i = Ok a -> nth_error l (Z.to_nat i) = Some a.
Proof.
  intros Hi. unfold Py.getitem.
  destruct (Z.ltb_spec i 0) as [Hneg | _]; [lia |].
  destruct ((i <? 0) || (Py.len l <=? i)); [discriminate |].
  destruct (nth_error l (Z.to_nat i)); [| discriminate].
  intros Heq; injection Heq as ->. reflexivity.
Qed.

Lemma getitem_sorted_le (l : list Q) (i j : Z) (a b : Q) :
  StronglySorted Qlt l ->
  0 <= i -> i <= j ->
  Py.getitem l i = Ok a ->
  Py.getitem l j = Ok b ->
  (a <= b)%Q.
Proof.
  intros Hs Hi Hij Ha Hb.
  apply getitem_nth in Ha; [| lia]. apply getitem_nth in Hb; [| lia].
  destruct (Z.eq_dec i j) as [-> | Hne].
  - rewrite Ha in Hb. injection Hb as ->. apply Qle_refl.
  - destruct (nth_error_split l (Z.to_nat j) Hb) as (l1 & l2 & -> & Hlen).
    rewrite nth_error_app1 in Ha by lia.
    apply nth_error_In in Ha.
    destruct (StronglySorted_app_inv _ _ _ Hs) as (_ & _ & Hlt).
    rewrite Forall_forall in Hlt. specialize (Hlt a Ha).
    apply Forall_inv in Hlt. apply Qlt_le_weak. exact Hlt.
Qed.

Section ValueAreaLoopBrackets.

Variable d : Dict.t PriceLevelData.
Variable sorted_prices : list Q.
Variable target : Q.

Hypothesis filed : forall k, In k sorted_prices ->
  exists l, Dict.get d k = Some l /\ 0 <= total_volume l.

Lemma va_loop_brackets (fuel : nat) :
  forall va lw h lw' h',
    0 <= lw -> lw <= h -> h < Py.len sorted_prices ->
    va_loop fuel d sorted_prices target va lw h = Ok (lw', h') ->
    0 <= lw' /\ lw' <= lw /\ h <= h' /\ h' < Py.len sorted_prices.
Proof.
  induction fuel as [| fuel IH]; intros va lw h lw' h' Hlw Hle Hh H;
    [discriminate |].
  cbn [va_loop] in H.
  destruct (Qle_bool target (inject_Z va)).
  { injection H as <- <-. lia. }
  destruct (vol_above_returns d sorted_prices filed h) as (above & Ea & Ha0 & Ha);
    [lia |].
  destruct (vol_below_returns d sorted_prices filed lw) as (below & Eb & Hb0 & Hb);
    [lia |].
  rewrite Ea, Eb in H. cbn [bind] in H.
  destruct ((above =? 0) && (below =? 0)) eqn:Ez.
  { injection H as <- <-. lia. }
  apply andb_false_iff in Ez.
  destruct (Z.geb_spec above below) as [Hge | Hlt].
  - assert (Hin : h + 1 < Py.len sorted_prices).
    { destruct (Z.lt_ge_cases (h + 1) (Py.len sorted_prices)) as [Hi | Ho];
        [exact Hi |].
      exfalso. specialize (Ha Ho).
      destruct Ez as [Ez | Ez]; apply Z.eqb_neq in Ez; lia. }
    assert (Hle' : lw <= h + 1) by lia.
    specialize (IH _ _ _ _ _ Hlw Hle' Hin H). lia.
  - assert (Hin : 0 <= lw - 1).
    { destruct (Z.lt_ge_cases (lw - 1) 0) as [Ho | Hi]; [| exact Hi].
      exfalso. specialize (Hb Ho). lia. }
    assert (Hle' : lw - 1 <= h) by lia.
    specialize (IH _ _ _ _ _ Hin Hle' Hh H). lia.
Qed.

End ValueAreaLoopBrackets.

(** X28: zero-volume ticks keep the Value Area around the Point of
    Control.  For a bar built from ticks of volume >= 0, not all zero,
    [update_bar_statistics] returns with poc_price, value_area_low and
    value_area_high set to prices of the bar's levels, and
    value_area_low <= poc_price <= value_area_high. *)
Theorem value_area_brackets_poc (cfg : FootprintEngineConfig)
    (ticks : list Tick.t) (b : FootprintBar) (p : Q) :
  bar_of cfg ticks b ->
  Forall (fun t => 0 <= Tick.volume t) ticks ->
  0 < volumes ticks ->
  exists b' lo hi poc,
    update_bar_statistics b p = Ok b' /\
    value_area_low b' = Some lo /\
    value_area_high b' = Some hi /\
    poc_price b' = Some poc /\
    (lo <= poc)%Q /\ (poc <= hi)%Q /\
    In lo (Dict.keys (price_levels b)) /\
    In hi (Dict.keys (price_levels b)) /\
    In poc (Dict.keys (price_levels b)).
Proof.
  intros Hof Hpos Hvol.
  destruct (bar_of_levels_not_negative cfg ticks b Hof Hpos) as [Hwf Hnn].
  destruct (update_bar_statistics_returns_levels b p Hwf Hnn) as [b' H].
  destruct (bar_of_levels cfg ticks b Hof) as (Hne & _).
  destruct (update_bar_statistics_poc b b' p Hne H) as (_ & l & Hl & Hpoc).
  rewrite (update_bar_statistics_levels b b' p H) in Hl.
  assert (Hkey : In (price l) (Dict.keys (price_levels b))).
  { unfold Dict.values in Hl. apply in_map_iff in Hl.
    destruct Hl as (kv & <- & Hin). destruct Hwf as [_ Hall].
    rewrite Forall_forall in Hall. destruct (Hall kv Hin) as [-> _].
    unfold Dict.keys. apply in_map. exact Hin. }
  destruct (sorted_spec _ (proj1 Hwf)) as [Hs Hperm].
  assert (Hin : In (price l) (Py.sorted (Dict.keys (price_levels b))))
    by exact (Permutation_in _ (Permutation_sym Hperm) Hkey).
  destruct (in_split _ _ Hin) as (pre & post & Hsorted).
  assert (Htotal : 0 < total_bar_volume b').
  { rewrite (proj1 (bar_of_totals cfg ticks b b' p Hof H)). exact Hvol. }
  destruct (value_area_search cfg ticks b b' p (price l) pre post Hof H Htotal
              Hpoc Hsorted)
    as (_ & _ & [lw' h'] & hi & lo & Hidx & Hhi & Hlo & Hvah & Hval).
  cbn [fst snd] in *.
  assert (Hfiled : forall k, In k (pre ++ price l :: post) ->
            exists l0, Dict.get (price_levels b) k = Some l0 /\
                       0 <= total_volume l0).
  { intros k Hk. rewrite <- Hsorted in Hk. apply (Permutation_in _ Hperm) in Hk.
    unfold Dict.keys in Hk. apply in_map_iff in Hk.
    destruct Hk as ([k' l0] & Hk' & Hkl). cbn [fst] in Hk'. subst k'.
    exists l0. split; [apply Dict_get_In; [exact (proj1 Hwf) | exact Hkl] |].
    rewrite Forall_forall in Hnn. exact (Hnn _ Hkl). }
  assert (Hlen : Py.len pre < Py.len (pre ++ price l :: post)).
  { unfold Py.len. rewrite length_app. simpl List.length. lia. }
  assert (Hpre : 0 <= Py.len pre) by (unfold Py.len; lia).
  destruct (va_loop_brackets (price_levels b) (pre ++ price l :: post) _ Hfiled
              _ _ _ _ _ _ Hpre (Z.le_refl _) Hlen Hidx) as (H0 & H1 & H2 & H3).
  rewrite Hsorted in Hs.
  pose proof (getitem_middle pre (price l) post) as Hmid.
  exists b', lo, hi, (price l).
  split; [exact H |]. split; [exact Hval |]. split; [exact Hvah |].
  split; [exact Hpoc |].
  split; [exact (getitem_sorted_le _ _ _ _ _ Hs H0 H1 Hlo Hmid) |].
  split; [exact (getitem_sorted_le _ _ _ _ _ Hs Hpre H2 Hmid Hhi) |].
  assert (Hkeys : forall i k, 0 <= i ->
            Py.getitem (pre ++ price l :: post) i = Ok k ->
            In k (Dict.keys (price_levels b))).
  { intros i k Hi Hk. apply getitem_nth in Hk; [| exact Hi].
    apply nth_error_In in Hk. rewrite <- Hsorted in Hk.
    exact (Permutation_in _ Hperm Hk). }
  split; [exact (Hkeys _ _ H0 Hlo) |].
  split; [apply (Hkeys h' hi); [lia | exact Hhi] | exact Hkey].
Qed.

Lemma value_area_brackets_poc_witness :
  exists b' lo hi poc,
    update_bar_statistics
      (fold_tick example_config example_bar (example_start + seconds 59)
         (201 # 2) 0 true) (7 # 10) = Ok b' /\
    value_area_low b' = Some lo /\
    value_area_high b' = Some hi /\
    poc_price b' = Some poc /\
    (lo <= poc)%Q /\ (poc <= hi)%Q.
Proof.
  destruct (value_area_brackets_poc example_config
              (firstn 3 tick_data_1min
               ++ [Tick.mk (example_start + seconds 59) (1005 # 10) 0 true])
              (fold_tick example_config example_bar (example_start + seconds 59)
                 (201 # 2) 0 true) (7 # 10))
    as (b' & lo & hi & poc & H & Hlo & Hhi & Hpoc & H1 & H2 & _).
  - apply (bar_of_next example_config (firstn 3 tick_data_1min) example_bar
             (Tick.mk (example_start + seconds 59) (1005 # 10) 0 true) (201 # 2));
      [exact example_bar_built | vm_compute; reflexivity].
  - repeat constructor; simpl; lia.
  - vm_compute. reflexivity.
  - exists b', lo, hi, poc. repeat split; assumption.
Defined.
